(** * Stage transitions of the kanban pipeline: the drag hook and the stage form

    A shallow embedding of [useOpportunityDrag] (the hook behind a drag of an
    opportunity card from one stage column to another) and of the validation
    and submission path of [EditStageDialog].  Around them, the code they
    sit beside: the loading effect of [EditStageDialog], the [useUserRole]
    hook, the column order of [KanbanStages], the [CreateUserDialog] form
    and the scheduled actions of [OpportunityDetailsTabs].

    Most of it is asynchronous orchestration code: it calls a remote store,
    raises notifications and writes React state.  It is embedded as programs over
    an effect signature (a free monad): every call the source makes to the
    outside (a toast, a state setter, [console.error], [new Date()], an
    awaited API call) is one node of the program, and an interpreter runs the
    program against an explicit world, recording the effects performed and
    the answers they received.  A promise that rejects is an answer
    [Rejected]; [try]/[catch]/[finally] is the case analysis on it.

    [console.log] lines are diagnostics without any effect on control flow or
    state and are left out; [console.error] is kept, since the error paths
    are specified by what they log. *)

From Stdlib Require Import String List ZArith Bool Ascii Lia.
From Stdlib Require Import Permutation Sorted.
Import ListNotations.
Open Scope string_scope.
Open Scope list_scope.

(** ** Programs over an effect signature *)

Module Free.
Section Prog.
Context {E : Type} {R : E -> Type}.

(** [Vis e k] performs the effect [e] and continues with [k] applied to its
    answer. *)
Inductive Prog (A : Type) : Type :=
| Ret (a : A)
| Vis (e : E) (k : R e -> Prog A).
Arguments Ret {A} a.
Arguments Vis {A} e k.

Fixpoint bind {A B : Type} (p : Prog A) (f : A -> Prog B) : Prog B :=
  match p with
  | Ret a => f a
  | Vis e k => Vis e (fun r => bind (k r) f)
  end.

Definition call (e : E) : Prog (R e) := Vis e (fun r => Ret r).

(** [Array.prototype.map] with an effectful callback: the elements are
    visited left to right. *)
Fixpoint mapM {A B : Type} (f : A -> Prog B) (l : list A) : Prog (list B) :=
  match l with
  | [] => Ret []
  | x :: rest =>
      bind (f x) (fun y => bind (mapM f rest) (fun ys => Ret (y :: ys)))
  end.

(** One entry of a trace: an effect together with the answer it got. *)
Record Event : Type := Did { ev_eff : E; ev_resp : R ev_eff }.

Section Run.
Context {W : Type}.
Variable perform : forall e : E, W -> R e * W.

(** Run to completion: every awaited call is answered at once. *)
Fixpoint run {A : Type} (p : Prog A) (w : W) : A * W * list Event :=
  match p with
  | Ret a => (a, w, [])
  | Vis e k =>
      let (r, w1) := perform e w in
      let '(a, w2, t) := run (k r) w1 in
      (a, w2, Did e r :: t)
  end.

(** Cooperative scheduling: a task runs its synchronous effects and parks
    at the next awaited call, whose request is then pending. *)
Variable awaits : E -> bool.

Inductive Task (A : Type) : Type :=
| Finished (a : A)
| Suspended (e : E) (k : R e -> Prog A).
Arguments Finished {A} a.
Arguments Suspended {A} e k.

Fixpoint start {A : Type} (p : Prog A) (w : W) : Task A * W * list Event :=
  match p with
  | Ret a => (Finished a, w, [])
  | Vis e k =>
      if awaits e then (Suspended e k, w, [])
      else
        let (r, w1) := perform e w in
        let '(task, w2, t) := start (k r) w1 in
        (task, w2, Did e r :: t)
  end.

(** The pending call settles and the task runs on to its next await. *)
Definition resume {A : Type} (task : Task A) (w : W)
  : Task A * W * list Event :=
  match task with
  | Finished a => (Finished a, w, [])
  | Suspended e k =>
      let (r, w1) := perform e w in
      let '(task', w2, t) := start (k r) w1 in
      (task', w2, Did e r :: t)
  end.

(** The call a task is parked at. *)
Definition pending {A : Type} (task : Task A) : option E :=
  match task with
  | Finished _ => None
  | Suspended e _ => Some e
  end.

End Run.
End Prog.

Arguments Prog {E} R A.
Arguments Event {E} R.
Arguments Task {E} R A.
Arguments Ret {E R A} a.
Arguments Vis {E R A} e k.
Arguments Finished {E R A} a.
Arguments Suspended {E R A} e k.
Arguments Did {E R} ev_eff ev_resp.

Module Notations.
Notation "x <- p ;; q" := (bind p (fun x => q))
  (at level 61, p at next level, right associativity).
Notation "p ;; q" := (bind p (fun _ => q))
  (at level 61, right associativity).
End Notations.
End Free.

Import Free Free.Notations.

(** ** Promises *)

(** The settled state of a promise; the rejection reason is kept as the text
    [console.error] would print for it. *)
Inductive Result (A : Type) : Type :=
| Resolved (a : A)
| Rejected (reason : string).
Arguments Resolved {A} a.
Arguments Rejected {A} reason.

(** The values of promises that have all resolved; otherwise the reason of
    the first rejected promise of the list. *)
Fixpoint values {A : Type} (l : list (Result A)) : Result (list A) :=
  match l with
  | [] => Resolved []
  | Rejected reason :: _ => Rejected reason
  | Resolved a :: rest =>
      match values rest with
      | Resolved xs => Resolved (a :: xs)
      | Rejected reason => Rejected reason
      end
  end.

(** The reason of the first promise to be rejected, when the promises at
    the positions [order] settle in that order. *)
Fixpoint firstRejection {A : Type} (order : list nat) (l : list (Result A))
  : option string :=
  match order with
  | [] => None
  | i :: later =>
      match nth_error l i with
      | Some (Rejected reason) => Some reason
      | _ => firstRejection later l
      end
  end.

(** [Promise.all] over promises that have all been started: the list of the
    values when all resolve, and as soon as one is rejected, a rejection
    with its reason.  Which promise is rejected first is up to the order in
    which they settle: [order] lists the positions of the promises, first
    settled first, and a promise it does not list settles after those it
    lists, in the order of the list. *)
Definition promiseAll {A : Type} (order : list nat) (l : list (Result A))
  : Result (list A) :=
  match values l with
  | Resolved xs => Resolved xs
  | Rejected inListOrder =>
      Rejected
        match firstRejection order l with
        | Some reason => reason
        | None => inListOrder
        end
  end.

(** ** Data model ([@/types]) *)

(** A [Date], as milliseconds since the epoch. *)
Definition Timestamp := Z.

(** Modelled from the spec: the declaration of [RequiredField] in
    [@/types] is not among the sources; the fields are those of the data
    model (id, stage reference, name, type, [isRequired] flag, optional
    enumerated options). *)
Record RequiredField : Type := {
  rf_id : string;
  rf_stageId : string;
  rf_name : string;
  rf_type : string;
  rf_isRequired : bool;
  rf_options : option (list string)
}.

(** Modelled from the spec: the declaration of [RequiredTask] in [@/types]
    is not among the sources; the fields are those of the data model (id,
    stage reference, name, [isRequired] flag, optional default duration). *)
Record RequiredTask : Type := {
  rt_id : string;
  rt_stageId : string;
  rt_name : string;
  rt_isRequired : bool;
  rt_defaultDuration : option Z
}.

(** Modelled from the spec: the declaration of [Opportunity] in [@/types] is
    not among the sources.  The fields are those of the data model (id,
    funnel and stage references, title, client, company and contact
    attributes, monetary value, custom-field map, completed-required-tasks
    map, win and loss reason, archived flag, last-stage-change timestamp),
    under the names the components use ([opportunity.stageId],
    [opportunity.funnelId], [lastStageChangeAt], ...).  The hook reads [id]
    and writes [stageId] and [lastStageChangeAt]; the rest is carried. *)
Record Opportunity : Type := {
  id : string;
  title : string;
  client : string;
  company : option string;
  email : option string;
  phone : option string;
  value : Z;
  funnelId : string;
  stageId : string;
  createdAt : Timestamp;
  customFields : option (list (string * string));
  requiredTasksCompleted : option (list (string * bool));
  winReason : option string;
  lossReason : option string;
  archived : option bool;
  lastStageChangeAt : option Timestamp
}.

(** [Partial<Opportunity>]: each key is absent ([None]) or carries a value
    of the field's type. *)
Record OpportunityPatch : Type := {
  upd_id : option string;
  upd_title : option string;
  upd_client : option string;
  upd_company : option (option string);
  upd_email : option (option string);
  upd_phone : option (option string);
  upd_value : option Z;
  upd_funnelId : option string;
  upd_stageId : option string;
  upd_createdAt : option Timestamp;
  upd_customFields : option (option (list (string * string)));
  upd_requiredTasksCompleted : option (option (list (string * bool)));
  upd_winReason : option (option string);
  upd_lossReason : option (option string);
  upd_archived : option (option bool);
  upd_lastStageChangeAt : option (option Timestamp)
}.

(** A key of the right operand of a spread wins when it is present. *)
Definition over {A : Type} (right : option A) (left : A) : A :=
  match right with Some v => v | None => left end.

Definition orElse {A : Type} (right left : option A) : option A :=
  match right with Some v => Some v | None => left end.

(** [{ ...opportunity, ...updatedOpportunity }] *)
Definition spreadOpportunity (o : Opportunity) (u : OpportunityPatch)
  : Opportunity :=
  {| id := over (upd_id u) (id o);
     title := over (upd_title u) (title o);
     client := over (upd_client u) (client o);
     company := over (upd_company u) (company o);
     email := over (upd_email u) (email o);
     phone := over (upd_phone u) (phone o);
     value := over (upd_value u) (value o);
     funnelId := over (upd_funnelId u) (funnelId o);
     stageId := over (upd_stageId u) (stageId o);
     createdAt := over (upd_createdAt u) (createdAt o);
     customFields := over (upd_customFields u) (customFields o);
     requiredTasksCompleted :=
       over (upd_requiredTasksCompleted u) (requiredTasksCompleted o);
     winReason := over (upd_winReason u) (winReason o);
     lossReason := over (upd_lossReason u) (lossReason o);
     archived := over (upd_archived u) (archived o);
     lastStageChangeAt :=
       over (upd_lastStageChangeAt u) (lastStageChangeAt o) |}.

(** [{ ...a, ...b }] on two partial records. *)
Definition spreadPatch (a b : OpportunityPatch) : OpportunityPatch :=
  {| upd_id := orElse (upd_id b) (upd_id a);
     upd_title := orElse (upd_title b) (upd_title a);
     upd_client := orElse (upd_client b) (upd_client a);
     upd_company := orElse (upd_company b) (upd_company a);
     upd_email := orElse (upd_email b) (upd_email a);
     upd_phone := orElse (upd_phone b) (upd_phone a);
     upd_value := orElse (upd_value b) (upd_value a);
     upd_funnelId := orElse (upd_funnelId b) (upd_funnelId a);
     upd_stageId := orElse (upd_stageId b) (upd_stageId a);
     upd_createdAt := orElse (upd_createdAt b) (upd_createdAt a);
     upd_customFields := orElse (upd_customFields b) (upd_customFields a);
     upd_requiredTasksCompleted :=
       orElse (upd_requiredTasksCompleted b) (upd_requiredTasksCompleted a);
     upd_winReason := orElse (upd_winReason b) (upd_winReason a);
     upd_lossReason := orElse (upd_lossReason b) (upd_lossReason a);
     upd_archived := orElse (upd_archived b) (upd_archived a);
     upd_lastStageChangeAt :=
       orElse (upd_lastStageChangeAt b) (upd_lastStageChangeAt a) |}.

(** [{ stageId: s }] *)
Definition stageIdPatch (s : string) : OpportunityPatch :=
  {| upd_id := None; upd_title := None; upd_client := None;
     upd_company := None; upd_email := None; upd_phone := None;
     upd_value := None; upd_funnelId := None; upd_stageId := Some s;
     upd_createdAt := None; upd_customFields := None;
     upd_requiredTasksCompleted := None; upd_winReason := None;
     upd_lossReason := None; upd_archived := None;
     upd_lastStageChangeAt := None |}.

(** [{ ...o, stageId: s }] *)
Definition withStageId (o : Opportunity) (s : string) : Opportunity :=
  {| id := id o; title := title o; client := client o; company := company o;
     email := email o; phone := phone o; value := value o;
     funnelId := funnelId o; stageId := s; createdAt := createdAt o;
     customFields := customFields o;
     requiredTasksCompleted := requiredTasksCompleted o;
     winReason := winReason o; lossReason := lossReason o;
     archived := archived o; lastStageChangeAt := lastStageChangeAt o |}.

(** [{ ...o, stageId: s, lastStageChangeAt: d }] *)
Definition stamped (o : Opportunity) (s : string) (d : Timestamp)
  : Opportunity :=
  {| id := id o; title := title o; client := client o; company := company o;
     email := email o; phone := phone o; value := value o;
     funnelId := funnelId o; stageId := s; createdAt := createdAt o;
     customFields := customFields o;
     requiredTasksCompleted := requiredTasksCompleted o;
     winReason := winReason o; lossReason := lossReason o;
     archived := archived o; lastStageChangeAt := Some d |}.

(** Modelled from the spec: the declaration of [Stage] in [@/types] is not
    among the sources.  The fields are those of the data model and of the
    [stages] table; the code under study reads [id], [funnelId] and
    [opportunities]. *)
Record Stage : Type := {
  stage_id : string;
  stage_funnelId : string;
  stage_name : string;
  stage_description : option string;
  stage_color : option string;
  stage_order : Z;
  isWinStage : option bool;
  isLossStage : option bool;
  winReasonRequired : option bool;
  lossReasonRequired : option bool;
  requiredFields : option (list RequiredField);
  requiredTasks : option (list RequiredTask);
  opportunities : list Opportunity
}.

(** [{ ...stage, opportunities: opps }] *)
Definition withOpportunities (s : Stage) (opps : list Opportunity) : Stage :=
  {| stage_id := stage_id s; stage_funnelId := stage_funnelId s;
     stage_name := stage_name s; stage_description := stage_description s;
     stage_color := stage_color s; stage_order := stage_order s;
     isWinStage := isWinStage s; isLossStage := isLossStage s;
     winReasonRequired := winReasonRequired s;
     lossReasonRequired := lossReasonRequired s;
     requiredFields := requiredFields s; requiredTasks := requiredTasks s;
     opportunities := opps |}.

(** [list.splice(start, 0, x)] on a copy of [list], for an integral [start]:
    a negative start counts from the end, and the start is clamped to
    [0 .. length]. *)
Definition spliceInsert {A : Type} (l : list A) (start : Z) (x : A) : list A :=
  let len := Z.of_nat (length l) in
  let actualStart :=
    if (start <? 0)%Z then Z.max (len + start) 0 else Z.min start len in
  firstn (Z.to_nat actualStart) l ++ x :: skipn (Z.to_nat actualStart) l.

(** ** The drag hook: [useOpportunityDrag] *)

Module UseOpportunityDrag.

(** Modelled from the spec: [useDragOperationHandler] is not among the
    sources.  A drag operation is the transient descriptor of the data
    model: the opportunity, the source stage id, the destination stage, the
    destination index, and the verdict of the requirement evaluator (missing
    required fields, missing required tasks, and whether a win/loss reason
    is required). *)
Record DragOperation : Type := {
  op_opportunity : Opportunity;
  op_sourceStageId : string;
  op_destinationStage : Stage;
  op_destinationIndex : Z;
  missingRequiredFields : list RequiredField;
  missingRequiredTasks : list RequiredTask;
  requiresReason : bool
}.

Definition isEmpty {A : Type} (l : list A) : bool :=
  match l with [] => true | _ :: _ => false end.

(** Modelled from the spec: [hasRequirements] of the absent
    [useDragOperationHandler] is the predicate "has any requirement": the
    union of the three checks is non-empty. *)
Definition hasRequirements (op : DragOperation) : bool :=
  negb (isEmpty (missingRequiredFields op))
  || negb (isEmpty (missingRequiredTasks op))
  || requiresReason op.

(** Modelled from the spec: [requiresOnlyReasons] of the absent
    [useDragOperationHandler] is the predicate "requires only a reason": the
    reason requirement is true and missing fields and missing tasks are both
    empty. *)
Definition requiresOnlyReasons (op : DragOperation) : bool :=
  requiresReason op
  && isEmpty (missingRequiredFields op)
  && isEmpty (missingRequiredTasks op).

(** The argument of [setShowRequiredFieldsDialog]: [boolean | string]. *)
Inductive ShowFlag : Type :=
| ShowBool (b : bool)
| ShowString (s : string).

(** Everything the hook does to the outside. *)
Inductive Eff : Type :=
| ConsoleError (args : list string)
| ToastLoading (message toastId : string)
| ToastDismiss (toastId : string)
| ToastError (message : string)
| ToastSuccess (message : string)
| SetStages (stages : list Stage)
| SetIsDragging (b : bool)
| SetShowRequiredFieldsDialog (show : ShowFlag)
| SetCurrentDragOperation (operation : DragOperation)
| NewDate
| CreateDragOperation (opportunity : Opportunity) (sourceStageId : string)
    (destinationStage : Stage) (destinationIndex : Z)
| ApiUpdate (opportunityId : string) (data : OpportunityPatch)
| ApiMove (opportunityId : string) (destinationStageId : string)
| ApiGetByStageId (stageId : string) (includeArchived : bool)
| ProcessStageRequirements (opportunity : Opportunity)
    (destinationStageId : string)
| PromiseAll (promises : list (Result Stage)).

Definition Resp (e : Eff) : Type :=
  match e with
  | NewDate => Timestamp
  | CreateDragOperation _ _ _ _ => DragOperation
  | ApiUpdate _ _ => Result unit
  | ApiMove _ _ => Result unit
  | ApiGetByStageId _ _ => Result (list Opportunity)
  | ProcessStageRequirements _ _ => Result (option Opportunity)
  | PromiseAll _ => Result (list Stage)
  | _ => unit
  end.

(** The calls the hook awaits. *)
Definition awaits (e : Eff) : bool :=
  match e with
  | CreateDragOperation _ _ _ _ | ApiUpdate _ _ | ApiMove _ _
  | ApiGetByStageId _ _ | ProcessStageRequirements _ _
  | PromiseAll _ => true
  | _ => false
  end.

(** The collaborators of the hook, over a state [RS] of their own:
    [opportunityAPI], [requiredElementsService], the drag operation builder
    of [useDragOperationHandler], which is awaited and always yields an
    operation, the clock behind [new Date()], and the order in which
    requests that are out together are answered ([settleOrder], positions in
    the order of the requests, first answered first). *)
Class Services (RS : Type) : Type := {
  opportunityAPI_update :
    string -> OpportunityPatch -> RS -> Result unit * RS;
  opportunityAPI_move : string -> string -> RS -> Result unit * RS;
  opportunityAPI_getByStageId :
    string -> bool -> RS -> Result (list Opportunity) * RS;
  processStageRequirements :
    Opportunity -> string -> RS -> Result (option Opportunity) * RS;
  createDragOperation :
    Opportunity -> string -> Stage -> Z -> RS -> DragOperation * RS;
  newDate : RS -> Timestamp * RS;
  settleOrder : RS -> list nat
}.

(** The state the hook acts on: its collaborators, the React state of the
    board ([stages], the dialog flag and the current drag operation, owned
    by the caller and written through the setters it passes in) and the
    hook's own [isDragging]. *)
Record World (RS : Type) : Type := {
  services : RS;
  boardStages : list Stage;
  isDragging : bool;
  showRequiredFieldsDialog : ShowFlag;
  currentDragOperation : option DragOperation
}.
Arguments services {RS} _.
Arguments boardStages {RS} _.
Arguments isDragging {RS} _.
Arguments showRequiredFieldsDialog {RS} _.
Arguments currentDragOperation {RS} _.

Section Interpreter.
Context {RS : Type} `{Services RS}.

Definition withServices (w : World RS) (rs : RS) : World RS :=
  {| services := rs; boardStages := boardStages w;
     isDragging := isDragging w;
     showRequiredFieldsDialog := showRequiredFieldsDialog w;
     currentDragOperation := currentDragOperation w |}.

Definition withBoardStages (w : World RS) (l : list Stage) : World RS :=
  {| services := services w; boardStages := l;
     isDragging := isDragging w;
     showRequiredFieldsDialog := showRequiredFieldsDialog w;
     currentDragOperation := currentDragOperation w |}.

Definition withIsDragging (w : World RS) (b : bool) : World RS :=
  {| services := services w; boardStages := boardStages w;
     isDragging := b;
     showRequiredFieldsDialog := showRequiredFieldsDialog w;
     currentDragOperation := currentDragOperation w |}.

Definition withShowDialog (w : World RS) (f : ShowFlag) : World RS :=
  {| services := services w; boardStages := boardStages w;
     isDragging := isDragging w;
     showRequiredFieldsDialog := f;
     currentDragOperation := currentDragOperation w |}.

Definition withDragOperation (w : World RS) (op : DragOperation)
  : World RS :=
  {| services := services w; boardStages := boardStages w;
     isDragging := isDragging w;
     showRequiredFieldsDialog := showRequiredFieldsDialog w;
     currentDragOperation := Some op |}.

Definition answer {A : Type} (w : World RS) (x : A * RS) : A * World RS :=
  (fst x, withServices w (snd x)).

Definition perform (e : Eff) (w : World RS) : Resp e * World RS :=
  match e as e0 return Resp e0 * World RS with
  | ConsoleError _ => (tt, w)
  | ToastLoading _ _ => (tt, w)
  | ToastDismiss _ => (tt, w)
  | ToastError _ => (tt, w)
  | ToastSuccess _ => (tt, w)
  | SetStages l => (tt, withBoardStages w l)
  | SetIsDragging b => (tt, withIsDragging w b)
  | SetShowRequiredFieldsDialog f => (tt, withShowDialog w f)
  | SetCurrentDragOperation op => (tt, withDragOperation w op)
  | NewDate => answer w (newDate (services w))
  | CreateDragOperation o src dst idx =>
      answer w (createDragOperation o src dst idx (services w))
  | ApiUpdate i data => answer w (opportunityAPI_update i data (services w))
  | ApiMove i dst => answer w (opportunityAPI_move i dst (services w))
  | ApiGetByStageId s arch =>
      answer w (opportunityAPI_getByStageId s arch (services w))
  | ProcessStageRequirements o dst =>
      answer w (processStageRequirements o dst (services w))
  | PromiseAll promises =>
      (promiseAll (settleOrder (services w)) promises, w)
  end.

Definition runHook {A : Type} (p : Prog Resp A) (w : World RS)
  : A * World RS * list (Event Resp) :=
  run perform p w.

Definition startHook {A : Type} (p : Prog Resp A) (w : World RS)
  : Task Resp A * World RS * list (Event Resp) :=
  start perform awaits p w.

Definition resumeHook {A : Type} (task : Task Resp A) (w : World RS)
  : Task Resp A * World RS * list (Event Resp) :=
  resume perform awaits task w.

End Interpreter.

(** *** The hook's closure

    [stages] is the list captured when the hook was rendered; the setters
    write the caller's state, which the closure does not read back. *)
Section Hook.
Variable stages : list Stage.

(** The callback of [stages.map] in the optimistic update. *)
Definition patchStage (opportunity finalOpportunity : Opportunity)
  (sourceStageId destinationStageId : string) (destinationIndex : Z)
  (stage : Stage) : Prog Resp Stage :=
  if stage_id stage =? sourceStageId then
    Ret (withOpportunities stage
           (filter (fun opp => negb (id opp =? id opportunity))
                   (opportunities stage)))
  else if stage_id stage =? destinationStageId then
    now <- call (R := Resp) NewDate ;;
    let updatedOpp := stamped finalOpportunity destinationStageId now in
    Ret (withOpportunities stage
           (spliceInsert (opportunities stage) destinationIndex updatedOpp))
  else Ret stage.

(** [processedOpportunity || { ...opportunityToMove, stageId }] *)
Definition finalOpportunityOf (processedOpportunity : option Opportunity)
  (opportunityToMove : Opportunity) (destinationStageId : string)
  : Opportunity :=
  match processedOpportunity with
  | Some processed => processed
  | None => withStageId opportunityToMove destinationStageId
  end.

(** [updatedOpportunity ? { ...opportunity, ...updatedOpportunity }
                       : opportunity] *)
Definition opportunityToMoveOf (opportunity : Opportunity)
  (updatedOpportunity : option OpportunityPatch) : Opportunity :=
  match updatedOpportunity with
  | Some upd => spreadOpportunity opportunity upd
  | None => opportunity
  end.

(** The first remote step: [opportunityAPI.update] with
    [{ stageId: destinationStageId, ...updatedOpportunity }] when an update
    is given, [opportunityAPI.move] otherwise. *)
Definition persistCall (opportunity : Opportunity)
  (destinationStageId : string)
  (updatedOpportunity : option OpportunityPatch) : Eff :=
  match updatedOpportunity with
  | Some upd =>
      ApiUpdate (id opportunity)
        (spreadPatch (stageIdPatch destinationStageId) upd)
  | None => ApiMove (id opportunity) destinationStageId
  end.

Definition persist (opportunity : Opportunity) (destinationStageId : string)
  (updatedOpportunity : option OpportunityPatch) : Prog Resp (Result unit) :=
  match updatedOpportunity with
  | Some upd =>
      call (R := Resp)
        (ApiUpdate (id opportunity)
           (spreadPatch (stageIdPatch destinationStageId) upd))
  | None => call (R := Resp) (ApiMove (id opportunity) destinationStageId)
  end.

(** The body of the [try] block; [Rejected] when an awaited call threw. *)
Definition tryMove (opportunity : Opportunity)
  (sourceStageId destinationStageId : string) (destinationIndex : Z)
  (updatedOpportunity : option OpportunityPatch) : Prog Resp (Result unit) :=
  let opportunityToMove :=
    opportunityToMoveOf opportunity updatedOpportunity in
  persisted <- persist opportunity destinationStageId updatedOpportunity ;;
  match persisted with
  | Rejected error => Ret (Rejected error)
  | Resolved _ =>
      processed <- call (R := Resp)
        (ProcessStageRequirements
           (withStageId opportunityToMove destinationStageId)
           destinationStageId) ;;
      match processed with
      | Rejected error => Ret (Rejected error)
      | Resolved processedOpportunity =>
          let finalOpportunity :=
            finalOpportunityOf processedOpportunity opportunityToMove
              destinationStageId in
          updatedStages <-
            mapM (patchStage opportunity finalOpportunity sourceStageId
                    destinationStageId destinationIndex) stages ;;
          call (R := Resp) (SetStages updatedStages) ;;
          call (R := Resp) (ToastDismiss "moving-opportunity") ;;
          call (R := Resp) (ToastSuccess "Oportunidade movida com sucesso") ;;
          Ret (Resolved tt)
      end
  end.

(** The callback of [stages.map] in the revert: one
    [opportunityAPI.getByStageId(stage.id, false)] per stage. *)
Definition refetchStage (stage : Stage) : Prog Resp (Result Stage) :=
  fetched <- call (R := Resp) (ApiGetByStageId (stage_id stage) false) ;;
  match fetched with
  | Resolved opps => Ret (Resolved (withOpportunities stage opps))
  | Rejected revertError => Ret (Rejected revertError)
  end.

(** The [catch] block.  [stages.map] starts the fetch of every stage, in
    the order of the stages and whatever the others answer; [Promise.all]
    then rejects as soon as one of them does.  Here each answer is taken
    right after its request, where the source has all the requests out
    before the first answer: the same calls with the same arguments, in the
    same order.  The order in which the answers came in is the world's, and
    [Promise.all] is answered by it. *)
Definition revertMove (error : string) : Prog Resp unit :=
  call (R := Resp) (ConsoleError ["Error moving opportunity:"; error]) ;;
  call (R := Resp) (ToastDismiss "moving-opportunity") ;;
  call (R := Resp) (ToastError "Erro ao mover oportunidade") ;;
  promises <- mapM refetchStage stages ;;
  outcome <- call (R := Resp) (PromiseAll promises) ;;
  match outcome with
  | Resolved originalStages => call (R := Resp) (SetStages originalStages)
  | Rejected revertError =>
      call (R := Resp)
        (ConsoleError ["Error reverting stage state:"; revertError])
  end.

Definition completeOpportunityMove (opportunity : Opportunity)
  (sourceStageId destinationStageId : string) (destinationIndex : Z)
  (updatedOpportunity : option OpportunityPatch) : Prog Resp unit :=
  call (R := Resp) (SetIsDragging true) ;;
  outcome <- tryMove opportunity sourceStageId destinationStageId
               destinationIndex updatedOpportunity ;;
  match outcome with
  | Resolved _ => Ret tt
  | Rejected error => revertMove error
  end ;;
  call (R := Resp) (SetIsDragging false).

Definition findStage (stageId : string) : option Stage :=
  find (fun stage => stage_id stage =? stageId) stages.

Definition findOpportunity (sourceStage : Stage) (opportunityId : string)
  : option Opportunity :=
  find (fun opp => id opp =? opportunityId) (opportunities sourceStage).

Definition handleOpportunityDrag (draggableId sourceDroppableId
  destinationDroppableId : string) (destinationIndex : Z)
  : Prog Resp unit :=
  let opportunityId := draggableId in
  match findStage sourceDroppableId, findStage destinationDroppableId with
  | Some sourceStage, Some destinationStage =>
      match findOpportunity sourceStage opportunityId with
      | None =>
          call (R := Resp)
            (ConsoleError ["Could not find opportunity:"; opportunityId]) ;;
          call (R := Resp) (ToastError "Oportunidade não encontrada")
      | Some opportunity =>
          call (R := Resp)
            (ToastLoading "Movendo oportunidade..." "moving-opportunity") ;;
          dragOperation <- call (R := Resp)
            (CreateDragOperation opportunity sourceDroppableId
               destinationStage destinationIndex) ;;
          if hasRequirements dragOperation then
            call (R := Resp) (ToastDismiss "moving-opportunity") ;;
            call (R := Resp) (SetCurrentDragOperation dragOperation) ;;
            if requiresOnlyReasons dragOperation then
              call (R := Resp)
                (SetShowRequiredFieldsDialog (ShowString "reason"))
            else
              call (R := Resp) (SetShowRequiredFieldsDialog (ShowBool true))
          else
            completeOpportunityMove opportunity sourceDroppableId
              destinationDroppableId destinationIndex None
      end
  | _, _ =>
      call (R := Resp)
        (ConsoleError ["Could not find source or destination stage"]) ;;
      call (R := Resp) (ToastError "Erro ao mover oportunidade")
  end.

End Hook.

(** *** Reading a trace *)

(** The first remote step as it appears in a trace, with its answer. *)
Definition persisted (opportunity : Opportunity) (destinationStageId : string)
  (updatedOpportunity : option OpportunityPatch) (answer : Result unit)
  : Event Resp :=
  match updatedOpportunity with
  | Some upd =>
      Did (R := Resp)
        (ApiUpdate (id opportunity)
           (spreadPatch (stageIdPatch destinationStageId) upd)) answer
  | None => Did (R := Resp) (ApiMove (id opportunity) destinationStageId) answer
  end.

(** The second remote step as it appears in a trace, with its answer. *)
Definition processed (opportunity : Opportunity) (destinationStageId : string)
  (updatedOpportunity : option OpportunityPatch)
  (answer : Result (option Opportunity)) : Event Resp :=
  Did (R := Resp)
    (ProcessStageRequirements
       (withStageId (opportunityToMoveOf opportunity updatedOpportunity)
          destinationStageId)
       destinationStageId) answer.

(** The answer a trace entry gives to a persist call ([update] or [move]),
    if it is one. *)
Definition persistAnswerOf (ev : Event Resp) : option (Result unit) :=
  match ev with
  | Did e r =>
      match e as e0 return Resp e0 -> option (Result unit) with
      | ApiUpdate _ _ => fun a => Some a
      | ApiMove _ _ => fun a => Some a
      | _ => fun _ => None
      end r
  end.

(** The answer a trace entry gives to [processStageRequirements], if it is
    one. *)
Definition processAnswerOf (ev : Event Resp)
  : option (Result (option Opportunity)) :=
  match ev with
  | Did e r =>
      match e as e0 return Resp e0 -> option (Result (option Opportunity))
      with
      | ProcessStageRequirements _ _ => fun a => Some a
      | _ => fun _ => None
      end r
  end.

(** The answer a trace entry gives to [getByStageId], if it is one. *)
Definition fetchAnswerOf (ev : Event Resp)
  : option (Result (list Opportunity)) :=
  match ev with
  | Did e r =>
      match e as e0 return Resp e0 -> option (Result (list Opportunity))
      with
      | ApiGetByStageId _ _ => fun a => Some a
      | _ => fun _ => None
      end r
  end.

(** The date a trace entry reads off the clock, if it is a [new Date()]. *)
Definition dateOf (ev : Event Resp) : option Timestamp :=
  match ev with
  | Did e r =>
      match e as e0 return Resp e0 -> option Timestamp with
      | NewDate => fun a => Some a
      | _ => fun _ => None
      end r
  end.

(** The list a trace entry hands to [setStages], if it is one. *)
Definition stagesSetBy (ev : Event Resp) : option (list Stage) :=
  match ev_eff ev with
  | SetStages l => Some l
  | _ => None
  end.

(** The flag a trace entry hands to [setShowRequiredFieldsDialog], if it
    is one. *)
Definition dialogShownBy (ev : Event Resp) : option ShowFlag :=
  match ev_eff ev with
  | SetShowRequiredFieldsDialog f => Some f
  | _ => None
  end.

(** One [getByStageId(stage.id, false)] per stage, in the order of the
    stages, each with its answer. *)
Definition fetchEvents (stages : list Stage)
  (answers : list (Result (list Opportunity))) : list (Event Resp) :=
  map (fun sa : Stage * Result (list Opportunity) =>
         Did (R := Resp) (ApiGetByStageId (stage_id (fst sa)) false) (snd sa))
      (combine stages answers).

(** The stages with the opportunity lists a refetch answered. *)
Definition refetched (stages : list Stage)
  (answers : list (Result (list Opportunity))) : list (Result Stage) :=
  map (fun sa : Stage * Result (list Opportunity) =>
         match snd sa with
         | Resolved opps => Resolved (withOpportunities (fst sa) opps)
         | Rejected reason => Rejected reason
         end)
      (combine stages answers).

Definition clockReads (dates : list Timestamp) : list (Event Resp) :=
  map (fun d : Timestamp => Did (R := Resp) NewDate d) dates.

(** What the optimistic update makes of one stage, given the dates the
    clock answered during the update. *)
Definition PatchedStage (opportunity finalOpportunity : Opportunity)
  (sourceStageId destinationStageId : string) (destinationIndex : Z)
  (dates : list Timestamp) (stage stage' : Stage) : Prop :=
  if stage_id stage =? sourceStageId then
    stage' = withOpportunities stage
               (filter (fun opp => negb (id opp =? id opportunity))
                       (opportunities stage))
  else if stage_id stage =? destinationStageId then
    exists d, In d dates /\
      stage' = withOpportunities stage
                 (spliceInsert (opportunities stage) destinationIndex
                    (stamped finalOpportunity destinationStageId d))
  else stage' = stage.

(** The stages with the opportunity lists [lists], stage by stage. *)
Definition withFetched (stages : list Stage)
  (lists : list (list Opportunity)) : list Stage :=
  map (fun sl => withOpportunities (fst sl) (snd sl)) (combine stages lists).

(** [stage'] holds the opportunities [opps] and is [stage] in everything
    else. *)
Definition HoldsInstead (stage : Stage) (opps : list Opportunity)
  (stage' : Stage) : Prop :=
  opportunities stage' = opps
  /\ stage_id stage' = stage_id stage
  /\ stage_funnelId stage' = stage_funnelId stage
  /\ stage_name stage' = stage_name stage
  /\ stage_description stage' = stage_description stage
  /\ stage_color stage' = stage_color stage
  /\ stage_order stage' = stage_order stage
  /\ isWinStage stage' = isWinStage stage
  /\ isLossStage stage' = isLossStage stage
  /\ winReasonRequired stage' = winReasonRequired stage
  /\ lossReasonRequired stage' = lossReasonRequired stage
  /\ requiredFields stage' = requiredFields stage
  /\ requiredTasks stage' = requiredTasks stage.

(** [l] is [stages], each stage holding the list of [lists] at its
    position instead of its own. *)
Definition Refetched (stages : list Stage) (lists : list (list Opportunity))
  (l : list Stage) : Prop :=
  length lists = length stages
  /\ length l = length stages
  /\ forall i stage opps,
       nth_error stages i = Some stage ->
       nth_error lists i = Some opps ->
       exists stage', nth_error l i = Some stage'
                      /\ HoldsInstead stage opps stage'.

(** The answers of the [getByStageId] calls of a trace, in the order of the
    calls. *)
Definition fetchAnswers (t : list (Event Resp))
  : list (Result (list Opportunity)) :=
  flat_map (fun ev => match fetchAnswerOf ev with
                      | Some a => [a]
                      | None => []
                      end) t.

(** [l] is [stages] with the opportunity lists that a refetch of every
    stage, recorded in [t], resolved to. *)
Definition FetchedFromStore (stages : list Stage) (t : list (Event Resp))
  (l : list Stage) : Prop :=
  exists lists,
    fetchAnswers t = map Resolved lists
    /\ Refetched stages lists l.





(** Both remote steps of the commit resolved within [t]. *)
Definition AfterRemoteSuccess (opportunity : Opportunity)
  (destinationStageId : string)
  (updatedOpportunity : option OpportunityPatch) (t : list (Event Resp))
  : Prop :=
  In (persisted opportunity destinationStageId updatedOpportunity
        (Resolved tt)) t
  /\ exists processedOpportunity,
      In (processed opportunity destinationStageId updatedOpportunity
            (Resolved processedOpportunity)) t.

(** A remote step of the commit was rejected within [t]. *)
Definition RemoteRejection (opportunity : Opportunity)
  (destinationStageId : string)
  (updatedOpportunity : option OpportunityPatch) (error : string)
  (t : list (Event Resp)) : Prop :=
  In (persisted opportunity destinationStageId updatedOpportunity
        (Rejected error)) t
  \/ In (processed opportunity destinationStageId updatedOpportunity
           (Rejected error)) t.

(** No entry of the trace [t] is of the kind [f] reads. *)
Definition quiet {A : Type} (f : Event Resp -> option A)
  (t : list (Event Resp)) : Prop :=
  forall ev, In ev t -> f ev = None.

(** The trace of the [try] block when nothing throws. *)
Definition committedTrace (opportunity : Opportunity)
  (destinationStageId : string)
  (updatedOpportunity : option OpportunityPatch)
  (processedOpportunity : option Opportunity) (dates : list Timestamp)
  (updatedStages : list Stage) : list (Event Resp) :=
  [persisted opportunity destinationStageId updatedOpportunity (Resolved tt);
   processed opportunity destinationStageId updatedOpportunity
     (Resolved processedOpportunity)]
  ++ clockReads dates
  ++ [Did (R := Resp) (SetStages updatedStages) tt;
      Did (R := Resp) (ToastDismiss "moving-opportunity") tt;
      Did (R := Resp) (ToastSuccess "Oportunidade movida com sucesso") tt].

(** The two traces of the [try] block when an awaited call throws
    [error]: at the persist call, or at the processing of the stage
    requirements. *)
Definition FailedTrace (opportunity : Opportunity)
  (destinationStageId : string)
  (updatedOpportunity : option OpportunityPatch) (error : string)
  (t : list (Event Resp)) : Prop :=
  t = [persisted opportunity destinationStageId updatedOpportunity
         (Rejected error)]
  \/ t = [persisted opportunity destinationStageId updatedOpportunity
            (Resolved tt);
          processed opportunity destinationStageId updatedOpportunity
            (Rejected error)].

(** How the [catch] block ends: [Promise.all] over the refetched stages
    and its outcome, then the write of the stages or the log of the
    reason. *)
Definition revertEnd (promises : list (Result Stage))
  (outcome : Result (list Stage)) : list (Event Resp) :=
  Did (R := Resp) (PromiseAll promises) outcome
  :: match outcome with
     | Resolved originalStages =>
         [Did (R := Resp) (SetStages originalStages) tt]
     | Rejected revertError =>
         [Did (R := Resp)
            (ConsoleError ["Error reverting stage state:"; revertError]) tt]
     end.

(** The trace of the [catch] block. *)
Definition revertTrace (stages : list Stage) (error : string)
  (answers : list (Result (list Opportunity)))
  (outcome : Result (list Stage)) : list (Event Resp) :=
  [Did (R := Resp) (ConsoleError ["Error moving opportunity:"; error]) tt;
   Did (R := Resp) (ToastDismiss "moving-opportunity") tt;
   Did (R := Resp) (ToastError "Erro ao mover oportunidade") tt]
  ++ fetchEvents stages answers
  ++ revertEnd (refetched stages answers) outcome.

(** *** A scripted environment

    Collaborators whose answers are fixed in advance, to run the hook on
    concrete boards. *)
Module Scripted.

Record Script : Type := {
  clock : Timestamp;
  persistAnswer : Result unit;
  processAnswer : Result (option Opportunity);
  fetchAnswer : string -> Result (list Opportunity);
  verdictFields : list RequiredField;
  verdictTasks : list RequiredTask;
  verdictReason : bool;
  answeredInOrder : list nat
}.

Definition tick (s : Script) : Script :=
  {| clock := (clock s + 1)%Z; persistAnswer := persistAnswer s;
     processAnswer := processAnswer s; fetchAnswer := fetchAnswer s;
     verdictFields := verdictFields s; verdictTasks := verdictTasks s;
     verdictReason := verdictReason s;
     answeredInOrder := answeredInOrder s |}.

#[export] Instance scripted : Services Script := {|
  opportunityAPI_update := fun _ _ s => (persistAnswer s, s);
  opportunityAPI_move := fun _ _ s => (persistAnswer s, s);
  opportunityAPI_getByStageId := fun stageId _ s => (fetchAnswer s stageId, s);
  processStageRequirements := fun _ _ s => (processAnswer s, s);
  createDragOperation := fun o src dst idx s =>
    ({| op_opportunity := o; op_sourceStageId := src;
        op_destinationStage := dst; op_destinationIndex := idx;
        missingRequiredFields := verdictFields s;
        missingRequiredTasks := verdictTasks s;
        requiresReason := verdictReason s |}, s);
  newDate := fun s => (clock s, tick s);
  settleOrder := answeredInOrder
|}.

Definition opp (i stage : string) : Opportunity :=
  {| id := i; title := "Deal"; client := "ACME"; company := None;
     email := None; phone := None; value := 1000%Z; funnelId := "F";
     stageId := stage; createdAt := 0%Z; customFields := None;
     requiredTasksCompleted := None; winReason := None; lossReason := None;
     archived := None; lastStageChangeAt := None |}.

Definition stage (i : string) (order : Z) (opps : list Opportunity) : Stage :=
  {| stage_id := i; stage_funnelId := "F"; stage_name := i;
     stage_description := None; stage_color := None; stage_order := order;
     isWinStage := None; isLossStage := None; winReasonRequired := None;
     lossReasonRequired := None; requiredFields := None;
     requiredTasks := None; opportunities := opps |}.

Definition o1 : Opportunity := opp "o1" "A".
Definition o2 : Opportunity := opp "o2" "A".
Definition o3 : Opportunity := opp "o3" "B".

(** A board of three stages: [A] holds [o1] and [o2], [B] holds [o3], [C]
    is empty. *)
Definition board : list Stage :=
  [stage "A" 0%Z [o1; o2]; stage "B" 1%Z [o3]; stage "C" 2%Z []].

Definition budget : RequiredField :=
  {| rf_id := "f1"; rf_stageId := "B"; rf_name := "budget";
     rf_type := "number"; rf_isRequired := true; rf_options := None |}.

(** The store as it is when nothing was moved. *)
Definition storeFetch (stageId : string) : Result (list Opportunity) :=
  if stageId =? "A" then Resolved [o1; o2]
  else if stageId =? "B" then Resolved [o3]
  else Resolved [].

Definition script (persist : Result unit)
  (process : Result (option Opportunity))
  (fetch : string -> Result (list Opportunity)) : Script :=
  {| clock := 1700000000000%Z; persistAnswer := persist;
     processAnswer := process; fetchAnswer := fetch;
     verdictFields := []; verdictTasks := []; verdictReason := false;
     answeredInOrder := [] |}.

Definition withVerdict (s : Script) (fields : list RequiredField)
  (tasks : list RequiredTask) (reason : bool) : Script :=
  {| clock := clock s; persistAnswer := persistAnswer s;
     processAnswer := processAnswer s; fetchAnswer := fetchAnswer s;
     verdictFields := fields; verdictTasks := tasks;
     verdictReason := reason; answeredInOrder := answeredInOrder s |}.

Definition world (s : Script) : World Script :=
  {| services := s; boardStages := board; isDragging := false;
     showRequiredFieldsDialog := ShowBool false;
     currentDragOperation := None |}.

Definition allGood : Script := script (Resolved tt) (Resolved None) storeFetch.

(** The store rejects the move and answers the refetch. *)
Definition persistRejected : Script :=
  script (Rejected "boom") (Resolved None) storeFetch.

(** The store as it is when [o1] sits in [B], in front of [o3]. *)
Definition storeMoved (stageId : string) : Result (list Opportunity) :=
  if stageId =? "A" then Resolved [o2]
  else if stageId =? "B" then Resolved [opp "o1" "B"; o3]
  else Resolved [].

(** The store rejects the move, and yet answers the refetch with [o1] in
    [B]. *)
Definition rejectedButMoved : Script :=
  script (Rejected "boom") (Resolved None) storeMoved.

(** A store that answers no fetch of [A] or of [B]. *)
Definition storeDown (stageId : string) : Result (list Opportunity) :=
  if stageId =? "A" then Rejected "errA"
  else if stageId =? "B" then Rejected "errB"
  else Resolved [].

(** The store rejects the move and the refetch of [A] and of [B]; the
    answer for [B] comes in first. *)
Definition storeLost : Script :=
  {| clock := 1700000000000%Z; persistAnswer := Rejected "boom";
     processAnswer := Resolved None; fetchAnswer := storeDown;
     verdictFields := []; verdictTasks := []; verdictReason := false;
     answeredInOrder := [1; 2; 0]%nat |}.


(** The destination asks for a win/loss reason and nothing else. *)
Definition reasonOnly : Script := withVerdict allGood [] [] true.

(** The destination misses the field [budget] and asks for a reason. *)
Definition budgetMissing : Script := withVerdict allGood [budget] [] true.

(** [completeOpportunityMove(o1, src, dst, idx)] on the sample board. *)
Definition commit (src dst : string) (idx : Z) (s : Script)
  : unit * World Script * list (Event Resp) :=
  runHook (completeOpportunityMove board o1 src dst idx None) (world s).

(** [handleOpportunityDrag("o1", src, dst, idx)] on the sample board. *)
Definition drag (src dst : string) (idx : Z) (s : Script)
  : unit * World Script * list (Event Resp) :=
  runHook (handleOpportunityDrag board "o1" src dst idx) (world s).

End Scripted.

End UseOpportunityDrag.

(** ** The stage form: [EditStageDialog] *)

Module EditStageDialog.

(** [z.infer<typeof formSchema>].  A string is given by the bytes of its
    UTF-8 encoding, as the literals of this file are. *)
Record FormValues : Type := {
  v_name : string;
  v_description : option string;
  v_color : string;
  v_isWinStage : option bool;
  v_isLossStage : option bool
}.

Record ZodIssue : Type := {
  issue_path : list string;
  issue_message : string
}.

(** JavaScript truthiness of an optional boolean. *)
Definition truthy (b : option bool) : bool :=
  match b with Some true => true | _ => false end.

(** [[0-9a-f]] under the [i] flag. *)
Definition isHexDigit (c : ascii) : bool :=
  let n := nat_of_ascii c in
  ((48 <=? n)%nat && (n <=? 57)%nat) || ((97 <=? n)%nat && (n <=? 102)%nat)
  || ((65 <=? n)%nat && (n <=? 70)%nat).

(** [/^#([0-9a-f]{3}|[0-9a-f]{6})$/i] *)
Definition colorRegex (s : string) : bool :=
  match s with
  | String "#" digits =>
      forallb isHexDigit (list_ascii_of_string digits)
      && ((String.length digits =? 3)%nat || (String.length digits =? 6)%nat)
  | _ => false
  end.

(** The number of UTF-16 code units a byte of a UTF-8 encoding stands for:
    one for a character of its own and for the first byte of a sequence of
    two or three, none for a byte that continues a sequence, and two for
    the first byte of a sequence of four, which is a surrogate pair. *)
Definition unitsOfByte (c : ascii) : nat :=
  let n := nat_of_ascii c in
  if (n <? 128)%nat then 1%nat
  else if (n <? 192)%nat then 0%nat
  else if (n <? 240)%nat then 1%nat
  else 2%nat.

(** [s.length]: the number of UTF-16 code units of the string, which is
    what [z.string().min] counts. *)
Fixpoint codeUnits (s : string) : nat :=
  match s with
  | EmptyString => 0%nat
  | String c rest => (unitsOfByte c + codeUnits rest)%nat
  end.

(** The characters [[0-9a-f]] stands for under the [i] flag. *)
Definition hexDigits : list ascii :=
  list_ascii_of_string "0123456789abcdefABCDEF".

(** A colour the pattern accepts: [#] and then three or six hexadecimal
    digits, and nothing else. *)
Definition HexColour (s : string) : Prop :=
  exists digits,
    s = String "#" (string_of_list_ascii digits)
    /\ (length digits = 3%nat \/ length digits = 6%nat)
    /\ Forall (fun c => In c hexDigits) digits.

(** A byte that continues a UTF-8 sequence. *)
Definition Continues (c : ascii) : Prop :=
  (128 <= nat_of_ascii c < 192)%nat.

(** [Utf16Units s n]: the string [s], a sequence of UTF-8 encoded code
    points, has [n] UTF-16 code units: one for each code point encoded in
    one, two or three bytes, two for each code point encoded in four. *)
Inductive Utf16Units : string -> nat -> Prop :=
| units_end : Utf16Units EmptyString 0
| units_one (c : ascii) (s : string) (n : nat) :
    (nat_of_ascii c < 128)%nat ->
    Utf16Units s n -> Utf16Units (String c s) (S n)
| units_two (c1 c2 : ascii) (s : string) (n : nat) :
    (192 <= nat_of_ascii c1 < 224)%nat -> Continues c2 ->
    Utf16Units s n -> Utf16Units (String c1 (String c2 s)) (S n)
| units_three (c1 c2 c3 : ascii) (s : string) (n : nat) :
    (224 <= nat_of_ascii c1 < 240)%nat -> Continues c2 -> Continues c3 ->
    Utf16Units s n ->
    Utf16Units (String c1 (String c2 (String c3 s))) (S n)
| units_four (c1 c2 c3 c4 : ascii) (s : string) (n : nat) :
    (240 <= nat_of_ascii c1)%nat ->
    Continues c2 -> Continues c3 -> Continues c4 ->
    Utf16Units s n ->
    Utf16Units (String c1 (String c2 (String c3 (String c4 s)))) (S (S n)).

(** The refinement of [formSchema]:
    [!(data.isWinStage && data.isLossStage)]. *)
Definition notBothWinAndLoss (data : FormValues) : bool :=
  negb (truthy (v_isWinStage data) && truthy (v_isLossStage data)).

(** [formSchema], as the issues it raises on well-typed values; the values
    pass when there is none. *)
Definition formSchema (data : FormValues) : list ZodIssue :=
  (if (2 <=? codeUnits (v_name data))%nat then []
   else [{| issue_path := ["name"];
            issue_message := "Nome deve ter pelo menos 2 caracteres" |}])
  ++ (if colorRegex (v_color data) then []
      else [{| issue_path := ["color"]; issue_message := "Cor inválida" |}])
  ++ (if notBothWinAndLoss data then []
      else [{| issue_path := ["isWinStage"];
               issue_message :=
                 "Uma etapa não pode ser de vitória e perda ao mesmo tempo"
            |}]).

(** The payload of [stageAPI.update]. *)
Record StageFormData : Type := {
  data_name : string;
  data_description : option string;
  data_funnelId : string;
  data_color : string;
  data_isWinStage : option bool;
  data_isLossStage : option bool;
  data_requiredFields : list RequiredField
}.

Inductive Eff : Type :=
| ConsoleError (args : list string)
| ToastError (message : string)
| ToastSuccess (message : string)
| PreventDefault
| SetFormErrors (issues : list ZodIssue)
| SetIsSubmitting (b : bool)
| StageApiUpdate (stageId : string) (data : StageFormData)
| OnStageUpdated (stage : Stage)
| OnOpenChange (open : bool).

Definition Resp (e : Eff) : Type :=
  match e with
  | StageApiUpdate _ _ => Result (option Stage)
  | _ => unit
  end.

(** The payload a trace entry hands to [stageAPI.update], if it is one. *)
Definition payloadOf (ev : Event Resp) : option StageFormData :=
  match ev_eff ev with
  | StageApiUpdate _ data => Some data
  | _ => None
  end.


Class StageServices (RS : Type) : Type := {
  stageAPI_update :
    string -> StageFormData -> RS -> Result (option Stage) * RS
}.

Record World (RS : Type) : Type := {
  services : RS;
  isSubmitting : bool;
  formErrors : list ZodIssue
}.
Arguments services {RS} _.
Arguments isSubmitting {RS} _.
Arguments formErrors {RS} _.

Section Interpreter.
Context {RS : Type} `{StageServices RS}.

Definition perform (e : Eff) (w : World RS) : Resp e * World RS :=
  match e as e0 return Resp e0 * World RS with
  | SetIsSubmitting b =>
      (tt, {| services := services w; isSubmitting := b;
              formErrors := formErrors w |})
  | SetFormErrors issues =>
      (tt, {| services := services w; isSubmitting := isSubmitting w;
              formErrors := issues |})
  | StageApiUpdate stageId data =>
      let (answer, rs) := stageAPI_update stageId data (services w) in
      (answer, {| services := rs; isSubmitting := isSubmitting w;
                  formErrors := formErrors w |})
  | ConsoleError _ => (tt, w)
  | ToastError _ => (tt, w)
  | ToastSuccess _ => (tt, w)
  | PreventDefault => (tt, w)
  | OnStageUpdated _ => (tt, w)
  | OnOpenChange _ => (tt, w)
  end.

Definition runDialog {A : Type} (p : Prog Resp A) (w : World RS)
  : A * World RS * list (Event Resp) :=
  run perform p w.

End Interpreter.

(** *** The component's closure: the [stageId] prop and the [stage] and
    [requiredFields] state of the render. *)
Section Dialog.
Variable stageId : string.
Variable stage : option Stage.
Variable requiredFields : list RequiredField.

Definition onSubmit (values : FormValues) : Prog Resp unit :=
  match stage with
  | None =>
      call (R := Resp) (ConsoleError ["Stage data not loaded"]) ;;
      call (R := Resp) (ToastError "Dados da etapa não carregados")
  | Some loaded =>
      call (R := Resp) (SetIsSubmitting true) ;;
      updated <- call (R := Resp)
        (StageApiUpdate stageId
           {| data_name := v_name values;
              data_description := v_description values;
              data_funnelId := stage_funnelId loaded;
              data_color := v_color values;
              data_isWinStage := v_isWinStage values;
              data_isLossStage := v_isLossStage values;
              data_requiredFields := requiredFields |}) ;;
      match updated with
      | Resolved (Some updatedStage) =>
          call (R := Resp) (OnStageUpdated updatedStage) ;;
          call (R := Resp) (ToastSuccess "Etapa atualizada com sucesso!") ;;
          call (R := Resp) (OnOpenChange false)
      | Resolved None => call (R := Resp) (ToastError "Erro ao atualizar etapa")
      | Rejected error =>
          call (R := Resp) (ConsoleError ["Error updating stage:"; error]) ;;
          call (R := Resp) (ToastError "Erro ao atualizar etapa")
      end ;;
      call (R := Resp) (SetIsSubmitting false)
  end.

(** [e.preventDefault(); form.handleSubmit(onSubmit)(e)]: the resolver
    checks the current values against [formSchema]; [onSubmit] is called
    only when they pass, otherwise the issues become the form's errors. *)
Definition handleSubmit (values : FormValues) : Prog Resp unit :=
  call (R := Resp) PreventDefault ;;
  match formSchema values with
  | [] => onSubmit values
  | issues => call (R := Resp) (SetFormErrors issues)
  end.

End Dialog.

Module Scripted.

#[export] Instance echo : StageServices unit := {|
  stageAPI_update := fun stageId data rs =>
    (Resolved (Some
       {| stage_id := stageId; stage_funnelId := data_funnelId data;
          stage_name := data_name data;
          stage_description := data_description data;
          stage_color := Some (data_color data); stage_order := 0%Z;
          isWinStage := data_isWinStage data;
          isLossStage := data_isLossStage data;
          winReasonRequired := None; lossReasonRequired := None;
          requiredFields := Some (data_requiredFields data);
          requiredTasks := None; opportunities := [] |}), rs)
|}.

Definition idle : World unit :=
  {| services := tt; isSubmitting := false; formErrors := [] |}.

Definition won : FormValues :=
  {| v_name := "Fechado"; v_description := None; v_color := "#00AA00";
     v_isWinStage := Some true; v_isLossStage := Some false |}.

Definition wonAndLost : FormValues :=
  {| v_name := "Fechado"; v_description := None; v_color := "#00AA00";
     v_isWinStage := Some true; v_isLossStage := Some true |}.

(** A name of one character outside ASCII: three bytes, one code unit. *)
Definition oneCharacter : FormValues :=
  {| v_name := "中"; v_description := None; v_color := "#00AA00";
     v_isWinStage := Some true; v_isLossStage := Some false |}.

(** A colour of five digits. *)
Definition fiveDigits : FormValues :=
  {| v_name := "Fechado"; v_description := None; v_color := "#00AA0";
     v_isWinStage := Some true; v_isLossStage := Some false |}.

Definition loaded : Stage :=
  {| stage_id := "S"; stage_funnelId := "F"; stage_name := "Fechado";
     stage_description := None; stage_color := Some "#CCCCCC";
     stage_order := 3%Z; isWinStage := Some false;
     isLossStage := Some false; winReasonRequired := None;
     lossReasonRequired := None; requiredFields := Some [];
     requiredTasks := None; opportunities := [] |}.

End Scripted.

End EditStageDialog.

(** ** The drag hook: counting cards and reading more of the trace *)

Module DragAccounting.
Import UseOpportunityDrag.

(** The number of cards on a board. *)
Definition cardCount (stages : list Stage) : nat :=
  list_sum (map (fun stage => length (opportunities stage)) stages).

(** The number of cards with the id [i] in a list. *)
Definition cardsWithId (i : string) (opps : list Opportunity) : nat :=
  length (filter (fun opp => id opp =? i) opps).

(** The cards with the id [i] that lie in stages with the id [sourceStageId]:
    those the filter of the optimistic update drops. *)
Definition cardsInSource (i sourceStageId : string) (stages : list Stage)
  : nat :=
  list_sum
    (map (fun stage =>
            if stage_id stage =? sourceStageId
            then cardsWithId i (opportunities stage) else 0)
         stages).

(** The stages the destination branch of the optimistic update reaches:
    those with the destination id and not the source id. *)
Definition destinationStages (sourceStageId destinationStageId : string)
  (stages : list Stage) : nat :=
  length
    (filter (fun stage =>
               negb (stage_id stage =? sourceStageId)
               && (stage_id stage =? destinationStageId))
            stages).

(** The arguments a trace entry hands to [processStageRequirements], if it
    is one. *)
Definition processArgsOf (ev : Event Resp) : option (Opportunity * string) :=
  match ev_eff ev with
  | ProcessStageRequirements o destinationStageId =>
      Some (o, destinationStageId)
  | _ => None
  end.

(** The payload a trace entry hands to [opportunityAPI.update], if it is
    one. *)
Definition updatePayloadOf (ev : Event Resp) : option OpportunityPatch :=
  match ev_eff ev with
  | ApiUpdate _ data => Some data
  | _ => None
  end.

(** The id of the loading toast a trace entry raises, if it raises one. *)
Definition loadingToastOf (ev : Event Resp) : option string :=
  match ev_eff ev with
  | ToastLoading _ toastId => Some toastId
  | _ => None
  end.

(** The start [splice] settles on for a requested index, on a list of
    [n] elements. *)
Definition clampedStart (n : nat) (start : Z) : nat :=
  Z.to_nat
    (if (start <? 0)%Z then Z.max (Z.of_nat n + start) 0
     else Z.min start (Z.of_nat n)).

Import Scripted.

(** Updates that carry a win reason and a stage id of their own. *)
Definition wonElsewhere : OpportunityPatch :=
  {| upd_id := None; upd_title := None; upd_client := None;
     upd_company := None; upd_email := None; upd_phone := None;
     upd_value := None; upd_funnelId := None; upd_stageId := Some "C";
     upd_createdAt := None; upd_customFields := None;
     upd_requiredTasksCompleted := None;
     upd_winReason := Some (Some "price"); upd_lossReason := None;
     upd_archived := None; upd_lastStageChangeAt := None |}.

(** [completeOpportunityMove(o1, "A", "B", 0, updates)] on the sample
    board. *)
Definition commitWith (updates : OpportunityPatch)
  : unit * World Script * list (Event Resp) :=
  runHook (completeOpportunityMove board o1 "A" "B" 0 (Some updates))
    (world allGood).

End DragAccounting.

(** ** Reading the trace of any program *)

Module Traces.

(** No entry of the trace [t] is of the kind [f] reads. *)
Definition silent {E : Type} {R : E -> Type} {A : Type}
  (f : Event R -> option A) (t : list (Event R)) : Prop :=
  forall ev, In ev t -> f ev = None.

End Traces.

(** ** The role hook: [useUserRole] *)

Module UseUserRole.

(** ['admin' | 'manager' | 'user'], the [app_role] enum of the store. *)
Inductive UserRole : Type := admin | manager | user.

(** [{ user: 0, manager: 1, admin: 2 }] *)
Definition roleHierarchy (role : UserRole) : Z :=
  match role with
  | user => 0
  | manager => 1
  | admin => 2
  end.

Definition isRole (a b : UserRole) : bool :=
  match a, b with
  | admin, admin | manager, manager | user, user => true
  | _, _ => false
  end.

(** What the query on [user_roles] resolves to: [{ data, error }], with the
    row's role or with the error's code and message. *)
Inductive QueryAnswer : Type :=
| RoleRow (role : UserRole)
| QueryError (code message : string).

Inductive Eff : Type :=
| ConsoleError (args : list string)
| SelectRole (userId : string)
| SetUserRole (role : UserRole)
| SetIsAdmin (b : bool)
| SetIsManager (b : bool)
| SetLoading (b : bool).

Definition Resp (e : Eff) : Type :=
  match e with
  | SelectRole _ => Result QueryAnswer
  | _ => unit
  end.

(** The user id a trace entry queries the role of, if it is a query. *)
Definition queriedBy (ev : Event Resp) : option string :=
  match ev_eff ev with
  | SelectRole userId => Some userId
  | _ => None
  end.

(** The store behind [supabase.from('user_roles')], over a state of its
    own. *)
Class RoleStore (RS : Type) : Type := {
  selectRole : string -> RS -> Result QueryAnswer * RS
}.

(** The state of the hook. *)
Record World (RS : Type) : Type := {
  store : RS;
  userRole : UserRole;
  isAdmin : bool;
  isManager : bool;
  loading : bool
}.
Arguments store {RS} _.
Arguments userRole {RS} _.
Arguments isAdmin {RS} _.
Arguments isManager {RS} _.
Arguments loading {RS} _.

Section Interpreter.
Context {RS : Type} `{RoleStore RS}.

Definition perform (e : Eff) (w : World RS) : Resp e * World RS :=
  match e as e0 return Resp e0 * World RS with
  | ConsoleError _ => (tt, w)
  | SelectRole userId =>
      let (answer, rs) := selectRole userId (store w) in
      (answer,
       {| store := rs; userRole := userRole w; isAdmin := isAdmin w;
          isManager := isManager w; loading := loading w |})
  | SetUserRole role =>
      (tt, {| store := store w; userRole := role; isAdmin := isAdmin w;
              isManager := isManager w; loading := loading w |})
  | SetIsAdmin b =>
      (tt, {| store := store w; userRole := userRole w; isAdmin := b;
              isManager := isManager w; loading := loading w |})
  | SetIsManager b =>
      (tt, {| store := store w; userRole := userRole w; isAdmin := isAdmin w;
              isManager := b; loading := loading w |})
  | SetLoading b =>
      (tt, {| store := store w; userRole := userRole w; isAdmin := isAdmin w;
              isManager := isManager w; loading := b |})
  end.

Definition runRole {A : Type} (p : Prog Resp A) (w : World RS)
  : A * World RS * list (Event Resp) :=
  run perform p w.

(** [hasPermission], which reads the [userRole] of the render. *)
Definition hasPermission (w : World RS) (requiredRole : UserRole) : bool :=
  (roleHierarchy (userRole w) >=? roleHierarchy requiredRole)%Z.

End Interpreter.

(** The flags say what [hasPermission] says. *)
Definition FlagsAgree {RS : Type} (w : World RS) : Prop :=
  isAdmin w = hasPermission w admin /\ isManager w = hasPermission w manager.

(** [setUserRole('user'); setIsAdmin(false); setIsManager(false)] *)
Definition setDefaults : Prog Resp unit :=
  call (R := Resp) (SetUserRole user) ;;
  call (R := Resp) (SetIsAdmin false) ;;
  call (R := Resp) (SetIsManager false).

(** The [catch] block of [checkUserRole]. *)
Definition roleCheckFailed (error : string) : Prog Resp unit :=
  call (R := Resp) (ConsoleError ["Error checking user role:"; error]) ;;
  setDefaults.

(** [checkUserRole], for the user of the render ([None] when signed
    out). *)
Definition checkUserRole (authUser : option string) : Prog Resp unit :=
  match authUser with
  | None => Ret tt
  | Some userId =>
      answer <- call (R := Resp) (SelectRole userId) ;;
      match answer with
      | Rejected error => roleCheckFailed error
      | Resolved (QueryError code message) =>
          call (R := Resp) (ConsoleError ["Error fetching user role:"; message]) ;;
          if code =? "PGRST116" then setDefaults
          else roleCheckFailed message
      | Resolved (RoleRow role) =>
          call (R := Resp) (SetUserRole role) ;;
          call (R := Resp) (SetIsAdmin (isRole role admin)) ;;
          call (R := Resp)
            (SetIsManager (isRole role manager || isRole role admin))
      end ;;
      call (R := Resp) (SetLoading false)
  end.

(** The effect that runs when the signed-in user changes. *)
Definition onUserChange (authUser : option string) : Prog Resp unit :=
  match authUser with
  | Some _ => checkUserRole authUser
  | None => setDefaults ;; call (R := Resp) (SetLoading false)
  end.

(** A store that answers every query the same way. *)
Module Scripted.

#[export] Instance constant : RoleStore (Result QueryAnswer) := {|
  selectRole := fun _ answer => (answer, answer)
|}.

(** The state of the hook at its first render, before a store answering
    [answer]. *)
Definition initial (answer : Result QueryAnswer)
  : World (Result QueryAnswer) :=
  {| store := answer; userRole := user; isAdmin := false;
     isManager := false; loading := true |}.

End Scripted.

End UseUserRole.

(** ** The board: [KanbanStages] *)

Module KanbanStages.

(** [(a, b) => a.order - b.order] *)
Definition compareOrder (a b : Stage) : Z := (stage_order a - stage_order b)%Z.

(** [Array.prototype.sort] is stable; for a comparator that orders the
    elements consistently, as a difference of integers does, it yields the
    one arrangement that is sorted and keeps the elements that compare equal
    in the order they came in.  Insertion from the right computes that
    arrangement: an element goes in front of the first one it does not
    compare greater than. *)
Fixpoint insertBy {A : Type} (compare : A -> A -> Z) (x : A)
  (sorted : list A) : list A :=
  match sorted with
  | [] => [x]
  | y :: rest =>
      if (compare x y <=? 0)%Z then x :: y :: rest
      else y :: insertBy compare x rest
  end.

Fixpoint sortBy {A : Type} (compare : A -> A -> Z) (l : list A) : list A :=
  match l with
  | [] => []
  | x :: rest => insertBy compare x (sortBy compare rest)
  end.

(** [[...stages].sort((a, b) => a.order - b.order)]: a sorted copy, the
    stages in the order the columns are rendered in. *)
Definition sortedStages (stages : list Stage) : list Stage :=
  sortBy compareOrder stages.

(** The stages of a list at the order [k]. *)
Definition atOrder (k : Z) (stages : list Stage) : list Stage :=
  filter (fun stage => (stage_order stage =? k)%Z) stages.

End KanbanStages.

(** ** The stage form: loading the stage *)

Module EditStageDialogLoad.
Import EditStageDialog.

Inductive Eff : Type :=
| ConsoleError (args : list string)
| ToastError (message : string)
| SetLoading (b : bool)
| StageApiGetById (stageId : string)
| SetStage (stage : Stage)
| SetRequiredFields (fields : list RequiredField)
| FormReset (values : FormValues).

Definition Resp (e : Eff) : Type :=
  match e with
  | StageApiGetById _ => Result (option Stage)
  | _ => unit
  end.

Class StageLoader (RS : Type) : Type := {
  stageAPI_getById : string -> RS -> Result (option Stage) * RS
}.

(** The state of the dialog the load writes: the [stage] and
    [requiredFields] states, the loading flag and the values of the form. *)
Record World (RS : Type) : Type := {
  services : RS;
  stage : option Stage;
  requiredFieldsState : list RequiredField;
  loading : bool;
  formValues : FormValues
}.
Arguments services {RS} _.
Arguments stage {RS} _.
Arguments requiredFieldsState {RS} _.
Arguments loading {RS} _.
Arguments formValues {RS} _.

(** [s || fallback] on an optional string: the empty string is falsy. *)
Definition orString (s : option string) (fallback : string) : string :=
  match s with
  | Some x => if x =? "" then fallback else x
  | None => fallback
  end.

(** The values [form.reset] is given for a loaded stage. *)
Definition resetValues (stageData : Stage) : FormValues :=
  {| v_name := stage_name stageData;
     v_description := Some (orString (stage_description stageData) "");
     v_color := orString (stage_color stageData) "#CCCCCC";
     v_isWinStage := Some (truthy (isWinStage stageData));
     v_isLossStage := Some (truthy (isLossStage stageData)) |}.

(** [stageData.requiredFields || []] *)
Definition requiredFieldsOf (stageData : Stage) : list RequiredField :=
  match requiredFields stageData with
  | Some fields => fields
  | None => []
  end.

Section Interpreter.
Context {RS : Type} `{StageLoader RS}.

Definition perform (e : Eff) (w : World RS) : Resp e * World RS :=
  match e as e0 return Resp e0 * World RS with
  | ConsoleError _ => (tt, w)
  | ToastError _ => (tt, w)
  | SetLoading b =>
      (tt, {| services := services w; stage := stage w;
              requiredFieldsState := requiredFieldsState w; loading := b;
              formValues := formValues w |})
  | StageApiGetById stageId =>
      let (answer, rs) := stageAPI_getById stageId (services w) in
      (answer, {| services := rs; stage := stage w;
                  requiredFieldsState := requiredFieldsState w; loading := loading w;
                  formValues := formValues w |})
  | SetStage stageData =>
      (tt, {| services := services w; stage := Some stageData;
              requiredFieldsState := requiredFieldsState w; loading := loading w;
              formValues := formValues w |})
  | SetRequiredFields fields =>
      (tt, {| services := services w; stage := stage w;
              requiredFieldsState := fields; loading := loading w;
              formValues := formValues w |})
  | FormReset values =>
      (tt, {| services := services w; stage := stage w;
              requiredFieldsState := requiredFieldsState w; loading := loading w;
              formValues := values |})
  end.

Definition runLoad {A : Type} (p : Prog Resp A) (w : World RS)
  : A * World RS * list (Event Resp) :=
  run perform p w.

End Interpreter.

(** [loadStage], for the [open] and [stageId] props of the render. *)
Definition loadStage (open : bool) (stageId : string) : Prog Resp unit :=
  if open && negb (stageId =? "") then
    call (R := Resp) (SetLoading true) ;;
    answer <- call (R := Resp) (StageApiGetById stageId) ;;
    match answer with
    | Resolved (Some stageData) =>
        call (R := Resp) (SetStage stageData) ;;
        call (R := Resp) (SetRequiredFields (requiredFieldsOf stageData)) ;;
        call (R := Resp) (FormReset (resetValues stageData))
    | Resolved None => Ret tt
    | Rejected error =>
        call (R := Resp) (ConsoleError ["Error loading stage:"; error]) ;;
        call (R := Resp) (ToastError "Erro ao carregar dados da etapa")
    end ;;
    call (R := Resp) (SetLoading false)
  else Ret tt.

(** The form as [useForm] sets it up. *)
Definition defaultValues : FormValues :=
  {| v_name := ""; v_description := Some ""; v_color := "#CCCCCC";
     v_isWinStage := Some false; v_isLossStage := Some false |}.

(** The dialog at its first render. *)
Definition initial {RS : Type} (rs : RS) : World RS :=
  {| services := rs; stage := None; requiredFieldsState := [];
     loading := true;
     formValues := defaultValues |}.

(** A store that answers every load the same way. *)
#[export] Instance constantLoader : StageLoader (Result (option Stage)) := {|
  stageAPI_getById := fun _ answer => (answer, answer)
|}.

(** A stage as the store may hold it: no description, no colour, flags
    unset. *)
Definition bare : Stage :=
  {| stage_id := "S"; stage_funnelId := "F"; stage_name := "Proposta";
     stage_description := None; stage_color := None; stage_order := 1%Z;
     isWinStage := None; isLossStage := None; winReasonRequired := None;
     lossReasonRequired := None; requiredFields := None;
     requiredTasks := None; opportunities := [] |}.

(** A field a stage asks for. *)
Definition askedFor : RequiredField :=
  {| rf_id := "f1"; rf_stageId := "S"; rf_name := "budget";
     rf_type := "number"; rf_isRequired := true; rf_options := None |}.

(** A stage as the store may hold it: with a description, a colour, the
    win flag and a required field. *)
Definition kept : Stage :=
  {| stage_id := "S"; stage_funnelId := "F"; stage_name := "Ganho";
     stage_description := Some "Propostas aceitas";
     stage_color := Some "#00aa00"; stage_order := 4%Z;
     isWinStage := Some true; isLossStage := None;
     winReasonRequired := Some true; lossReasonRequired := None;
     requiredFields := Some [askedFor]; requiredTasks := None;
     opportunities := [] |}.

End EditStageDialogLoad.

(** ** [CreateUserDialog]: the form that creates a user

    [src/src/components/stage/StageColumn.tsx], the [CreateUserDialog]
    component.  [validateData], [supabase.functions.invoke] and
    [handleError] are collaborators whose code is not in the repository;
    they are effects answered by the world.  [String.prototype.toLowerCase]
    is a parameter of the field classifier. *)

Module CreateUserDialog.

Record CreateUserFormData : Type := {
  form_email : string;
  form_role : string;
  form_firstName : string;
  form_lastName : string;
  form_password : string
}.

(** [keyof CreateUserFormData]. *)
Inductive FieldName : Type :=
| Email | Role | FirstName | LastName | Password.

Definition keyOf (field : FieldName) : string :=
  match field with
  | Email => "email"
  | Role => "role"
  | FirstName => "firstName"
  | LastName => "lastName"
  | Password => "password"
  end.

(** [{ ...prev, [field]: value }]. *)
Definition setField (field : FieldName) (value : string)
  (prev : CreateUserFormData) : CreateUserFormData :=
  match field with
  | Email =>
      {| form_email := value; form_role := form_role prev;
         form_firstName := form_firstName prev;
         form_lastName := form_lastName prev;
         form_password := form_password prev |}
  | Role =>
      {| form_email := form_email prev; form_role := value;
         form_firstName := form_firstName prev;
         form_lastName := form_lastName prev;
         form_password := form_password prev |}
  | FirstName =>
      {| form_email := form_email prev; form_role := form_role prev;
         form_firstName := value;
         form_lastName := form_lastName prev;
         form_password := form_password prev |}
  | LastName =>
      {| form_email := form_email prev; form_role := form_role prev;
         form_firstName := form_firstName prev;
         form_lastName := value;
         form_password := form_password prev |}
  | Password =>
      {| form_email := form_email prev; form_role := form_role prev;
         form_firstName := form_firstName prev;
         form_lastName := form_lastName prev;
         form_password := value |}
  end.

Definition emptyForm : CreateUserFormData :=
  {| form_email := ""; form_role := "user"; form_firstName := "";
     form_lastName := ""; form_password := "" |}.

(** [Record<string, string>]: keys in insertion order, one entry a key. *)
Definition Errors : Type := list (string * string).

Fixpoint lookup (key : string) (o : Errors) : option string :=
  match o with
  | [] => None
  | (k, v) :: rest => if k =? key then Some v else lookup key rest
  end.

(** [o[key] = value]. *)
Fixpoint assign (key value : string) (o : Errors) : Errors :=
  match o with
  | [] => [(key, value)]
  | (k, v) :: rest =>
      if k =? key then (key, value) :: rest
      else (k, v) :: assign key value rest
  end.

(** Truthiness of [o[key]]: present and not the empty string. *)
Definition shows (key : string) (o : Errors) : bool :=
  match lookup key o with
  | Some v => negb (v =? "")
  | None => false
  end.

(** [s.includes(needle)]. *)
Fixpoint includes (needle s : string) : bool :=
  String.prefix needle s
  || match s with
     | EmptyString => false
     | String _ rest => includes needle rest
     end.

Section Classifier.
Variable toLowerCase : string -> string.

(** The chain of conditionals that files a validation message under a
    field. *)
Definition fieldOf (error : string) : string :=
  if includes "email" (toLowerCase error) then "email"
  else if includes "nome" (toLowerCase error) then "firstName"
  else if includes "sobrenome" (toLowerCase error) then "lastName"
  else if includes "senha" (toLowerCase error) then "password"
  else if includes "role" (toLowerCase error) then "role"
  else "general".

(** [validation.errors?.forEach(error => { newErrors[field] = error })]. *)
Definition newErrorsOf (errors : option (list string)) : Errors :=
  match errors with
  | None => []
  | Some messages =>
      fold_left (fun newErrors error => assign (fieldOf error) error newErrors)
        messages []
  end.

End Classifier.

Record Validation : Type := {
  success : bool;
  errors : option (list string)
}.

Inductive Eff : Type :=
| PreventDefault
| ValidateData (data : CreateUserFormData)
| SetErrors (newErrors : Errors)
| SetErrorAt (key value : string)
| SetFormData (data : CreateUserFormData)
| SetFieldAt (field : FieldName) (value : string)
| SetIsLoading (b : bool)
| FunctionsInvoke (name : string) (body : CreateUserFormData)
| ToastSuccess (message : string)
| SetIsOpen (b : bool)
| OnUserCreated
| HandleError (error message : string).

(** [invoke] resolves with an object whose [error] is null or an error. *)
Definition Resp (e : Eff) : Type :=
  match e with
  | ValidateData _ => Validation
  | FunctionsInvoke _ _ => Result (option string)
  | _ => unit
  end.

Class UserServices (RS : Type) : Type := {
  validateData : CreateUserFormData -> Validation;
  functions_invoke :
    string -> CreateUserFormData -> RS -> Result (option string) * RS
}.

Record World (RS : Type) : Type := {
  services : RS;
  formData : CreateUserFormData;
  isLoading : bool;
  errorsState : Errors
}.
Arguments services {RS} _.
Arguments formData {RS} _.
Arguments isLoading {RS} _.
Arguments errorsState {RS} _.

Section Interpreter.
Context {RS : Type} `{UserServices RS}.

Definition perform (e : Eff) (w : World RS) : Resp e * World RS :=
  match e as e0 return Resp e0 * World RS with
  | ValidateData data => (validateData data, w)
  | SetErrors newErrors =>
      (tt, {| services := services w; formData := formData w;
              isLoading := isLoading w; errorsState := newErrors |})
  | SetErrorAt key value =>
      (tt, {| services := services w; formData := formData w;
              isLoading := isLoading w;
              errorsState := assign key value (errorsState w) |})
  | SetFormData data =>
      (tt, {| services := services w; formData := data;
              isLoading := isLoading w; errorsState := errorsState w |})
  | SetFieldAt field value =>
      (tt, {| services := services w;
              formData := setField field value (formData w);
              isLoading := isLoading w; errorsState := errorsState w |})
  | SetIsLoading b =>
      (tt, {| services := services w; formData := formData w;
              isLoading := b; errorsState := errorsState w |})
  | FunctionsInvoke name body =>
      let (answer, rs) := functions_invoke name body (services w) in
      (answer, {| services := rs; formData := formData w;
                  isLoading := isLoading w; errorsState := errorsState w |})
  | PreventDefault => (tt, w)
  | ToastSuccess _ => (tt, w)
  | SetIsOpen _ => (tt, w)
  | OnUserCreated => (tt, w)
  | HandleError _ _ => (tt, w)
  end.

Definition runUserDialog {A : Type} (p : Prog Resp A) (w : World RS)
  : A * World RS * list (Event Resp) :=
  run perform p w.

End Interpreter.

(** The request, if the entry is a call of the edge function. *)
Definition invokedBy (ev : Event Resp) : option (string * CreateUserFormData) :=
  match ev_eff ev with
  | FunctionsInvoke name body => Some (name, body)
  | _ => None
  end.

(** *** The component's closure: [toLowerCase] of the runtime and the
    [formData] and [errors] state of the render. *)
Section Dialog.
Variable toLowerCase : string -> string.
Variable formDataNow : CreateUserFormData.
Variable errorsNow : Errors.

Definition resetForm : Prog Resp unit :=
  call (R := Resp) (SetFormData emptyForm) ;;
  call (R := Resp) (SetErrors []).

(** The body of the request carries the five fields of the form. *)
Definition handleSubmit : Prog Resp unit :=
  call (R := Resp) PreventDefault ;;
  validation <- call (R := Resp) (ValidateData formDataNow) ;;
  if negb (success validation) then
    call (R := Resp)
      (SetErrors (newErrorsOf toLowerCase (errors validation)))
  else
    call (R := Resp) (SetIsLoading true) ;;
    answer <- call (R := Resp) (FunctionsInvoke "create-user" formDataNow) ;;
    match answer with
    | Resolved None =>
        call (R := Resp) (ToastSuccess "Usuário criado com sucesso!") ;;
        resetForm ;;
        call (R := Resp) (SetIsOpen false) ;;
        call (R := Resp) OnUserCreated
    | Resolved (Some error) =>
        call (R := Resp) (HandleError error "Erro ao criar usuário")
    | Rejected error =>
        call (R := Resp) (HandleError error "Erro ao criar usuário")
    end ;;
    call (R := Resp) (SetIsLoading false).

Definition updateField (field : FieldName) (value : string)
  : Prog Resp unit :=
  call (R := Resp) (SetFieldAt field value) ;;
  if shows (keyOf field) errorsNow then
    call (R := Resp) (SetErrorAt (keyOf field) "")
  else Ret tt.

End Dialog.

Module Scripted.

(** Lower-casing of the letters A to Z. *)
Definition lowerAscii (c : ascii) : ascii :=
  let n := nat_of_ascii c in
  if ((65 <=? n) && (n <=? 90))%nat then ascii_of_nat (n + 32) else c.

Fixpoint lower (s : string) : string :=
  match s with
  | EmptyString => EmptyString
  | String c rest => String (lowerAscii c) (lower rest)
  end.

(** A validator that asks for the last name and the password only, and an
    edge function that answers what the script says. *)
#[export] Instance scripted : UserServices (Result (option string)) := {|
  validateData := fun data =>
    if (form_lastName data =? "") || (String.length (form_password data) <? 6)%nat
    then {| success := false;
            errors := Some
              ((if form_lastName data =? ""
                then ["Sobrenome é obrigatório"] else [])
               ++ (if (String.length (form_password data) <? 6)%nat
                   then ["Senha deve ter pelo menos 6 caracteres"] else [])) |}
    else {| success := true; errors := None |};
  functions_invoke := fun name body rs => (rs, rs)
|}.


Definition noLastName : CreateUserFormData :=
  {| form_email := "ana@example.com"; form_role := "manager";
     form_firstName := "Ana"; form_lastName := "";
     form_password := "segredo1" |}.

Definition fresh (answer : Result (option string))
  (data : CreateUserFormData) : World (Result (option string)) :=
  {| services := answer; formData := data; isLoading := false;
     errorsState := [] |}.

(** The form without last name, after a submission that failed: messages
    under the first name and under the password. *)
Definition marked : World (Result (option string)) :=
  {| services := Resolved None; formData := noLastName; isLoading := false;
     errorsState :=
       [("firstName", "Sobrenome é obrigatório");
        ("password", "Senha deve ter pelo menos 6 caracteres")] |}.

End Scripted.

End CreateUserDialog.

(** ** [OpportunityDetailsTabs]: scheduled actions and the pending card

    [src/unnamed/part_001], the [OpportunityDetailsTabs] component: the
    effect that loads the scheduled actions of the opportunity, the
    [pendingActions] filter and what the render makes of it (the badges of
    the tabs and the card of pending tasks).  [scheduledActionAPI] is a
    collaborator whose code is not in the repository. *)

Module OpportunityDetailsTabs.

Record ScheduledAction : Type := {
  action_id : string;
  actionType : string;
  status : string;
  scheduledDateTime : string
}.

Inductive Eff : Type :=
| ConsoleError (args : list string)
| SetLoadingActions (b : bool)
| GetByOpportunityId (opportunityId : string)
| SetScheduledActions (actions : list ScheduledAction).

Definition Resp (e : Eff) : Type :=
  match e with
  | GetByOpportunityId _ => Result (list ScheduledAction)
  | _ => unit
  end.

Class ActionStore (RS : Type) : Type := {
  scheduledActionAPI_getByOpportunityId :
    string -> RS -> Result (list ScheduledAction) * RS
}.

Record World (RS : Type) : Type := {
  services : RS;
  scheduledActions : list ScheduledAction;
  loadingActions : bool
}.
Arguments services {RS} _.
Arguments scheduledActions {RS} _.
Arguments loadingActions {RS} _.

Section Interpreter.
Context {RS : Type} `{ActionStore RS}.

Definition perform (e : Eff) (w : World RS) : Resp e * World RS :=
  match e as e0 return Resp e0 * World RS with
  | ConsoleError _ => (tt, w)
  | SetLoadingActions b =>
      (tt, {| services := services w;
              scheduledActions := scheduledActions w;
              loadingActions := b |})
  | GetByOpportunityId opportunityId =>
      let (answer, rs) :=
        scheduledActionAPI_getByOpportunityId opportunityId (services w) in
      (answer, {| services := rs; scheduledActions := scheduledActions w;
                  loadingActions := loadingActions w |})
  | SetScheduledActions actions =>
      (tt, {| services := services w; scheduledActions := actions;
              loadingActions := loadingActions w |})
  end.

Definition runTabs {A : Type} (p : Prog Resp A) (w : World RS)
  : A * World RS * list (Event Resp) :=
  run perform p w.

End Interpreter.

(** [opportunity?.id]: nothing is done without an opportunity or with an
    empty id. *)
Definition loadScheduledActions (opportunity : option Opportunity)
  : Prog Resp unit :=
  match opportunity with
  | None => Ret tt
  | Some o =>
      if id o =? "" then Ret tt
      else
        call (R := Resp) (SetLoadingActions true) ;;
        answer <- call (R := Resp) (GetByOpportunityId (id o)) ;;
        match answer with
        | Resolved actions => call (R := Resp) (SetScheduledActions actions)
        | Rejected error =>
            call (R := Resp)
              (ConsoleError ["Error loading scheduled actions:"; error])
        end ;;
        call (R := Resp) (SetLoadingActions false)
  end.

Definition pendingActions (actions : list ScheduledAction)
  : list ScheduledAction :=
  filter (fun action => status action =? "pending") actions.

(** [PendingOf actions pending]: [pending] is made of the actions whose
    status is [pending], each once and in the order of [actions]. *)
Inductive PendingOf : list ScheduledAction -> list ScheduledAction -> Prop :=
| pending_end : PendingOf [] []
| pending_keep (action : ScheduledAction) (actions pending :
    list ScheduledAction) :
    status action = "pending" ->
    PendingOf actions pending ->
    PendingOf (action :: actions) (action :: pending)
| pending_skip (action : ScheduledAction) (actions pending :
    list ScheduledAction) :
    status action <> "pending" ->
    PendingOf actions pending ->
    PendingOf (action :: actions) pending.

(** The badge of a tab: rendered, with its number, when the number is
    positive. *)
Definition badge (n : nat) : option nat :=
  if (0 <? n)%nat then Some n else None.

Definition detailsBadge (actions : list ScheduledAction) : option nat :=
  badge (List.length (pendingActions actions)).

Definition actionsBadge (actions : list ScheduledAction) : option nat :=
  badge (List.length actions).

(** The card of pending tasks: the rows of [slice(0, 3)] and the number of
    the [+N tarefas pendentes] line, when that line is rendered. *)
Record PendingCard : Type := {
  rows : list ScheduledAction;
  more : option nat
}.

Definition pendingCard (actions : list ScheduledAction)
  : option PendingCard :=
  let pending := pendingActions actions in
  if (0 <? List.length pending)%nat then
    Some {| rows := firstn 3 pending;
            more := if (3 <? List.length pending)%nat
                    then Some (List.length pending - 3)%nat else None |}
  else None.

Module Scripted.

#[export] Instance constant : ActionStore (Result (list ScheduledAction)) := {|
  scheduledActionAPI_getByOpportunityId := fun opportunityId rs => (rs, rs)
|}.

Definition action (actionId state : string) : ScheduledAction :=
  {| action_id := actionId; actionType := "email"; status := state;
     scheduledDateTime := "2025-01-01T12:00:00Z" |}.

Definition shown : list ScheduledAction :=
  [action "a1" "pending"; action "a2" "completed"].

(** Five actions, four of them pending. *)
Definition five : list ScheduledAction :=
  [action "a1" "pending"; action "a2" "pending"; action "a3" "completed";
   action "a4" "pending"; action "a5" "pending"].

Definition before (answer : Result (list ScheduledAction))
  : World (Result (list ScheduledAction)) :=
  {| services := answer; scheduledActions := shown;
     loadingActions := false |}.

End Scripted.

End OpportunityDetailsTabs.

(** * Properties *)

(** ** Running programs *)

Module FreeFacts.
Section Run.
Context {E : Type} {R : E -> Type} {W : Type}.
Variable perform : forall e : E, W -> R e * W.
Variable awaits : E -> bool.

(** A run of [bind p f] is a run of [p] followed by a run of [f] on its
    result. *)
Lemma run_bind {A B : Type} (p : Prog R A) (f : A -> Prog R B) (w : W) :
  run perform (bind p f) w =
  let '(a, w1, t1) := run perform p w in
  let '(b, w2, t2) := run perform (f a) w1 in
  (b, w2, t1 ++ t2).
Proof.
  revert w. induction p as [a | e k IH]; intros w; simpl.
  - destruct (run perform (f a) w) as [[b w2] t2]. reflexivity.
  - destruct (perform e w) as [r w1]. rewrite IH.
    destruct (run perform (k r) w1) as [[a w2] t1].
    destruct (run perform (f a) w2) as [[b w3] t2]. reflexivity.
Qed.

(** The two interpreters agree: what a task does up to its first await is
    the beginning of its run, and the run goes on from the parked call. *)
Lemma start_then_run {A : Type} (p : Prog R A) (w : W) :
  run perform p w =
  let '(task, w1, t1) := start perform awaits p w in
  let '(a, w2, t2) :=
    match task with
    | Finished a => (a, w1, [])
    | Suspended e k => run perform (Vis e k) w1
    end in
  (a, w2, t1 ++ t2).
Proof.
  revert w. induction p as [a | e k IH]; intros w.
  - reflexivity.
  - cbn [start]. destruct (awaits e).
    + destruct (run perform (Vis e k) w) as [[a w2] t2]. reflexivity.
    + cbn [run]. destruct (perform e w) as [r w1]. rewrite IH.
      destruct (start perform awaits (k r) w1) as [[task w2] t1].
      destruct task as [a | e' k'].
      * reflexivity.
      * cbn [run]. destruct (perform e' w2) as [r' w3].
        destruct (run perform (k' r') w3) as [[a w4] t2]. reflexivity.
Qed.

End Run.
End FreeFacts.

(** ** The runs of the drag hook *)

Module DragFacts.
Import UseOpportunityDrag FreeFacts.

Section Facts.
Context {RS : Type} `{Services RS}.

Lemma PatchedStage_more_dates o fin src dst idx d dates s s' :
  PatchedStage o fin src dst idx dates s s' ->
  PatchedStage o fin src dst idx (d :: dates) s s'.
Proof.
  unfold PatchedStage. destruct (stage_id s =? src); auto.
  destruct (stage_id s =? dst); auto.
  intros [d' [Hin Heq]]. exists d'. split; [right; exact Hin | exact Heq].
Qed.

Lemma run_patchStages o fin src dst idx (l : list Stage) (w : World RS) :
  exists l' rs' dates,
    runHook (mapM (patchStage o fin src dst idx) l) w
    = (l', withServices w rs', clockReads dates)
    /\ Forall2 (PatchedStage o fin src dst idx dates) l l'.
Proof.
  revert w. induction l as [| s rest IH]; intros w.
  - exists [], (services w), []. split; [destruct w; reflexivity | constructor].
  - unfold runHook in *. cbn [mapM]. rewrite run_bind.
    unfold patchStage at 1.
    destruct (stage_id s =? src) eqn:Esrc; [| destruct (stage_id s =? dst) eqn:Edst].
    + cbn [run]. rewrite run_bind.
      destruct (IH w) as (l' & rs' & dates & Hrun & Hall). rewrite Hrun. cbn.
      exists (withOpportunities s
                (filter (fun opp => negb (id opp =? id o)) (opportunities s)) :: l'),
        rs', dates.
      split; [rewrite ?app_nil_r; reflexivity |]. constructor; [| exact Hall].
      unfold PatchedStage. rewrite Esrc. reflexivity.
    + cbn [bind call run perform answer].
      destruct (newDate (services w)) as [d rs1] eqn:Ed. cbn [fst snd].
      rewrite run_bind.
      destruct (IH (withServices w rs1)) as (l' & rs' & dates & Hrun & Hall).
      rewrite Hrun. cbn.
      exists (withOpportunities s
                (spliceInsert (opportunities s) idx (stamped fin dst d)) :: l'),
        rs', (d :: dates).
      split; [rewrite ?app_nil_r; reflexivity |]. constructor.
      * unfold PatchedStage. rewrite Esrc, Edst. exists d. split; [left |]; reflexivity.
      * eapply Forall2_impl; [| exact Hall]. intros a b. apply PatchedStage_more_dates.
    + cbn [run]. rewrite run_bind.
      destruct (IH w) as (l' & rs' & dates & Hrun & Hall). rewrite Hrun. cbn.
      exists (s :: l'), rs', dates.
      split; [rewrite ?app_nil_r; reflexivity |]. constructor; [| exact Hall].
      unfold PatchedStage. rewrite Esrc, Edst. reflexivity.
Qed.

Lemma run_refetch (l : list Stage) (w : World RS) :
  exists answers rs',
    length answers = length l
    /\ runHook (mapM refetchStage l) w
       = (refetched l answers, withServices w rs', fetchEvents l answers).
Proof.
  revert w. induction l as [| s rest IH]; intros w.
  - exists [], (services w). split; [reflexivity | destruct w; reflexivity].
  - unfold runHook in *. cbn [mapM]. rewrite run_bind.
    unfold refetchStage at 1. cbn [bind call run perform answer].
    destruct (opportunityAPI_getByStageId (stage_id s) false (services w))
      as [a rs1] eqn:Ea. cbn [fst snd].
    destruct (IH (withServices w rs1)) as (answers & rs' & Hlen & Hrun).
    exists (a :: answers), rs'. split; [simpl; congruence |].
    destruct a as [opps | reason]; cbn [run]; rewrite run_bind, Hrun; cbn; rewrite ?app_nil_r; reflexivity.
Qed.

Section Closure.
Variable stages : list Stage.
Variables (o : Opportunity) (src dst : string) (idx : Z)
  (upd : option OpportunityPatch).

Lemma run_persist (w : World RS) :
  exists a rs',
    runHook (persist o dst upd) w
    = (a, withServices w rs', [persisted o dst upd a]).
Proof.
  unfold runHook, persist, persisted. destruct upd as [u |]; cbn.
  - destruct (opportunityAPI_update (id o) (spreadPatch (stageIdPatch dst) u)
                (services w)) as [a rs']. exists a, rs'. reflexivity.
  - destruct (opportunityAPI_move (id o) dst (services w)) as [a rs'].
    exists a, rs'. reflexivity.
Qed.

Lemma run_tryMove (w : World RS) :
  exists rs',
    (exists p dates l,
        runHook (tryMove stages o src dst idx upd) w
        = (Resolved tt, withBoardStages (withServices w rs') l,
           committedTrace o dst upd p dates l)
        /\ Forall2
             (PatchedStage o
                (finalOpportunityOf p (opportunityToMoveOf o upd) dst)
                src dst idx dates) stages l)
    \/ (exists error t,
          FailedTrace o dst upd error t
          /\ runHook (tryMove stages o src dst idx upd) w
             = (Rejected error, withServices w rs', t)).
Proof.
  unfold runHook, tryMove. cbn zeta. rewrite run_bind.
  destruct (run_persist w) as (a & rs1 & Hp). unfold runHook in Hp.
  rewrite Hp. destruct a as [[] | error].
  - cbn [bind call run perform answer].
    destruct (processStageRequirements
                (withStageId (opportunityToMoveOf o upd) dst) dst
                (services (withServices w rs1))) as [b rs2] eqn:Eb.
    cbn [fst snd]. destruct b as [p | error].
    + rewrite run_bind.
      destruct (run_patchStages o
                  (finalOpportunityOf p (opportunityToMoveOf o upd) dst)
                  src dst idx stages (withServices (withServices w rs1) rs2))
        as (l & rs3 & dates & Hrun & Hall).
      unfold runHook in Hrun. rewrite Hrun. cbn.
      exists rs3. left. exists p, dates, l. split; [| exact Hall].
      unfold committedTrace. cbn. reflexivity.
    + cbn. exists rs2. right. exists error. eexists.
      split; [right; reflexivity |]. reflexivity.
  - cbn. exists rs1. right. exists error. eexists.
    split; [left; reflexivity |]. reflexivity.
Qed.

Lemma run_revertMove (error : string) (w : World RS) :
  exists answers rs',
    length answers = length stages
    /\ runHook (revertMove stages error) w
       = (tt,
          match promiseAll (settleOrder rs') (refetched stages answers) with
          | Resolved l => withBoardStages (withServices w rs') l
          | Rejected _ => withServices w rs'
          end,
          revertTrace stages error answers
            (promiseAll (settleOrder rs') (refetched stages answers))).
Proof.
  unfold runHook, revertMove. cbn [bind call run perform].
  rewrite run_bind.
  destruct (run_refetch stages w) as (answers & rs' & Hlen & Hrun).
  unfold runHook in Hrun. rewrite Hrun.
  exists answers, rs'. split; [exact Hlen |].
  unfold revertTrace, revertEnd.
  cbn [bind call run perform services withServices].
  destruct (promiseAll (settleOrder rs') (refetched stages answers))
    as [l | e']; cbn; reflexivity.
Qed.

(** Every run of [completeOpportunityMove] is a commit or a revert. *)
Lemma run_completeOpportunityMove (w : World RS) :
  exists rs',
    (exists p dates l,
        runHook (completeOpportunityMove stages o src dst idx upd) w
        = (tt, withIsDragging (withBoardStages (withServices w rs') l) false,
           Did (R := Resp) (SetIsDragging true) tt
           :: committedTrace o dst upd p dates l
           ++ [Did (R := Resp) (SetIsDragging false) tt])
        /\ Forall2
             (PatchedStage o
                (finalOpportunityOf p (opportunityToMoveOf o upd) dst)
                src dst idx dates) stages l)
    \/ (exists error t answers,
          FailedTrace o dst upd error t
          /\ length answers = length stages
          /\ runHook (completeOpportunityMove stages o src dst idx upd) w
             = (tt,
                withIsDragging
                  match
                    promiseAll (settleOrder rs') (refetched stages answers)
                  with
                  | Resolved l => withBoardStages (withServices w rs') l
                  | Rejected _ => withServices w rs'
                  end false,
                Did (R := Resp) (SetIsDragging true) tt
                :: t
                ++ revertTrace stages error answers
                     (promiseAll (settleOrder rs') (refetched stages answers))
                ++ [Did (R := Resp) (SetIsDragging false) tt])).
Proof.
  unfold runHook, completeOpportunityMove. cbn [bind call run perform].
  rewrite run_bind.
  destruct (run_tryMove (withIsDragging w true))
    as (rs1 & [(p & dates & l & Hrun & Hall) | (error & t & Hf & Hrun)]);
    unfold runHook in Hrun; rewrite Hrun.
  - cbn. exists rs1. left. exists p, dates, l. split; [| exact Hall].
    reflexivity.
  - rewrite run_bind.
    destruct (run_revertMove error (withServices (withIsDragging w true) rs1))
      as (answers & rs2 & Hlen & Hrev).
    unfold runHook in Hrev. rewrite Hrev. cbn.
    exists rs2. right. exists error, t, answers.
    split; [exact Hf |]. split; [exact Hlen |].
    destruct (promiseAll (settleOrder rs2) (refetched stages answers));
      rewrite <- ?app_assoc; reflexivity.
Qed.

End Closure.
End Facts.
End DragFacts.

(** ** Reading the traces of the drag hook *)

Module TraceFacts.
Import UseOpportunityDrag.

Lemma Forall2_nth_error_l {A B : Type} (P : A -> B -> Prop) (l : list A)
  (l' : list B) :
  Forall2 P l l' ->
  forall i a, nth_error l i = Some a ->
  exists b, nth_error l' i = Some b /\ P a b.
Proof.
  induction 1 as [| x y l l' Hxy Hall IH]; intros i a Hi.
  - destruct i; discriminate.
  - destruct i as [| i]; simpl in Hi.
    + inversion Hi; subst. exists y. split; [reflexivity | exact Hxy].
    + apply IH. exact Hi.
Qed.

Lemma quiet_nil {A : Type} (f : Event Resp -> option A) : quiet f [].
Proof. intros ev []. Qed.

Lemma quiet_cons {A : Type} (f : Event Resp -> option A) ev t :
  f ev = None -> quiet f t -> quiet f (ev :: t).
Proof. intros He Ht ev' [<- | Hin]; auto. Qed.

Lemma quiet_app {A : Type} (f : Event Resp -> option A) t1 t2 :
  quiet f t1 -> quiet f t2 -> quiet f (t1 ++ t2).
Proof. intros H1 H2 ev Hin. apply in_app_or in Hin. destruct Hin; auto. Qed.

Lemma quiet_fetchEvents {A : Type} (f : Event Resp -> option A) stages answers :
  (forall s arch a, f (Did (R := Resp) (ApiGetByStageId s arch) a) = None) ->
  quiet f (fetchEvents stages answers).
Proof.
  intros Hf ev Hin. unfold fetchEvents in Hin. apply in_map_iff in Hin.
  destruct Hin as ([s a] & <- & _). apply Hf.
Qed.

Lemma quiet_clockReads {A : Type} (f : Event Resp -> option A) dates :
  (forall d, f (Did (R := Resp) NewDate d) = None) ->
  quiet f (clockReads dates).
Proof.
  intros Hf ev Hin. unfold clockReads in Hin. apply in_map_iff in Hin.
  destruct Hin as (d & <- & _). apply Hf.
Qed.

Lemma quiet_revertEnd {A : Type} (f : Event Resp -> option A) promises
  outcome :
  (forall l r, f (Did (R := Resp) (PromiseAll l) r) = None) ->
  (forall l, f (Did (R := Resp) (SetStages l) tt) = None) ->
  (forall args, f (Did (R := Resp) (ConsoleError args) tt) = None) ->
  quiet f (revertEnd promises outcome).
Proof.
  intros H0 H1 H2. unfold revertEnd. apply quiet_cons; [apply H0 |].
  destruct outcome; apply quiet_cons; auto using quiet_nil.
Qed.

Lemma persistAnswerOf_persisted o dst upd a :
  persistAnswerOf (persisted o dst upd a) = Some a.
Proof. destruct upd; reflexivity. Qed.

Lemma processAnswerOf_persisted o dst upd a :
  processAnswerOf (persisted o dst upd a) = None.
Proof. destruct upd; reflexivity. Qed.

Lemma fetchAnswerOf_persisted o dst upd a :
  fetchAnswerOf (persisted o dst upd a) = None.
Proof. destruct upd; reflexivity. Qed.

Lemma dateOf_persisted o dst upd a : dateOf (persisted o dst upd a) = None.
Proof. destruct upd; reflexivity. Qed.

Lemma stagesSetBy_persisted o dst upd a :
  stagesSetBy (persisted o dst upd a) = None.
Proof. destruct upd; reflexivity. Qed.

Lemma sole_answer {A : Type} (f : Event Resp -> option A) t1 ev0 t2 ev a :
  In ev (t1 ++ ev0 :: t2) ->
  quiet f t1 -> quiet f t2 ->
  f ev = Some a -> f ev0 = Some a.
Proof.
  intros Hin H1 H2 Hf. apply in_app_or in Hin. destruct Hin as [Hin | [<- | Hin]].
  - rewrite (H1 _ Hin) in Hf. discriminate.
  - exact Hf.
  - rewrite (H2 _ Hin) in Hf. discriminate.
Qed.

Lemma no_answer {A : Type} (f : Event Resp -> option A) t ev a :
  In ev t -> quiet f t -> f ev = Some a -> False.
Proof. intros Hin Hq Hf. rewrite (Hq _ Hin) in Hf. discriminate. Qed.

Ltac quiet_tac :=
  repeat match goal with
    | |- quiet _ [] => apply quiet_nil
    | |- quiet _ (_ :: _) => apply quiet_cons
    | |- quiet _ (_ ++ _) => apply quiet_app
    | |- quiet _ (fetchEvents _ _) =>
        apply quiet_fetchEvents; intros; reflexivity
    | |- quiet _ (clockReads _) =>
        apply quiet_clockReads; intros; reflexivity
    | |- quiet _ (revertEnd _ _) =>
        apply quiet_revertEnd; intros; reflexivity
    | |- _ (persisted _ _ _ _) = None =>
        first [ apply processAnswerOf_persisted
              | apply fetchAnswerOf_persisted
              | apply dateOf_persisted
              | apply stagesSetBy_persisted ]
    | |- _ = None => reflexivity
    end.

Section Runs.
Context {RS : Type} `{Services RS}.
Variable stages : list Stage.
Variables (o : Opportunity) (src dst : string) (idx : Z)
  (upd : option OpportunityPatch).

(** A run whose two remote steps resolved is a commit. *)
Lemma committed_run (w w' : World RS) (t : list (Event Resp))
  (p : option Opportunity) :
  runHook (completeOpportunityMove stages o src dst idx upd) w = (tt, w', t) ->
  In (persisted o dst upd (Resolved tt)) t ->
  In (processed o dst upd (Resolved p)) t ->
  exists rs' dates l,
    w' = withIsDragging (withBoardStages (withServices w rs') l) false
    /\ t = (Did (R := Resp) (SetIsDragging true) tt
            :: committedTrace o dst upd p dates l
            ++ [Did (R := Resp) (SetIsDragging false) tt])%list
    /\ Forall2
         (PatchedStage o
            (finalOpportunityOf p (opportunityToMoveOf o upd) dst)
            src dst idx dates) stages l.
Proof.
  intros Hrun Hpers Hproc.
  destruct (DragFacts.run_completeOpportunityMove stages o src dst idx upd w)
    as (rs' & [(p0 & dates & l & Hr & Hall)
              | (error & t0 & answers & Hf & Hlen & Hr)]);
    rewrite Hr in Hrun; inversion Hrun; subst w' t; clear Hrun.
  - assert (Hp : processAnswerOf (processed o dst upd (Resolved p0))
                 = Some (Resolved p)).
    { apply (sole_answer processAnswerOf
               [Did (R := Resp) (SetIsDragging true) tt;
                persisted o dst upd (Resolved tt)]
               (processed o dst upd (Resolved p0))
               ((clockReads dates
                 ++ [Did (R := Resp) (SetStages l) tt;
                     Did (R := Resp) (ToastDismiss "moving-opportunity") tt;
                     Did (R := Resp)
                       (ToastSuccess "Oportunidade movida com sucesso") tt])
                ++ [Did (R := Resp) (SetIsDragging false) tt])
               _ _ Hproc); [quiet_tac | quiet_tac | reflexivity]. }
    simpl in Hp. inversion Hp; subst p0.
    exists rs', dates, l. auto.
  - exfalso. destruct Hf as [-> | ->].
    + assert (Hp : persistAnswerOf (persisted o dst upd (Rejected error))
                   = Some (Resolved tt)).
      { apply (sole_answer persistAnswerOf
                 [Did (R := Resp) (SetIsDragging true) tt]
                 (persisted o dst upd (Rejected error))
                 (revertTrace stages error answers
                    (promiseAll (settleOrder rs') (refetched stages answers))
                  ++ [Did (R := Resp) (SetIsDragging false) tt])
                 _ _ Hpers);
          [quiet_tac | unfold revertTrace; quiet_tac
          | apply persistAnswerOf_persisted]. }
      rewrite persistAnswerOf_persisted in Hp. discriminate.
    + assert (Hp : processAnswerOf (processed o dst upd (Rejected error))
                   = Some (Resolved p)).
      { apply (sole_answer processAnswerOf
                 [Did (R := Resp) (SetIsDragging true) tt;
                  persisted o dst upd (Resolved tt)]
                 (processed o dst upd (Rejected error))
                 (revertTrace stages error answers
                    (promiseAll (settleOrder rs') (refetched stages answers))
                  ++ [Did (R := Resp) (SetIsDragging false) tt])
                 _ _ Hproc);
          [quiet_tac | unfold revertTrace; quiet_tac | reflexivity]. }
      simpl in Hp. discriminate.
Qed.

(** A run in which a remote step was rejected is a revert. *)
Lemma failed_run (w w' : World RS) (t : list (Event Resp)) (error : string) :
  runHook (completeOpportunityMove stages o src dst idx upd) w = (tt, w', t) ->
  In (persisted o dst upd (Rejected error)) t
  \/ In (processed o dst upd (Rejected error)) t ->
  exists rs' t0 answers,
    FailedTrace o dst upd error t0
    /\ length answers = length stages
    /\ w' = withIsDragging
              match promiseAll (settleOrder rs') (refetched stages answers) with
              | Resolved l => withBoardStages (withServices w rs') l
              | Rejected _ => withServices w rs'
              end false
    /\ t = (Did (R := Resp) (SetIsDragging true) tt
            :: t0 ++ revertTrace stages error answers
                       (promiseAll (settleOrder rs') (refetched stages answers))
            ++ [Did (R := Resp) (SetIsDragging false) tt])%list.
Proof.
  intros Hrun Hrej.
  destruct (DragFacts.run_completeOpportunityMove stages o src dst idx upd w)
    as (rs' & [(p0 & dates & l & Hr & Hall)
              | (error0 & t0 & answers & Hf & Hlen & Hr)]);
    rewrite Hr in Hrun; inversion Hrun; subst w' t; clear Hrun.
  - exfalso. destruct Hrej as [Hin | Hin].
    + assert (Hp : persistAnswerOf (persisted o dst upd (Resolved tt))
                   = Some (Rejected error)).
      { apply (sole_answer persistAnswerOf
                 [Did (R := Resp) (SetIsDragging true) tt]
                 (persisted o dst upd (Resolved tt))
                 (processed o dst upd (Resolved p0)
                  :: (clockReads dates
                      ++ [Did (R := Resp) (SetStages l) tt;
                          Did (R := Resp)
                            (ToastDismiss "moving-opportunity") tt;
                          Did (R := Resp)
                            (ToastSuccess "Oportunidade movida com sucesso")
                            tt])
                  ++ [Did (R := Resp) (SetIsDragging false) tt])
                 _ _ Hin);
          [quiet_tac | quiet_tac | apply persistAnswerOf_persisted]. }
      rewrite persistAnswerOf_persisted in Hp. discriminate.
    + assert (Hp : processAnswerOf (processed o dst upd (Resolved p0))
                   = Some (Rejected error)).
      { apply (sole_answer processAnswerOf
                 [Did (R := Resp) (SetIsDragging true) tt;
                  persisted o dst upd (Resolved tt)]
                 (processed o dst upd (Resolved p0))
                 ((clockReads dates
                   ++ [Did (R := Resp) (SetStages l) tt;
                       Did (R := Resp) (ToastDismiss "moving-opportunity") tt;
                       Did (R := Resp)
                         (ToastSuccess "Oportunidade movida com sucesso") tt])
                  ++ [Did (R := Resp) (SetIsDragging false) tt])
                 _ _ Hin); [quiet_tac | quiet_tac | reflexivity]. }
      simpl in Hp. discriminate.
  - assert (error0 = error) as ->.
    { destruct Hf as [-> | ->]; destruct Hrej as [Hin | Hin].
      + assert (Hp : persistAnswerOf (persisted o dst upd (Rejected error0))
                     = Some (Rejected error)).
        { apply (sole_answer persistAnswerOf
                   [Did (R := Resp) (SetIsDragging true) tt]
                   (persisted o dst upd (Rejected error0))
                   (revertTrace stages error0 answers
                      (promiseAll (settleOrder rs') (refetched stages answers))
                    ++ [Did (R := Resp) (SetIsDragging false) tt])
                   _ _ Hin);
            [quiet_tac | unfold revertTrace; quiet_tac
            | apply persistAnswerOf_persisted]. }
        rewrite persistAnswerOf_persisted in Hp. congruence.
      + exfalso.
        apply (no_answer processAnswerOf _ _ (Rejected error) Hin);
          [unfold revertTrace; quiet_tac | reflexivity].
      + assert (Hp : persistAnswerOf (persisted o dst upd (Resolved tt))
                     = Some (Rejected error)).
        { apply (sole_answer persistAnswerOf
                   [Did (R := Resp) (SetIsDragging true) tt]
                   (persisted o dst upd (Resolved tt))
                   (processed o dst upd (Rejected error0)
                    :: revertTrace stages error0 answers
                         (promiseAll (settleOrder rs') (refetched stages answers))
                    ++ [Did (R := Resp) (SetIsDragging false) tt])
                   _ _ Hin);
            [quiet_tac | unfold revertTrace; quiet_tac
            | apply persistAnswerOf_persisted]. }
        rewrite persistAnswerOf_persisted in Hp. discriminate.
      + assert (Hp : processAnswerOf (processed o dst upd (Rejected error0))
                     = Some (Rejected error)).
        { apply (sole_answer processAnswerOf
                   [Did (R := Resp) (SetIsDragging true) tt;
                    persisted o dst upd (Resolved tt)]
                   (processed o dst upd (Rejected error0))
                   (revertTrace stages error0 answers
                      (promiseAll (settleOrder rs') (refetched stages answers))
                    ++ [Did (R := Resp) (SetIsDragging false) tt])
                   _ _ Hin);
            [quiet_tac | unfold revertTrace; quiet_tac | reflexivity]. }
        simpl in Hp. congruence. }
    exists rs', t0, answers. auto.
Qed.

End Runs.
End TraceFacts.

(** ** The drag hook: what a drag and a commit do *)

Module DragProperties.
Import UseOpportunityDrag TraceFacts.

Lemma spliceInsert_in_range {A : Type} (l : list A) (idx : Z) (x : A) :
  (0 <= idx <= Z.of_nat (length l))%Z ->
  spliceInsert l idx x
  = (firstn (Z.to_nat idx) l ++ x :: skipn (Z.to_nat idx) l)%list.
Proof.
  intros Hidx. unfold spliceInsert.
  destruct (idx <? 0)%Z eqn:Hneg; [apply Z.ltb_lt in Hneg; lia |].
  rewrite Z.min_l by lia. reflexivity.
Qed.

Lemma nth_error_inserted {A : Type} (l : list A) (n : nat) (x : A) :
  n <= length l ->
  nth_error (firstn n l ++ x :: skipn n l) n = Some x.
Proof.
  intros Hn. rewrite nth_error_app2; rewrite length_firstn, Nat.min_l by lia.
  - rewrite Nat.sub_diag. reflexivity.
  - lia.
Qed.

(** When source and destination are the same stage id, the optimistic
    update is a plain [map]: the destination branch is never reached. *)
Lemma PatchedStage_same_stage o fin s idx dates (l l' : list Stage) :
  Forall2 (PatchedStage o fin s s idx dates) l l' ->
  l' = map (fun st =>
              if stage_id st =? s then
                withOpportunities st
                  (filter (fun opp => negb (id opp =? id o))
                          (opportunities st))
              else st) l.
Proof.
  induction 1 as [| st st' l l' Hst Hall IH]; [reflexivity |].
  simpl. rewrite <- IH. f_equal.
  unfold PatchedStage in Hst. destruct (stage_id st =? s); exact Hst.
Qed.

(** A trace splits in one way only around its single entry of the kind
    [f] reads. *)
Lemma split_sole {A : Type} (f : Event Resp -> option A)
  (a b pre post : list (Event Resp)) (x y : Event Resp) :
  a ++ x :: b = pre ++ y :: post ->
  f y <> None -> quiet f a -> quiet f b ->
  pre = a /\ y = x /\ post = b.
Proof.
  revert pre. induction a as [| a0 a IH]; intros pre Heq Hy Ha Hb.
  - destruct pre as [| p0 pre]; simpl in Heq.
    + inversion Heq; subst. auto.
    + inversion Heq; subst. exfalso. apply Hy. apply Hb.
      apply in_or_app. right. left. reflexivity.
  - destruct pre as [| p0 pre]; simpl in Heq.
    + inversion Heq; subst. exfalso. apply Hy. apply Ha. left. reflexivity.
    + inversion Heq; subst.
      destruct (IH pre H1 Hy) as (-> & -> & ->); auto.
      intros ev Hin. apply Ha. right. exact Hin.
Qed.

Lemma withFetched_Refetched (stages : list Stage)
  (lists : list (list Opportunity)) :
  length lists = length stages ->
  Refetched stages lists (withFetched stages lists).
Proof.
  intros Hlen. split; [exact Hlen |]. split.
  - unfold withFetched. rewrite length_map, length_combine. lia.
  - revert lists Hlen. induction stages as [| st stages IH];
      intros [| opps lists] Hlen i stage0 opps0 Hs Hl;
      try (destruct i; discriminate).
    destruct i as [| i]; cbn in Hs, Hl |- *.
    + injection Hs as <-. injection Hl as <-.
      eexists. split; [reflexivity |]. repeat split.
    + apply IH; [simpl in Hlen; lia | exact Hs | exact Hl].
Qed.

Lemma Refetched_opportunities (stages : list Stage)
  (lists : list (list Opportunity)) (l : list Stage) :
  Refetched stages lists l -> map opportunities l = lists.
Proof.
  intros (Hlists & Hl & Hat). revert lists l Hlists Hl Hat.
  induction stages as [| st stages IH];
    intros [| opps lists] [| st' l] Hlists Hl Hat; try discriminate.
  - reflexivity.
  - cbn [map]. f_equal.
    + destruct (Hat 0%nat st opps eq_refl eq_refl) as (st0 & Hst0 & Hopps & _).
      injection Hst0 as <-. exact Hopps.
    + apply IH; [simpl in *; lia | simpl in *; lia |].
      intros i stage0 opps0 Hs Ho. exact (Hat (S i) stage0 opps0 Hs Ho).
Qed.

Lemma values_refetched_resolved (stages : list Stage)
  (answers : list (Result (list Opportunity))) (l : list Stage) :
  length answers = length stages ->
  values (refetched stages answers) = Resolved l ->
  exists lists,
    length lists = length stages
    /\ answers = map Resolved lists
    /\ l = withFetched stages lists.
Proof.
  revert answers l. induction stages as [| st stages IH];
    intros [| a answers] l Hlen Hall; try discriminate.
  - inversion Hall; subst. exists []. auto.
  - unfold refetched in Hall. cbn in Hall.
    fold (refetched stages answers) in Hall.
    destruct a as [opps | reason]; [| discriminate].
    destruct (values (refetched stages answers)) as [l0 | reason] eqn:E;
      [| discriminate].
    inversion Hall; subst l.
    destruct (IH answers l0) as (lists & Hl & -> & ->);
      [simpl in Hlen; congruence | exact E |].
    exists (opps :: lists). simpl. auto.
Qed.

Lemma values_rejected_in {A : Type} (l : list (Result A)) (reason : string) :
  values l = Rejected reason -> In (Rejected reason) l.
Proof.
  induction l as [| [a | r] l IH]; cbn; intros Hv; try discriminate.
  - destruct (values l) as [xs | r]; [discriminate |].
    right. apply IH. exact Hv.
  - left. congruence.
Qed.

Lemma firstRejection_in {A : Type} (order : list nat) (l : list (Result A))
  (reason : string) :
  firstRejection order l = Some reason -> In (Rejected reason) l.
Proof.
  induction order as [| i order IH]; cbn; [discriminate |].
  destruct (nth_error l i) as [[a | r] |] eqn:Hi; auto.
  intros Hr. injection Hr as <-. exact (nth_error_In l i Hi).
Qed.

(** The reason [firstRejection] gives is that of the first position of the
    order that holds a rejected promise. *)
Lemma firstRejection_first {A : Type} (l : list (Result A))
  (pre : list nat) (i : nat) (post : list nat) (r : string) :
  nth_error l i = Some (Rejected r) ->
  (forall j r', In j pre -> nth_error l j <> Some (Rejected r')) ->
  firstRejection (pre ++ i :: post) l = Some r.
Proof.
  intros Hi. induction pre as [| j pre IH]; intros Hpre; cbn.
  - rewrite Hi. reflexivity.
  - destruct (nth_error l j) as [[a | r'] |] eqn:Hj.
    + apply IH. intros j' r' Hin. apply Hpre. right. exact Hin.
    + destruct (Hpre j r' (or_introl eq_refl) Hj).
    + apply IH. intros j' r' Hin. apply Hpre. right. exact Hin.
Qed.

Lemma promiseAll_resolved {A : Type} (order : list nat) (l : list (Result A))
  (xs : list A) :
  promiseAll order l = Resolved xs -> values l = Resolved xs.
Proof.
  unfold promiseAll. destruct (values l); [auto | discriminate].
Qed.

Lemma promiseAll_rejected_in {A : Type} (order : list nat)
  (l : list (Result A)) (reason : string) :
  promiseAll order l = Rejected reason -> In (Rejected reason) l.
Proof.
  unfold promiseAll. destruct (values l) as [xs | r] eqn:Hv; [discriminate |].
  destruct (firstRejection order l) as [r0 |] eqn:Hf; intros Heq;
    injection Heq as <-.
  - exact (firstRejection_in _ _ _ Hf).
  - exact (values_rejected_in _ _ Hv).
Qed.

Lemma promiseAll_first_rejected {A : Type} (l : list (Result A))
  (pre : list nat) (i : nat) (post : list nat) (reason r : string) :
  promiseAll (pre ++ i :: post) l = Rejected reason ->
  nth_error l i = Some (Rejected r) ->
  (forall j r', In j pre -> nth_error l j <> Some (Rejected r')) ->
  reason = r.
Proof.
  unfold promiseAll. intros Hall Hi Hpre.
  rewrite (firstRejection_first l pre i post r Hi Hpre) in Hall.
  destruct (values l); [discriminate | congruence].
Qed.

Lemma nth_error_refetched (stages : list Stage)
  (answers : list (Result (list Opportunity))) (i : nat) (r : string) :
  length answers = length stages ->
  nth_error answers i = Some (Rejected r) ->
  nth_error (refetched stages answers) i = Some (Rejected r).
Proof.
  revert answers i. induction stages as [| st stages IH];
    intros [| a answers] i Hlen Hi; try discriminate;
    try (destruct i; discriminate).
  destruct i as [| i]; cbn in *.
  - injection Hi as ->. reflexivity.
  - apply IH; [lia | exact Hi].
Qed.

Lemma refetched_not_rejected (stages : list Stage)
  (answers : list (Result (list Opportunity))) (i : nat) (r : string) :
  nth_error (refetched stages answers) i = Some (Rejected r) ->
  nth_error answers i = Some (Rejected r).
Proof.
  revert answers i. induction stages as [| st stages IH];
    intros [| a answers] i Hi; try (destruct i; discriminate).
  destruct i as [| i]; cbn in *.
  - destruct a; [discriminate | congruence].
  - apply IH. exact Hi.
Qed.

Lemma In_refetched_rejected (stages : list Stage)
  (answers : list (Result (list Opportunity))) (r : string) :
  In (Rejected r) (refetched stages answers) -> In (Rejected r) answers.
Proof.
  intros Hin. apply In_nth_error in Hin. destruct Hin as [i Hi].
  apply refetched_not_rejected in Hi. exact (nth_error_In _ _ Hi).
Qed.

Lemma fetchAnswers_app (t1 t2 : list (Event Resp)) :
  fetchAnswers (t1 ++ t2) = fetchAnswers t1 ++ fetchAnswers t2.
Proof. apply flat_map_app. Qed.

Lemma fetchAnswers_quiet (t : list (Event Resp)) :
  quiet fetchAnswerOf t -> fetchAnswers t = [].
Proof.
  induction t as [| ev t IH]; intros Hq; [reflexivity |].
  unfold fetchAnswers in *. cbn [flat_map].
  rewrite (Hq ev (or_introl eq_refl)), IH; [reflexivity |].
  intros ev' Hin. apply Hq. right. exact Hin.
Qed.

Lemma fetchAnswers_fetchEvents (stages : list Stage)
  (answers : list (Result (list Opportunity))) :
  length answers = length stages ->
  fetchAnswers (fetchEvents stages answers) = answers.
Proof.
  revert answers. induction stages as [| st stages IH];
    intros [| a answers] Hlen; try discriminate; [reflexivity |].
  unfold fetchAnswers, fetchEvents in *. cbn. f_equal.
  apply IH. simpl in Hlen. lia.
Qed.

Lemma effects_fetchEvents (stages : list Stage)
  (answers : list (Result (list Opportunity))) :
  length answers = length stages ->
  map (@ev_eff _ Resp) (fetchEvents stages answers)
  = map (fun st => ApiGetByStageId (stage_id st) false) stages.
Proof.
  revert answers. induction stages as [| st stages IH];
    intros [| a answers] Hlen; try discriminate; [reflexivity |].
  unfold fetchEvents in *. cbn. f_equal. apply IH. simpl in Hlen. lia.
Qed.





(** The fetches of a failed run are those of its revert. *)
Lemma fetchAnswers_failed (o : Opportunity) (dst : string)
  (upd : option OpportunityPatch) (error : string)
  (t0 : list (Event Resp)) (stages : list Stage)
  (answers : list (Result (list Opportunity)))
  (outcome : Result (list Stage)) :
  FailedTrace o dst upd error t0 ->
  length answers = length stages ->
  fetchAnswers
    (Did (R := Resp) (SetIsDragging true) tt
     :: t0 ++ revertTrace stages error answers outcome
     ++ [Did (R := Resp) (SetIsDragging false) tt])
  = answers.
Proof.
  intros Hf Hlen.
  change (Did (R := Resp) (SetIsDragging true) tt
          :: t0 ++ revertTrace stages error answers outcome
          ++ [Did (R := Resp) (SetIsDragging false) tt])
    with ([Did (R := Resp) (SetIsDragging true) tt]
          ++ t0 ++ revertTrace stages error answers outcome
          ++ [Did (R := Resp) (SetIsDragging false) tt]).
  unfold revertTrace. rewrite !fetchAnswers_app.
  rewrite (fetchAnswers_fetchEvents stages answers Hlen).
  rewrite (fetchAnswers_quiet [Did (R := Resp) (SetIsDragging true) tt])
    by quiet_tac.
  rewrite (fetchAnswers_quiet t0) by (destruct Hf as [-> | ->]; quiet_tac).
  rewrite (fetchAnswers_quiet (revertEnd _ _)) by quiet_tac.
  rewrite (fetchAnswers_quiet [Did (R := Resp) (SetIsDragging false) tt])
    by quiet_tac.
  cbn [app]. rewrite !app_nil_r. reflexivity.
Qed.

Section Properties.
Context {RS : Type} `{Services RS}.

(** C10.  For every successful commit of a move, every stage whose id is
    neither the source stage id nor the destination stage id is, at its
    position in the patched in-memory stage list, the very stage it was:
    its opportunity list and all its other fields are unchanged. *)
Theorem C10_other_stages_unchanged (stages : list Stage) (o : Opportunity)
  (src dst : string) (idx : Z) (upd : option OpportunityPatch)
  (w w' : World RS) (t : list (Event Resp)) (p : option Opportunity)
  (i : nat) (st : Stage) :
  runHook (completeOpportunityMove stages o src dst idx upd) w = (tt, w', t) ->
  In (persisted o dst upd (Resolved tt)) t ->
  In (processed o dst upd (Resolved p)) t ->
  nth_error stages i = Some st ->
  stage_id st <> src ->
  stage_id st <> dst ->
  nth_error (boardStages w') i = Some st.
Proof.
  intros Hrun Hpers Hproc Hi Hsrc Hdst.
  destruct (committed_run _ _ _ _ _ _ _ _ _ _ Hrun Hpers Hproc)
    as (rs' & dates & l & -> & _ & Hall).
  destruct (Forall2_nth_error_l _ _ _ Hall _ _ Hi) as (st' & Hi' & Hst).
  cbn. rewrite Hi'. f_equal.
  unfold PatchedStage in Hst.
  apply String.eqb_neq in Hsrc, Hdst. rewrite Hsrc, Hdst in Hst. exact Hst.
Qed.

(** C9.  When the source stage id equals the destination stage id, a
    successful commit filters the opportunity out of every stage with that
    id and inserts it nowhere: the patched list is the old one with that
    filter applied, no stage with that id holds the opportunity any more,
    and yet the success notification is emitted. *)
Theorem C9_same_stage_drops_opportunity (stages : list Stage)
  (o : Opportunity) (s : string) (idx : Z) (upd : option OpportunityPatch)
  (w w' : World RS) (t : list (Event Resp)) (p : option Opportunity) :
  runHook (completeOpportunityMove stages o s s idx upd) w = (tt, w', t) ->
  In (persisted o s upd (Resolved tt)) t ->
  In (processed o s upd (Resolved p)) t ->
  boardStages w'
  = map (fun st =>
           if stage_id st =? s then
             withOpportunities st
               (filter (fun opp => negb (id opp =? id o)) (opportunities st))
           else st) stages
  /\ (forall st' x,
        In st' (boardStages w') -> stage_id st' = s ->
        In x (opportunities st') -> id x <> id o)
  /\ In (Did (R := Resp) (ToastSuccess "Oportunidade movida com sucesso") tt) t.
Proof.
  intros Hrun Hpers Hproc.
  destruct (committed_run _ _ _ _ _ _ _ _ _ _ Hrun Hpers Hproc)
    as (rs' & dates & l & -> & -> & Hall).
  pose proof (PatchedStage_same_stage _ _ _ _ _ _ _ Hall) as Hl. cbn [boardStages withIsDragging withBoardStages].
  split; [exact Hl |]. split.
  - intros st' x Hin Hid Hx. rewrite Hl in Hin. apply in_map_iff in Hin.
    destruct Hin as (st & <- & _).
    destruct (stage_id st =? s) eqn:E.
    + cbn in Hx. apply filter_In in Hx. destruct Hx as [_ Hx].
      apply negb_true_iff in Hx. apply String.eqb_neq. exact Hx.
    + apply String.eqb_neq in E. contradiction.
  - unfold committedTrace. cbn. right. right. right.
    apply in_or_app. left. apply in_or_app. right. simpl. auto.
Qed.

(** C2, amended.  For every successful commit of a move between two
    different stage ids: every stage with the source id has the opportunity
    filtered out of its list; every stage with the destination id, when the
    requested index lies between 0 and the length of its list, has the moved
    record inserted at exactly that index; the record carries the
    destination stage id and, as last-stage-change timestamp, a date read
    off the clock after the processing step returned; and the success
    notification is emitted. *)
Theorem C2_commit_moves_opportunity (stages : list Stage) (o : Opportunity)
  (src dst : string) (idx : Z) (upd : option OpportunityPatch)
  (w w' : World RS) (t : list (Event Resp)) (p : option Opportunity) :
  runHook (completeOpportunityMove stages o src dst idx upd) w = (tt, w', t) ->
  In (persisted o dst upd (Resolved tt)) t ->
  In (processed o dst upd (Resolved p)) t ->
  src <> dst ->
  length (boardStages w') = length stages
  /\ (forall i st,
        nth_error stages i = Some st -> stage_id st = src ->
        nth_error (boardStages w') i
        = Some (withOpportunities st
                  (filter (fun opp => negb (id opp =? id o))
                          (opportunities st))))
  /\ (forall i st,
        nth_error stages i = Some st -> stage_id st = dst ->
        (0 <= idx <= Z.of_nat (length (opportunities st)))%Z ->
        exists d pre post,
          t = (pre ++ Did (R := Resp) NewDate d :: post)%list
          /\ In (processed o dst upd (Resolved p)) pre
          /\ let moved :=
               stamped (finalOpportunityOf p (opportunityToMoveOf o upd) dst)
                 dst d in
             nth_error (boardStages w') i
             = Some (withOpportunities st
                       (firstn (Z.to_nat idx) (opportunities st)
                        ++ moved :: skipn (Z.to_nat idx) (opportunities st)))
             /\ nth_error
                  (firstn (Z.to_nat idx) (opportunities st)
                   ++ moved :: skipn (Z.to_nat idx) (opportunities st))
                  (Z.to_nat idx) = Some moved
             /\ stageId moved = dst
             /\ lastStageChangeAt moved = Some d)
  /\ In (Did (R := Resp) (ToastSuccess "Oportunidade movida com sucesso") tt) t.
Proof.
  intros Hrun Hpers Hproc Hne.
  destruct (committed_run _ _ _ _ _ _ _ _ _ _ Hrun Hpers Hproc)
    as (rs' & dates & l & -> & -> & Hall).
  cbn [boardStages withIsDragging withBoardStages].
  split; [symmetry; exact (Forall2_length Hall) |]. split; [| split].
  - intros i st Hi Hid.
    destruct (Forall2_nth_error_l _ _ _ Hall _ _ Hi) as (st' & Hi' & Hst).
    unfold PatchedStage in Hst. apply String.eqb_eq in Hid.
    rewrite Hid in Hst. rewrite Hi', Hst. reflexivity.
  - intros i st Hi Hid Hidx.
    destruct (Forall2_nth_error_l _ _ _ Hall _ _ Hi) as (st' & Hi' & Hst).
    unfold PatchedStage in Hst.
    assert (Hs : (stage_id st =? src) = false).
    { apply String.eqb_neq. congruence. }
    apply String.eqb_eq in Hid. rewrite Hs, Hid in Hst.
    destruct Hst as (d & Hd & ->).
    apply in_split in Hd. destruct Hd as (d1 & d2 & ->).
    exists d,
      ([Did (R := Resp) (SetIsDragging true) tt;
        persisted o dst upd (Resolved tt);
        processed o dst upd (Resolved p)] ++ clockReads d1)%list,
      ((clockReads d2
        ++ [Did (R := Resp) (SetStages l) tt;
            Did (R := Resp) (ToastDismiss "moving-opportunity") tt;
            Did (R := Resp) (ToastSuccess "Oportunidade movida com sucesso")
              tt])
       ++ [Did (R := Resp) (SetIsDragging false) tt])%list.
    split; [| split].
    + unfold committedTrace, clockReads. rewrite map_app. cbn.
      rewrite <- !app_assoc. reflexivity.
    + cbn. right. right. left. reflexivity.
    + cbn zeta. rewrite Hi', spliceInsert_in_range by exact Hidx.
      split; [reflexivity |]. split; [| split; reflexivity].
      apply nth_error_inserted. lia.
  - unfold committedTrace. cbn. right. right. right.
    apply in_or_app. left. apply in_or_app. right. simpl. auto.
Qed.

(** No run of [completeOpportunityMove] opens a dialog. *)
Lemma complete_opens_no_dialog (stages : list Stage) (o : Opportunity)
  (src dst : string) (idx : Z) (upd : option OpportunityPatch)
  (w w' : World RS) (t : list (Event Resp)) :
  runHook (completeOpportunityMove stages o src dst idx upd) w = (tt, w', t) ->
  quiet dialogShownBy t
  /\ showRequiredFieldsDialog w' = showRequiredFieldsDialog w
  /\ currentDragOperation w' = currentDragOperation w.
Proof.
  intros Hrun.
  destruct (DragFacts.run_completeOpportunityMove stages o src dst idx upd w)
    as (rs' & [(p0 & dates & l & Hr & Hall)
              | (error & t0 & answers & Hf & Hlen & Hr)]);
    rewrite Hr in Hrun; inversion Hrun; subst w' t; clear Hrun.
  - split; [| split; reflexivity].
    unfold committedTrace. quiet_tac; destruct upd; reflexivity.
  - split.
    + unfold revertTrace.
      destruct Hf as [-> | ->]; quiet_tac; destruct upd; reflexivity.
    + destruct (promiseAll (settleOrder rs') (refetched stages answers));
        split; reflexivity.
Qed.

(** C6.  When the source or the destination stage id matches no stage of
    the list the hook holds, or the opportunity id is not in the source
    stage's list, [handleOpportunityDrag] does two things only: it logs the
    lookup failure and raises an error toast.  No remote call is made and
    the state is the one it started from. *)
Theorem C6_lookup_failure_aborts (stages : list Stage)
  (draggableId sourceDroppableId destinationDroppableId : string)
  (destinationIndex : Z) (w : World RS) :
  findStage stages sourceDroppableId = None
  \/ findStage stages destinationDroppableId = None
  \/ (exists sourceStage,
        findStage stages sourceDroppableId = Some sourceStage
        /\ findOpportunity sourceStage draggableId = None) ->
  exists args message,
    runHook (handleOpportunityDrag stages draggableId sourceDroppableId
               destinationDroppableId destinationIndex) w
    = (tt, w, [Did (R := Resp) (ConsoleError args) tt;
               Did (R := Resp) (ToastError message) tt])
    /\ (message = "Erro ao mover oportunidade"
        \/ message = "Oportunidade não encontrada").
Proof.
  intros Hfail. unfold runHook, handleOpportunityDrag. cbn zeta.
  destruct (findStage stages sourceDroppableId) as [sourceStage |] eqn:Hs.
  - destruct (findStage stages destinationDroppableId)
      as [destinationStage |] eqn:Hd.
    + destruct Hfail as [Hf | [Hf | (s0 & Hs0 & Hf)]]; try discriminate.
      inversion Hs0; subst s0. rewrite Hf. cbn.
      eexists. eexists. split; [reflexivity | right; reflexivity].
    + cbn. eexists. eexists. split; [reflexivity | left; reflexivity].
  - cbn. eexists. eexists. split; [reflexivity | left; reflexivity].
Qed.

(** C1.  Once the lookups succeed, the routing of a drag is decided by the
    verdict [op] the drag operation builder returns.  With no missing
    field, no missing task and no reason required, the hook goes on into
    [completeOpportunityMove] (without update) and no dialog is opened.
    With a reason required and nothing else missing, the reason prompt is
    shown.  With a missing required field, the full required-fields dialog
    is shown, never the reason prompt.  In the last two cases nothing else
    happens: the operation is parked and no remote call is made. *)
Theorem C1_dialog_routing (stages : list Stage)
  (draggableId sourceDroppableId destinationDroppableId : string)
  (destinationIndex : Z) (w : World RS) (sourceStage destinationStage : Stage)
  (opportunity : Opportunity) (op : DragOperation) (rs1 : RS) :
  findStage stages sourceDroppableId = Some sourceStage ->
  findStage stages destinationDroppableId = Some destinationStage ->
  findOpportunity sourceStage draggableId = Some opportunity ->
  createDragOperation opportunity sourceDroppableId destinationStage
    destinationIndex (services w) = (op, rs1) ->
  let opening :=
    [Did (R := Resp)
       (ToastLoading "Movendo oportunidade..." "moving-opportunity") tt;
     Did (R := Resp)
       (CreateDragOperation opportunity sourceDroppableId destinationStage
          destinationIndex) op] in
  let parked (flag : ShowFlag) :=
    (tt, withShowDialog (withDragOperation (withServices w rs1) op) flag,
     opening
     ++ [Did (R := Resp) (ToastDismiss "moving-opportunity") tt;
         Did (R := Resp) (SetCurrentDragOperation op) tt;
         Did (R := Resp) (SetShowRequiredFieldsDialog flag) tt]) in
  let result :=
    runHook (handleOpportunityDrag stages draggableId sourceDroppableId
               destinationDroppableId destinationIndex) w in
  (missingRequiredFields op = [] -> missingRequiredTasks op = [] ->
   requiresReason op = false ->
   exists w' t,
     runHook (completeOpportunityMove stages opportunity sourceDroppableId
                destinationDroppableId destinationIndex None)
       (withServices w rs1) = (tt, w', t)
     /\ result = (tt, w', opening ++ t)
     /\ quiet dialogShownBy (opening ++ t)
     /\ showRequiredFieldsDialog w' = showRequiredFieldsDialog w
     /\ currentDragOperation w' = currentDragOperation w)
  /\ (missingRequiredFields op = [] -> missingRequiredTasks op = [] ->
      requiresReason op = true ->
      result = parked (ShowString "reason"))
  /\ (missingRequiredFields op <> [] ->
      result = parked (ShowBool true)).
Proof.
  intros Hs Hd Ho Hop opening parked result.
  subst result parked opening.
  unfold runHook, handleOpportunityDrag. cbn zeta. rewrite Hs, Hd, Ho.
  cbn [bind call run perform answer]. rewrite Hop. cbn [fst snd].
  unfold hasRequirements, requiresOnlyReasons.
  split; [| split].
  - intros Hf Ht Hr. rewrite Hf, Ht, Hr. cbn [isEmpty negb orb].
    destruct (run perform
                (completeOpportunityMove stages opportunity sourceDroppableId
                   destinationDroppableId destinationIndex None)
                (withServices w rs1)) as [[[] w'] t] eqn:Hrun.
    exists w', t. split; [reflexivity |]. split; [reflexivity |].
    destruct (complete_opens_no_dialog _ _ _ _ _ _ _ _ _ Hrun) as (Hq & Hsh & Hcur).
    split; [| split; assumption]. cbn [app]. quiet_tac. exact Hq.
  - intros Hf Ht Hr. rewrite Hf, Ht, Hr. reflexivity.
  - intros Hf. destruct (missingRequiredFields op) as [| f fs];
      [contradiction |].
    cbn [isEmpty negb orb andb]. rewrite andb_false_r. reflexivity.
Qed.

(** C7, amended.  [isDragging] is raised when [completeOpportunityMove]
    starts and lowered when it ends, and nothing reads it.  Started in any
    world, whatever the flag says there, [completeOpportunityMove] raises
    the flag and parks at its own persist call, the request pending; run to
    its end, it leaves the flag lowered, its last act.  In any world
    likewise, [handleOpportunityDrag] parks at the call that builds the drag
    operation and, when the operation has no requirement, goes on from
    there to the persist call of its commit. *)
Theorem C7_flag_marks_but_does_not_guard (stages : list Stage)
  (o : Opportunity) (src dst : string) (idx : Z)
  (upd : option OpportunityPatch) (w : World RS) :
  (exists k,
      startHook (completeOpportunityMove stages o src dst idx upd) w
      = (Suspended (persistCall o dst upd) k, withIsDragging w true,
         [Did (R := Resp) (SetIsDragging true) tt]))
  /\ (exists w' t,
        runHook (completeOpportunityMove stages o src dst idx upd) w
        = (tt, w', t ++ [Did (R := Resp) (SetIsDragging false) tt])
        /\ isDragging w' = false)
  /\ (forall sourceStage destinationStage op rs1,
        findStage stages src = Some sourceStage ->
        findStage stages dst = Some destinationStage ->
        findOpportunity sourceStage (id o) = Some o ->
        createDragOperation o src destinationStage idx (services w)
        = (op, rs1) ->
        hasRequirements op = false ->
        exists k1 k2,
          startHook (handleOpportunityDrag stages (id o) src dst idx) w
          = (Suspended (CreateDragOperation o src destinationStage idx) k1,
             w,
             [Did (R := Resp)
                (ToastLoading "Movendo oportunidade..." "moving-opportunity")
                tt])
          /\ resumeHook
               (Suspended (CreateDragOperation o src destinationStage idx) k1)
               w
             = (Suspended (ApiMove (id o) dst) k2,
                withIsDragging (withServices w rs1) true,
                [Did (R := Resp)
                   (CreateDragOperation o src destinationStage idx) op;
                 Did (R := Resp) (SetIsDragging true) tt])).
Proof.
  split; [| split].
  - unfold startHook, completeOpportunityMove, tryMove, persist, persistCall.
    destruct upd as [u |]; cbn; eexists; reflexivity.
  - destruct (DragFacts.run_completeOpportunityMove stages o src dst idx upd w)
      as (rs' & [(p0 & dates & l & Hr & Hall)
                | (error & t0 & answers & Hf & Hlen & Hr)]);
      rewrite Hr.
    + eexists. exists (Did (R := Resp) (SetIsDragging true) tt
                       :: committedTrace o dst upd p0 dates l).
      split; reflexivity.
    + eexists. exists (Did (R := Resp) (SetIsDragging true) tt
                       :: t0 ++ revertTrace stages error answers
                                  (promiseAll (settleOrder rs') (refetched stages answers))).
      split.
      * cbn [app]. rewrite <- app_assoc. reflexivity.
      * reflexivity.
  - intros sourceStage destinationStage op rs1 Hs Hd Ho Hop Hreq.
    unfold startHook, resumeHook, handleOpportunityDrag. cbn zeta.
    rewrite Hs, Hd, Ho. cbn [bind call start awaits perform].
    eexists. eexists. split; [reflexivity |].
    cbn [resume perform answer]. rewrite Hop. cbn [fst snd]. rewrite Hreq.
    cbn. reflexivity.
Qed.


(** C5.  When the persist call or the processing of the stage requirements
    is rejected, the hook logs the error, raises the failure toast and
    fetches the opportunities of every stage, one [getByStageId(id, false)]
    per stage in the order of the stages; nothing was fetched and no stage
    list was set before.  When every fetch resolves, the local state is
    replaced: every stage holds the list fetched for it and is what it was
    in everything else.  When one is rejected, the reason of the fetch that
    was rejected first, in the order in which the answers came in, is
    logged, and the run ends there with the local stage list as it was. *)
Theorem C5_failed_commit_reverts (stages : list Stage) (o : Opportunity)
  (src dst : string) (idx : Z) (upd : option OpportunityPatch)
  (w w' : World RS) (t : list (Event Resp)) (error : string) :
  runHook (completeOpportunityMove stages o src dst idx upd) w = (tt, w', t) ->
  RemoteRejection o dst upd error t ->
  let answers := fetchAnswers t in
  let promises := refetched stages answers in
  let outcome := promiseAll (settleOrder (services w')) promises in
  length answers = length stages
  /\ map (@ev_eff _ Resp) (fetchEvents stages answers)
     = map (fun st => ApiGetByStageId (stage_id st) false) stages
  /\ (exists steps,
         FailedTrace o dst upd error steps
         /\ t = Did (R := Resp) (SetIsDragging true) tt
                :: steps
                ++ [Did (R := Resp)
                      (ConsoleError ["Error moving opportunity:"; error]) tt;
                    Did (R := Resp) (ToastDismiss "moving-opportunity") tt;
                    Did (R := Resp) (ToastError "Erro ao mover oportunidade")
                      tt]
                ++ fetchEvents stages answers
                ++ Did (R := Resp) (PromiseAll promises) outcome
                :: match outcome with
                   | Resolved originalStages =>
                       Did (R := Resp) (SetStages originalStages) tt
                   | Rejected revertError =>
                       Did (R := Resp)
                         (ConsoleError
                            ["Error reverting stage state:"; revertError]) tt
                   end
                :: [Did (R := Resp) (SetIsDragging false) tt])
  /\ match outcome with
     | Resolved originalStages =>
         boardStages w' = originalStages
         /\ exists lists,
             answers = map Resolved lists
             /\ Refetched stages lists originalStages
     | Rejected revertError =>
         boardStages w' = boardStages w
         /\ In (Rejected revertError) answers
         /\ forall pre i post r,
              settleOrder (services w') = pre ++ i :: post ->
              nth_error answers i = Some (Rejected r) ->
              (forall j r', In j pre ->
                            nth_error answers j <> Some (Rejected r')) ->
              revertError = r
     end.
Proof.
  intros Hrun Hrej.
  destruct (failed_run _ _ _ _ _ _ _ _ _ _ Hrun Hrej)
    as (rs' & t0 & answers & Hf & Hlen & -> & ->).
  cbn zeta. rewrite (fetchAnswers_failed _ _ _ _ _ _ _ _ Hf Hlen).
  assert (Hrs : services
                  (withIsDragging
                     match
                       promiseAll (settleOrder rs')
                         (refetched stages answers)
                     with
                     | Resolved l => withBoardStages (withServices w rs') l
                     | Rejected _ => withServices w rs'
                     end false) = rs').
  { destruct (promiseAll (settleOrder rs') (refetched stages answers));
      reflexivity. }
  rewrite Hrs.
  split; [exact Hlen |]. split; [apply effects_fetchEvents; exact Hlen |].
  split.
  - exists t0. split; [exact Hf |].
    unfold revertTrace, revertEnd.
    destruct (promiseAll (settleOrder rs') (refetched stages answers));
      rewrite <- ?app_assoc; reflexivity.
  - destruct (promiseAll (settleOrder rs') (refetched stages answers))
      as [l | revertError] eqn:E.
    + split; [reflexivity |].
      apply promiseAll_resolved in E.
      destruct (values_refetched_resolved _ _ _ Hlen E)
        as (lists & Hll & -> & ->).
      exists lists. split; [reflexivity |].
      apply withFetched_Refetched. exact Hll.
    + split; [reflexivity |]. split.
      * apply (In_refetched_rejected stages).
        exact (promiseAll_rejected_in _ _ _ E).
      * intros pre i post r Horder Hi Hpre. rewrite Horder in E.
        apply (promiseAll_first_rejected _ _ _ _ _ _ E).
        -- apply nth_error_refetched; assumption.
        -- intros j r' Hin Hj. apply (Hpre j r' Hin).
           apply (refetched_not_rejected stages). exact Hj.
Qed.

(** C3.  In every run of [completeOpportunityMove], a write to the local
    stage list comes after the answer to the persist call, and it is one of
    two writes.  Either the persist call and the processing of the stage
    requirements both resolved before it: the optimistic patch.  Or one of
    them was rejected and the failure toast raised before it, and what is
    written is the stages with the opportunity lists the store has just
    answered.  So after a rejected remote step the local stage list is
    left as it was or holds, stage by stage, what the store answered: an
    opportunity it shows was shown before or is in an answer of the
    store. *)
Theorem C3_patch_only_after_remote_success (stages : list Stage)
  (o : Opportunity) (src dst : string) (idx : Z)
  (upd : option OpportunityPatch) (w w' : World RS)
  (t : list (Event Resp)) :
  runHook (completeOpportunityMove stages o src dst idx upd) w = (tt, w', t) ->
  (forall pre l post,
      t = pre ++ Did (R := Resp) (SetStages l) tt :: post ->
      AfterRemoteSuccess o dst upd pre
      \/ ((exists error, RemoteRejection o dst upd error pre)
          /\ In (Did (R := Resp) (ToastError "Erro ao mover oportunidade") tt)
               pre
          /\ FetchedFromStore stages pre l))
  /\ (forall error,
        RemoteRejection o dst upd error t ->
        (boardStages w' = boardStages w
         \/ FetchedFromStore stages t (boardStages w'))
        /\ forall st' shown,
             In st' (boardStages w') -> In shown (opportunities st') ->
             (exists st, In st (boardStages w) /\ In shown (opportunities st))
             \/ (exists opps, In (Resolved opps) (fetchAnswers t)
                              /\ In shown opps)).
Proof.
  intros Hrun. split.
  - destruct (DragFacts.run_completeOpportunityMove stages o src dst idx upd w)
      as (rs' & [(p0 & dates & l0 & Hr & Hall)
                | (error & t0 & answers & Hf & Hlen & Hr)]);
      rewrite Hr in Hrun; inversion Hrun; subst w' t; clear Hrun;
      intros pre l post Hsplit.
    + left.
      destruct (split_sole stagesSetBy
                  (Did (R := Resp) (SetIsDragging true) tt
                   :: persisted o dst upd (Resolved tt)
                   :: processed o dst upd (Resolved p0)
                   :: clockReads dates)
                  [Did (R := Resp) (ToastDismiss "moving-opportunity") tt;
                   Did (R := Resp)
                     (ToastSuccess "Oportunidade movida com sucesso") tt;
                   Did (R := Resp) (SetIsDragging false) tt]
                  pre post (Did (R := Resp) (SetStages l0) tt)
                  (Did (R := Resp) (SetStages l) tt)) as (-> & _ & _).
      * rewrite <- Hsplit. unfold committedTrace. cbn [app].
        rewrite <- !app_assoc. reflexivity.
      * discriminate.
      * quiet_tac.
      * quiet_tac.
      * split; [right; left; reflexivity |].
        exists p0. right. right. left. reflexivity.
    + right. unfold revertTrace, revertEnd in Hsplit.
      destruct (promiseAll (settleOrder rs') (refetched stages answers))
        as [l0 | e'] eqn:E.
      * apply promiseAll_resolved in E.
        destruct (values_refetched_resolved _ _ _ Hlen E)
          as (lists & Hll & -> & ->).
        destruct (split_sole stagesSetBy
                    ((Did (R := Resp) (SetIsDragging true) tt :: t0
                      ++ [Did (R := Resp)
                            (ConsoleError
                               ["Error moving opportunity:"; error]) tt;
                          Did (R := Resp)
                            (ToastDismiss "moving-opportunity") tt;
                          Did (R := Resp)
                            (ToastError "Erro ao mover oportunidade") tt])
                     ++ fetchEvents stages (map Resolved lists)
                     ++ [Did (R := Resp)
                           (PromiseAll
                              (refetched stages (map Resolved lists)))
                           (Resolved (withFetched stages lists))])
                    [Did (R := Resp) (SetIsDragging false) tt]
                    pre post
                    (Did (R := Resp) (SetStages (withFetched stages lists))
                       tt)
                    (Did (R := Resp) (SetStages l) tt)) as (-> & Hy & _).
        -- rewrite <- Hsplit. cbn [app].
           rewrite <- !app_assoc. reflexivity.
        -- discriminate.
        -- destruct Hf as [-> | ->]; quiet_tac.
        -- quiet_tac.
        -- split; [| split].
           ++ exists error. destruct Hf as [-> | ->].
              ** left. right. left. reflexivity.
              ** right. right. right. left. reflexivity.
           ++ apply in_or_app. left. right. apply in_or_app. right.
              right. right. left. reflexivity.
           ++ exists lists. split.
              ** change (Did (R := Resp) (SetIsDragging true) tt
                         :: t0 ++ ?x)
                   with ([Did (R := Resp) (SetIsDragging true) tt]
                         ++ t0 ++ x).
                 rewrite !fetchAnswers_app.
                 rewrite fetchAnswers_fetchEvents
                   by (rewrite length_map; exact Hll).
                 rewrite (fetchAnswers_quiet t0)
                   by (destruct Hf as [-> | ->]; quiet_tac).
                 cbn. rewrite app_nil_r. reflexivity.
              ** apply (f_equal stagesSetBy) in Hy. cbn in Hy.
                 injection Hy as ->.
                 apply withFetched_Refetched. exact Hll.
      * exfalso.
        assert (Hin : In (Did (R := Resp) (SetStages l) tt)
                        (pre ++ Did (R := Resp) (SetStages l) tt :: post)).
        { apply in_or_app. right. left. reflexivity. }
        rewrite <- Hsplit in Hin.
        apply (no_answer stagesSetBy _ _ l Hin); [| reflexivity].
        destruct Hf as [-> | ->]; quiet_tac.
  - intros error Hrej.
    destruct (failed_run _ _ _ _ _ _ _ _ _ _ Hrun Hrej)
      as (rs' & t0 & answers & Hf & Hlen & -> & ->).
    rewrite (fetchAnswers_failed _ _ _ _ _ _ _ _ Hf Hlen).
    destruct (promiseAll (settleOrder rs') (refetched stages answers))
      as [l0 | e'] eqn:E.
    + apply promiseAll_resolved in E.
      destruct (values_refetched_resolved _ _ _ Hlen E)
        as (lists & Hll & -> & ->).
      pose proof (withFetched_Refetched stages lists Hll) as Hre.
      split.
      * right. exists lists.
        split; [exact (fetchAnswers_failed _ _ _ _ _ _ _ _ Hf Hlen)
               | exact Hre].
      * intros st' shown Hst' Hshown. right. cbn [boardStages withIsDragging
          withBoardStages] in Hst'.
        apply In_nth_error in Hst'. destruct Hst' as [i Hi].
        destruct Hre as (_ & Hl & Hat).
        assert (Hlt : (i < length stages)%nat).
        { rewrite <- Hl. apply nth_error_Some. congruence. }
        destruct (nth_error stages i) as [st |] eqn:Hs;
          [| apply nth_error_None in Hs; lia].
        destruct (nth_error lists i) as [opps |] eqn:Ho;
          [| apply nth_error_None in Ho; lia].
        destruct (Hat i st opps Hs Ho) as (st0 & Hst0 & Hopps & _).
        rewrite Hi in Hst0. injection Hst0 as <-.
        exists opps. split.
        -- apply in_map. exact (nth_error_In _ _ Ho).
        -- rewrite <- Hopps. exact Hshown.
    + split; [left; reflexivity |].
      intros st' shown Hst' Hshown. left. exists st'. split; assumption.
Qed.

End Properties.

Import Scripted.

Ltac in_trace := cbv; repeat (first [left; reflexivity | right]).

(** On the sample board, [o1] goes from [A] to [B] and [C] stays as it
    was. *)
Lemma C10_witness :
  nth_error (boardStages (snd (fst (commit "A" "B" 0 allGood)))) 2
  = Some (stage "C" 2 []).
Proof.
  apply (C10_other_stages_unchanged board o1 "A" "B" 0 None (world allGood)
           (snd (fst (commit "A" "B" 0 allGood)))
           (snd (commit "A" "B" 0 allGood)) None).
  - reflexivity.
  - in_trace.
  - in_trace.
  - reflexivity.
  - cbn. discriminate.
  - cbn. discriminate.
Defined.

(** On the sample board, [o1] dropped onto its own stage [A] is gone. *)
Lemma C9_witness :
  map (fun st => map id (opportunities st))
    (boardStages (snd (fst (commit "A" "A" 0 allGood))))
  = [["o2"]; ["o3"]; []].
Proof.
  destruct (C9_same_stage_drops_opportunity board o1 "A" 0 None
              (world allGood)
              (snd (fst (commit "A" "A" 0 allGood)))
              (snd (commit "A" "A" 0 allGood)) None) as (Hmap & _).
  - reflexivity.
  - in_trace.
  - in_trace.
  - rewrite Hmap. reflexivity.
Defined.

(** On the sample board, [o1] goes from [A] to index 1 of [B]. *)
Lemma C2_witness :
  In (Did (R := Resp) (ToastSuccess "Oportunidade movida com sucesso") tt)
    (snd (commit "A" "B" 1 allGood))
  /\ nth_error (boardStages (snd (fst (commit "A" "B" 1 allGood)))) 0
     = Some (stage "A" 0 [o2])
  /\ exists d,
      nth_error (boardStages (snd (fst (commit "A" "B" 1 allGood)))) 1
      = Some (stage "B" 1 [o3; stamped o1 "B" d]).
Proof.
  destruct (C2_commit_moves_opportunity board o1 "A" "B" 1 None
              (world allGood)
              (snd (fst (commit "A" "B" 1 allGood)))
              (snd (commit "A" "B" 1 allGood)) None)
    as (_ & Hsrc & Hdst & Htoast).
  - reflexivity.
  - in_trace.
  - in_trace.
  - discriminate.
  - split; [exact Htoast |]. split.
    + exact (Hsrc 0%nat (stage "A" 0 [o1; o2]) eq_refl eq_refl).
    + destruct (Hdst 1%nat (stage "B" 1 [o3]) eq_refl eq_refl)
        as (d & pre & post & _ & _ & Hat & _); [cbn; lia |].
      exists d. exact Hat.
Defined.

(** On the sample board, with a first commit in flight and the flag
    raised, both entry points go on to a persist call of their own. *)
Lemma C7_witness :
  let inFlight :=
    snd (fst (startHook (completeOpportunityMove board o1 "A" "B" 0 None)
                (world allGood))) in
  isDragging inFlight = true
  /\ (exists k,
        startHook (completeOpportunityMove board o1 "A" "C" 0 None) inFlight
        = (Suspended (ApiMove "o1" "C") k, inFlight,
           [Did (R := Resp) (SetIsDragging true) tt]))
  /\ exists k1,
      startHook (handleOpportunityDrag board "o1" "A" "C" 0) inFlight
      = (Suspended (CreateDragOperation o1 "A" (stage "C" 2 []) 0) k1,
         inFlight,
         [Did (R := Resp)
            (ToastLoading "Movendo oportunidade..." "moving-opportunity") tt])
      /\ pending
           (fst (fst (resumeHook
                        (Suspended
                           (CreateDragOperation o1 "A" (stage "C" 2 []) 0) k1)
                        inFlight)))
         = Some (ApiMove "o1" "C").
Proof.
  cbn zeta.
  destruct (C7_flag_marks_but_does_not_guard board o1 "A" "C" 0 None
              (snd (fst (startHook
                           (completeOpportunityMove board o1 "A" "B" 0 None)
                           (world allGood)))))
    as (Hstart & _ & Hdrag).
  split; [reflexivity |]. split; [exact Hstart |].
  destruct (Hdrag (stage "A" 0 [o1; o2]) (stage "C" 2 [])
              (fst (createDragOperation o1 "A" (stage "C" 2 []) 0 allGood))
              allGood)
    as (k1 & k2 & Hs & Hr); [reflexivity .. |].
  exists k1. split; [exact Hs |]. rewrite Hr. reflexivity.
Defined.

(** On the sample board: a source stage that does not exist, and a card
    that is not in the source stage. *)
Lemma C6_witness :
  (exists args message,
      drag "Z" "B" 0 allGood
      = (tt, world allGood,
         [Did (R := Resp) (ConsoleError args) tt;
          Did (R := Resp) (ToastError message) tt])
      /\ (message = "Erro ao mover oportunidade"
          \/ message = "Oportunidade não encontrada"))
  /\ (exists args message,
        runHook (handleOpportunityDrag board "o3" "A" "B" 0) (world allGood)
        = (tt, world allGood,
           [Did (R := Resp) (ConsoleError args) tt;
            Did (R := Resp) (ToastError message) tt])
        /\ (message = "Erro ao mover oportunidade"
            \/ message = "Oportunidade não encontrada")).
Proof.
  split.
  - apply (C6_lookup_failure_aborts board "o1" "Z" "B" 0 (world allGood)).
    left. reflexivity.
  - apply (C6_lookup_failure_aborts board "o3" "A" "B" 0 (world allGood)).
    right. right. exists (stage "A" 0 [o1; o2]). split; reflexivity.
Defined.

(** The routing on the sample board, under the three verdicts. *)
Lemma C1_witness :
  quiet dialogShownBy (snd (drag "A" "B" 0 allGood))
  /\ showRequiredFieldsDialog (snd (fst (drag "A" "B" 0 reasonOnly)))
     = ShowString "reason"
  /\ showRequiredFieldsDialog (snd (fst (drag "A" "B" 0 budgetMissing)))
     = ShowBool true.
Proof.
  split; [| split].
  - destruct (C1_dialog_routing board "o1" "A" "B" 0 (world allGood)
                (stage "A" 0 [o1; o2]) (stage "B" 1 [o3]) o1
                (fst (createDragOperation o1 "A" (stage "B" 1 [o3]) 0 allGood))
                (snd (createDragOperation o1 "A" (stage "B" 1 [o3]) 0 allGood)))
      as (Hdirect & _ & _); [reflexivity .. |].
    destruct Hdirect as (w' & t & _ & Hrun & Hquiet & _); [reflexivity .. |].
    unfold drag. rewrite Hrun. exact Hquiet.
  - destruct (C1_dialog_routing board "o1" "A" "B" 0 (world reasonOnly)
                (stage "A" 0 [o1; o2]) (stage "B" 1 [o3]) o1
                (fst (createDragOperation o1 "A" (stage "B" 1 [o3]) 0
                        reasonOnly))
                (snd (createDragOperation o1 "A" (stage "B" 1 [o3]) 0
                        reasonOnly)))
      as (_ & Hreason & _); [reflexivity .. |].
    unfold drag. rewrite Hreason; reflexivity.
  - destruct (C1_dialog_routing board "o1" "A" "B" 0 (world budgetMissing)
                (stage "A" 0 [o1; o2]) (stage "B" 1 [o3]) o1
                (fst (createDragOperation o1 "A" (stage "B" 1 [o3]) 0
                        budgetMissing))
                (snd (createDragOperation o1 "A" (stage "B" 1 [o3]) 0
                        budgetMissing)))
      as (_ & _ & Hfull); [reflexivity .. |].
    unfold drag. rewrite Hfull; [reflexivity | discriminate].
Defined.


(** On the sample board, the store rejects the move.  When it then answers
    every fetch, with [o1] in [B], the board shows what it answered.  When
    it answers neither the fetch of [A] nor that of [B], and the answer for
    [B] comes in first, it is the reason given for [B] that is logged. *)
Lemma C5_witness :
  map (fun st => map id (opportunities st))
    (boardStages (snd (fst (commit "A" "B" 0 rejectedButMoved))))
  = [["o2"]; ["o1"; "o3"]; []]
  /\ In (Did (R := Resp)
           (ConsoleError ["Error reverting stage state:"; "errB"]) tt)
       (snd (commit "A" "B" 0 storeLost))
  /\ boardStages (snd (fst (commit "A" "B" 0 storeLost))) = board.
Proof.
  split.
  - destruct (C5_failed_commit_reverts board o1 "A" "B" 0 None
                (world rejectedButMoved)
                (snd (fst (commit "A" "B" 0 rejectedButMoved)))
                (snd (commit "A" "B" 0 rejectedButMoved)) "boom")
      as (_ & _ & _ & Hout).
    + reflexivity.
    + left. in_trace.
    + remember (promiseAll
                  (settleOrder
                     (services (snd (fst (commit "A" "B" 0 rejectedButMoved)))))
                  (refetched board
                     (fetchAnswers (snd (commit "A" "B" 0 rejectedButMoved)))))
        as outcome eqn:Houtcome.
      vm_compute in Houtcome. subst outcome.
      destruct Hout as (Hboard & lists & Hanswers & Hre).
      rewrite Hboard. apply Refetched_opportunities in Hre.
      destruct lists as [| l1 [| l2 [| l3 [| l4 lists]]]];
        vm_compute in Hanswers; try discriminate.
      injection Hanswers as <- <- <-.
      rewrite <- (map_map opportunities (map id)), Hre. reflexivity.
  - destruct (C5_failed_commit_reverts board o1 "A" "B" 0 None
                (world storeLost)
                (snd (fst (commit "A" "B" 0 storeLost)))
                (snd (commit "A" "B" 0 storeLost)) "boom")
      as (_ & _ & (steps & _ & Ht) & Hout).
    + reflexivity.
    + left. in_trace.
    + remember (promiseAll
                  (settleOrder
                     (services (snd (fst (commit "A" "B" 0 storeLost)))))
                  (refetched board
                     (fetchAnswers (snd (commit "A" "B" 0 storeLost)))))
        as outcome eqn:Houtcome.
      destruct outcome as [l | revertError]; [vm_compute in Houtcome;
                                              discriminate |].
      destruct Hout as (Hboard & _ & Hfirst).
      assert (HB : revertError = "errB").
      { apply (Hfirst [] 1%nat [2; 0]%nat "errB").
        - reflexivity.
        - reflexivity.
        - intros j r' []. }
      subst revertError. split; [| exact Hboard].
      rewrite Ht. right. apply in_or_app. right. apply in_or_app. right.
      apply in_or_app. right. right. left. reflexivity.
Defined.

(** On the sample board: the write of a committed move, and the board
    after a rejected one that the store answers with [o1] in [B]. *)
Lemma C3_witness :
  (forall pre l post,
      snd (commit "A" "B" 0 allGood)
      = pre ++ Did (R := Resp) (SetStages l) tt :: post ->
      AfterRemoteSuccess o1 "B" None pre
      \/ ((exists error, RemoteRejection o1 "B" None error pre)
          /\ In (Did (R := Resp) (ToastError "Erro ao mover oportunidade") tt)
               pre
          /\ FetchedFromStore board pre l))
  /\ (boardStages (snd (fst (commit "A" "B" 0 rejectedButMoved)))
      = boardStages (world rejectedButMoved)
      \/ FetchedFromStore board (snd (commit "A" "B" 0 rejectedButMoved))
           (boardStages (snd (fst (commit "A" "B" 0 rejectedButMoved)))))
  /\ forall st' shown,
       In st' (boardStages (snd (fst (commit "A" "B" 0 rejectedButMoved)))) ->
       In shown (opportunities st') ->
       (exists st, In st board /\ In shown (opportunities st))
       \/ (exists opps,
              In (Resolved opps)
                (fetchAnswers (snd (commit "A" "B" 0 rejectedButMoved)))
              /\ In shown opps).
Proof.
  split.
  - destruct (C3_patch_only_after_remote_success board o1 "A" "B" 0 None
                (world allGood)
                (snd (fst (commit "A" "B" 0 allGood)))
                (snd (commit "A" "B" 0 allGood))) as (Hwrite & _);
      [reflexivity | exact Hwrite].
  - destruct (C3_patch_only_after_remote_success board o1 "A" "B" 0 None
                (world rejectedButMoved)
                (snd (fst (commit "A" "B" 0 rejectedButMoved)))
                (snd (commit "A" "B" 0 rejectedButMoved))) as (_ & Hrej);
      [reflexivity |].
    apply (Hrej "boom"). left. in_trace.
Defined.

(** The flag does not keep a second commit from starting.  A first commit
    of [o1] is parked at its persist call, the flag raised.  Called in that
    state, [completeOpportunityMove] for the same card parks at a persist
    call of its own, and so does [handleOpportunityDrag] once its drag
    operation is built: two moves of one card are in flight. *)
Lemma C7_counterexample :
  let run1 := startHook (completeOpportunityMove board o1 "A" "B" 0 None)
                (world allGood) in
  let inFlight := snd (fst run1) in
  let run2 := startHook (completeOpportunityMove board o1 "A" "C" 0 None)
                inFlight in
  let run3 := startHook (handleOpportunityDrag board "o1" "A" "C" 0)
                inFlight in
  let run4 := resumeHook (fst (fst run3)) (snd (fst run3)) in
  pending (fst (fst run1)) = Some (ApiMove "o1" "B")
  /\ isDragging inFlight = true
  /\ pending (fst (fst run2)) = Some (ApiMove "o1" "C")
  /\ pending (fst (fst run4)) = Some (ApiMove "o1" "C")
  /\ isDragging (snd (fst run4)) = true.
Proof. cbv. repeat split; reflexivity. Qed.

(** The requested index need not be a position of the destination list:
    [o1] dragged to index 5 of [B], which holds one card, is committed and
    notified as moved, but sits at index 1, and index 5 of the list is
    empty. *)
Lemma C2_counterexample :
  let r := commit "A" "B" 5 allGood in
  In (persisted o1 "B" None (Resolved tt)) (snd r)
  /\ In (processed o1 "B" None (Resolved None)) (snd r)
  /\ In (Did (R := Resp) (ToastSuccess "Oportunidade movida com sucesso") tt)
       (snd r)
  /\ map (fun st => map id (opportunities st)) (boardStages (snd (fst r)))
     = [["o2"]; ["o3"; "o1"]; []]
  /\ (forall st, nth_error (boardStages (snd (fst r))) 1 = Some st ->
        nth_error (opportunities st) (Z.to_nat 5) = None).
Proof.
  cbn zeta. split; [in_trace |]. split; [in_trace |]. split; [in_trace |].
  split; [reflexivity |].
  intros st Hst. cbv in Hst. inversion Hst; subst st. reflexivity.
Qed.

(** A rejected write can end with the moved opportunity shown.  The store
    rejects the move of [o1] from [A] to [B], nothing is processed, and the
    refetch that follows is answered with [o1] in [B] (the write was
    applied although its answer was an error, or someone else moved the
    card): the board, which had [o1] in [A], ends with [o1] in [B]. *)
Lemma C3_counterexample :
  let r := commit "A" "B" 0 rejectedButMoved in
  In (persisted o1 "B" None (Rejected "boom")) (snd r)
  /\ fetchAnswers (snd r)
     = [Resolved [o2]; Resolved [opp "o1" "B"; o3]; Resolved []]
  /\ map (fun st => map id (opportunities st))
       (boardStages (world rejectedButMoved))
     = [["o1"; "o2"]; ["o3"]; []]
  /\ map (fun st => map id (opportunities st)) (boardStages (snd (fst r)))
     = [["o2"]; ["o1"; "o3"]; []].
Proof.
  cbn zeta. split; [in_trace |]. repeat split; reflexivity.
Qed.

End DragProperties.

(** ** The stage form: win and loss exclude each other *)

Module StageFormProperties.
Import EditStageDialog.

(** Values that pass [formSchema] are not both win and loss. *)
Lemma formSchema_passes (values : FormValues) :
  formSchema values = [] -> notBothWinAndLoss values = true.
Proof.
  unfold formSchema. intros Hpass.
  apply app_eq_nil in Hpass. destruct Hpass as [_ Hpass].
  apply app_eq_nil in Hpass. destruct Hpass as [_ Hpass].
  destruct (notBothWinAndLoss values); [reflexivity | discriminate].
Qed.

(** Values that are both win and loss raise an issue. *)
Lemma formSchema_rejects (values : FormValues) :
  v_isWinStage values = Some true -> v_isLossStage values = Some true ->
  formSchema values <> [].
Proof.
  intros Hwin Hloss Hpass. apply formSchema_passes in Hpass.
  unfold notBothWinAndLoss in Hpass. rewrite Hwin, Hloss in Hpass.
  discriminate.
Qed.

Section Properties.
Context {RS : Type} `{StageServices RS}.

(** C8.  A submission of the stage form with both [isWinStage] and
    [isLossStage] true is rejected by [formSchema]: the issues become the
    form's errors, [onSubmit] is not called and nothing else happens.  And
    whatever the submission, a payload handed to [stageAPI.update] never
    marks the stage as both win and loss. *)
Theorem C8_win_and_loss_rejected (stageId : string) (stage : option Stage)
  (requiredFields : list RequiredField) (values : FormValues)
  (w : World RS) :
  (v_isWinStage values = Some true -> v_isLossStage values = Some true ->
   formSchema values <> []
   /\ runDialog (handleSubmit stageId stage requiredFields values) w
      = (tt,
         {| services := services w; isSubmitting := isSubmitting w;
            formErrors := formSchema values |},
         [Did (R := Resp) PreventDefault tt;
          Did (R := Resp) (SetFormErrors (formSchema values)) tt]))
  /\ (forall ev data,
        In ev (snd (runDialog
                      (handleSubmit stageId stage requiredFields values) w)) ->
        payloadOf ev = Some data ->
        ~ (data_isWinStage data = Some true
           /\ data_isLossStage data = Some true)).
Proof.
  split.
  - intros Hwin Hloss.
    pose proof (formSchema_rejects values Hwin Hloss) as Hrej.
    split; [exact Hrej |].
    unfold runDialog, handleSubmit.
    destruct (formSchema values) as [| issue issues]; [contradiction |].
    reflexivity.
  - intros ev data Hin Hpay [Hwin Hloss].
    unfold runDialog, handleSubmit in Hin.
    destruct (formSchema values) as [| issue issues] eqn:Hschema.
    + apply formSchema_passes in Hschema.
      unfold onSubmit in Hin. destruct stage as [loaded |].
      * assert (Hdata : data_isWinStage data = v_isWinStage values
                        /\ data_isLossStage data = v_isLossStage values).
        { revert Hin. cbn [bind call run perform].
          match goal with
          | |- context [stageAPI_update ?a ?b ?c] =>
              destruct (stageAPI_update a b c)
                as [[[updatedStage |] | error] rs']
          end;
            cbn; intros Hin;
            repeat (destruct Hin as [<- | Hin];
                    [cbn in Hpay; try discriminate;
                     injection Hpay as <-; split; reflexivity |]);
            contradiction. }
        destruct Hdata as [Hw Hl].
        unfold notBothWinAndLoss in Hschema.
        rewrite <- Hw, <- Hl, Hwin, Hloss in Hschema. discriminate.
      * cbn in Hin.
        repeat (destruct Hin as [<- | Hin]; [discriminate |]). contradiction.
    + cbn in Hin.
      repeat (destruct Hin as [<- | Hin]; [discriminate |]). contradiction.
Qed.

End Properties.

Import Scripted.

(** A form marked both win and loss, and one marked win only. *)
Lemma C8_witness :
  formSchema wonAndLost <> []
  /\ (forall ev data,
        In ev (snd (runDialog (handleSubmit "S" (Some loaded) [] won) idle)) ->
        payloadOf ev = Some data ->
        ~ (data_isWinStage data = Some true
           /\ data_isLossStage data = Some true)).
Proof.
  split.
  - destruct (C8_win_and_loss_rejected "S" (Some loaded) [] wonAndLost idle)
      as (Hrej & _).
    apply (Hrej eq_refl eq_refl).
  - destruct (C8_win_and_loss_rejected "S" (Some loaded) [] won idle)
      as (_ & Hsent).
    exact Hsent.
Defined.

End StageFormProperties.

(** ** The drag hook: more of what a commit does *)

Module DragMore.
Import UseOpportunityDrag TraceFacts DragAccounting.

Lemma filter_split_length {A : Type} (f : A -> bool) (l : list A) :
  length (filter (fun x => negb (f x)) l) + length (filter f l) = length l.
Proof.
  induction l as [| x l IH]; [reflexivity |].
  simpl. destruct (f x); simpl; lia.
Qed.

Lemma spliceInsert_shape {A : Type} (l : list A) (start : Z) (x : A) :
  spliceInsert l start x
  = firstn (clampedStart (length l) start) l
    ++ x :: skipn (clampedStart (length l) start) l.
Proof. reflexivity. Qed.

Lemma clampedStart_le (n : nat) (start : Z) : clampedStart n start <= n.
Proof.
  unfold clampedStart. destruct (start <? 0)%Z eqn:E.
  - apply Z.ltb_lt in E. lia.
  - apply Z.ltb_ge in E. lia.
Qed.

Lemma spliceInsert_length {A : Type} (l : list A) (start : Z) (x : A) :
  length (spliceInsert l start x) = S (length l).
Proof.
  rewrite spliceInsert_shape. rewrite length_app. simpl.
  rewrite length_firstn, length_skipn.
  pose proof (clampedStart_le (length l) start). lia.
Qed.

(** What the optimistic update does to the number of cards. *)
Lemma PatchedStage_count o fin src dst idx dates (l l' : list Stage) :
  Forall2 (PatchedStage o fin src dst idx dates) l l' ->
  cardCount l' + cardsInSource (id o) src l
  = cardCount l + destinationStages src dst l.
Proof.
  unfold cardCount, cardsInSource, destinationStages, cardsWithId.
  induction 1 as [| st st' l l' Hst Hall IH]; [reflexivity |].
  cbn [map list_sum fold_right filter].
  unfold PatchedStage in Hst.
  destruct (stage_id st =? src) eqn:Es.
  - subst st'. cbn [opportunities withOpportunities negb andb].
    pose proof (filter_split_length (fun opp => id opp =? id o)
                  (opportunities st)) as Hsplit. cbn beta in Hsplit.
    rewrite <- Hsplit. unfold list_sum in *. lia.
  - destruct (stage_id st =? dst) eqn:Ed.
    + destruct Hst as (d & _ & ->).
      cbn [opportunities withOpportunities negb andb length].
      rewrite spliceInsert_length. unfold list_sum in *. lia.
    + subst st'. cbn [negb andb]. unfold list_sum in *. lia.
Qed.

Ltac find_in :=
  match goal with
  | |- In _ (_ ++ _) => apply in_or_app; first [left; find_in | right; find_in]
  | |- In _ (_ :: _) => first [left; reflexivity | right; find_in]
  end.

Section Properties.
Context {RS : Type} `{Services RS}.

(** X1.  For every successful commit between two different stage ids and
    for every requested index whatsoever, each stage with the destination
    id gets exactly one record more: its new list is the old one, in its
    order, with the stamped record put in at the start [splice] settles on.
    That is the requested index when it is a position of the list, the end
    of the list for any larger index, and for a negative index the position
    counted back from the end, the front at the least. *)
Theorem X1_insertion_for_any_index (stages : list Stage) (o : Opportunity)
  (src dst : string) (idx : Z) (upd : option OpportunityPatch)
  (w w' : World RS) (t : list (Event Resp)) (p : option Opportunity)
  (i : nat) (st : Stage) :
  runHook (completeOpportunityMove stages o src dst idx upd) w = (tt, w', t) ->
  In (persisted o dst upd (Resolved tt)) t ->
  In (processed o dst upd (Resolved p)) t ->
  src <> dst ->
  nth_error stages i = Some st ->
  stage_id st = dst ->
  exists st' d k,
    nth_error (boardStages w') i = Some st'
    /\ st' = withOpportunities st (opportunities st')
    /\ let moved :=
         stamped (finalOpportunityOf p (opportunityToMoveOf o upd) dst) dst d in
       let old := opportunities st in
       opportunities st' = firstn k old ++ moved :: skipn k old
       /\ k <= length old
       /\ length (opportunities st') = S (length old)
       /\ ((0 <= idx <= Z.of_nat (length old))%Z -> k = Z.to_nat idx)
       /\ ((Z.of_nat (length old) <= idx)%Z
           -> opportunities st' = old ++ [moved])
       /\ ((idx <= - Z.of_nat (length old))%Z
           -> opportunities st' = moved :: old)
       /\ ((- Z.of_nat (length old) <= idx < 0)%Z
           -> k = Z.to_nat (Z.of_nat (length old) + idx)).
Proof.
  intros Hrun Hpers Hproc Hne Hi Hid.
  destruct (committed_run _ _ _ _ _ _ _ _ _ _ Hrun Hpers Hproc)
    as (rs' & dates & l & -> & _ & Hall).
  destruct (Forall2_nth_error_l _ _ _ Hall _ _ Hi) as (st' & Hi' & Hst).
  unfold PatchedStage in Hst.
  assert (Hs : (stage_id st =? src) = false).
  { apply String.eqb_neq. congruence. }
  apply String.eqb_eq in Hid. rewrite Hs, Hid in Hst.
  destruct Hst as (d & _ & ->).
  exists (withOpportunities st
            (spliceInsert (opportunities st) idx
               (stamped (finalOpportunityOf p (opportunityToMoveOf o upd) dst)
                  dst d))),
    d, (clampedStart (length (opportunities st)) idx).
  split; [exact Hi' |]. split; [reflexivity |].
  cbn zeta. cbn [opportunities withOpportunities].
  pose proof (clampedStart_le (length (opportunities st)) idx) as Hk.
  split; [apply spliceInsert_shape |]. split; [exact Hk |].
  split; [apply spliceInsert_length |].
  split; [| split; [| split]].
  - intros Hr. unfold clampedStart.
    destruct (idx <? 0)%Z eqn:E; [apply Z.ltb_lt in E; lia |].
    rewrite Z.min_l by lia. reflexivity.
  - intros Hr. rewrite spliceInsert_shape.
    assert (Hc : clampedStart (length (opportunities st)) idx
                 = length (opportunities st)).
    { unfold clampedStart.
      destruct (idx <? 0)%Z eqn:E; [apply Z.ltb_lt in E; lia |].
      rewrite Z.min_r by lia. apply Nat2Z.id. }
    rewrite Hc, firstn_all, skipn_all. reflexivity.
  - intros Hr. rewrite spliceInsert_shape.
    assert (Hc : clampedStart (length (opportunities st)) idx = 0).
    { unfold clampedStart.
      destruct (idx <? 0)%Z eqn:E.
      - rewrite Z.max_r by lia. reflexivity.
      - apply Z.ltb_ge in E.
        assert (length (opportunities st) = 0) by lia.
        rewrite Z.min_l by lia. lia. }
    rewrite Hc. reflexivity.
  - intros Hr. unfold clampedStart.
    destruct (idx <? 0)%Z eqn:E; [| apply Z.ltb_ge in E; lia].
    rewrite Z.max_l by lia. reflexivity.
Qed.

(** X2.  A successful commit keeps count of the cards: the cards on the
    patched board, together with those the filter dropped (the cards with
    the moved id in stages with the source id), are the cards of the old
    list together with one per stage with the destination id (and not the
    source id).  So when one card with that id lies in the source stages
    and the board has one destination stage, the board holds as many cards
    after the move as before. *)
Theorem X2_commit_keeps_count (stages : list Stage) (o : Opportunity)
  (src dst : string) (idx : Z) (upd : option OpportunityPatch)
  (w w' : World RS) (t : list (Event Resp)) (p : option Opportunity) :
  runHook (completeOpportunityMove stages o src dst idx upd) w = (tt, w', t) ->
  In (persisted o dst upd (Resolved tt)) t ->
  In (processed o dst upd (Resolved p)) t ->
  cardCount (boardStages w') + cardsInSource (id o) src stages
  = cardCount stages + destinationStages src dst stages
  /\ (cardsInSource (id o) src stages = 1 ->
      destinationStages src dst stages = 1 ->
      cardCount (boardStages w') = cardCount stages).
Proof.
  intros Hrun Hpers Hproc.
  destruct (committed_run _ _ _ _ _ _ _ _ _ _ Hrun Hpers Hproc)
    as (rs' & dates & l & -> & _ & Hall).
  cbn [boardStages withIsDragging withBoardStages].
  pose proof (PatchedStage_count _ _ _ _ _ _ _ _ Hall) as Hcount.
  split; [exact Hcount |]. intros H1 H2. lia.
Qed.

(** X3.  When updates are supplied, the stage id the store is asked to
    persist is the one the updates carry, if they carry one, and the
    destination stage id only otherwise; whereas the opportunity handed to
    [processStageRequirements] always carries the destination stage id. *)
Theorem X3_update_payload_stage_id (stages : list Stage) (o : Opportunity)
  (src dst : string) (idx : Z) (u : OpportunityPatch)
  (w w' : World RS) (t : list (Event Resp)) :
  runHook (completeOpportunityMove stages o src dst idx (Some u)) w
  = (tt, w', t) ->
  (exists data a rest,
      t = Did (R := Resp) (SetIsDragging true) tt
          :: Did (R := Resp) (ApiUpdate (id o) data) a :: rest
      /\ upd_stageId data
         = Some (match upd_stageId u with Some s => s | None => dst end)
      /\ quiet updatePayloadOf rest)
  /\ (forall ev o' d',
        In ev t -> processArgsOf ev = Some (o', d') ->
        stageId o' = dst /\ d' = dst).
Proof.
  intros Hrun.
  destruct (DragFacts.run_completeOpportunityMove stages o src dst idx
              (Some u) w)
    as (rs' & [(p0 & dates & l & Hr & Hall)
              | (error & t0 & answers & Hf & Hlen & Hr)]);
    rewrite Hr in Hrun; inversion Hrun; subst w' t; clear Hrun.
  - split.
    + eexists. exists (Resolved tt). eexists. split; [reflexivity |].
      split; [cbn; destruct (upd_stageId u); reflexivity |].
      quiet_tac.
    + intros ev o' d' Hin Hargs.
      assert (Hev : processArgsOf
                      (processed o dst (Some u) (Resolved p0))
                    = Some (o', d')).
      { apply (sole_answer processArgsOf
                 [Did (R := Resp) (SetIsDragging true) tt;
                  persisted o dst (Some u) (Resolved tt)]
                 (processed o dst (Some u) (Resolved p0))
                 ((clockReads dates
                   ++ [Did (R := Resp) (SetStages l) tt;
                       Did (R := Resp) (ToastDismiss "moving-opportunity") tt;
                       Did (R := Resp)
                         (ToastSuccess "Oportunidade movida com sucesso") tt])
                  ++ [Did (R := Resp) (SetIsDragging false) tt])
                 _ _ Hin); [quiet_tac | quiet_tac | exact Hargs]. }
      cbn in Hev. inversion Hev; subst. split; reflexivity.
  - unfold revertTrace. destruct Hf as [-> | ->].
    + split.
      * eexists. exists (Rejected error). eexists. split; [reflexivity |].
        split; [cbn; destruct (upd_stageId u); reflexivity |].
        quiet_tac.
      * intros ev o' d' Hin Hargs. exfalso.
        apply (no_answer processArgsOf _ _ (o', d') Hin); [| exact Hargs].
        quiet_tac.
    + split.
      * eexists. exists (Resolved tt). eexists. split; [reflexivity |].
        split; [cbn; destruct (upd_stageId u); reflexivity |].
        quiet_tac.
      * intros ev o' d' Hin Hargs.
        assert (Hev : processArgsOf
                        (processed o dst (Some u) (Rejected error))
                      = Some (o', d')).
        { apply (sole_answer processArgsOf
                   [Did (R := Resp) (SetIsDragging true) tt;
                    persisted o dst (Some u) (Resolved tt)]
                   (processed o dst (Some u) (Rejected error))
                   (([Did (R := Resp)
                        (ConsoleError ["Error moving opportunity:"; error])
                        tt;
                      Did (R := Resp) (ToastDismiss "moving-opportunity") tt;
                      Did (R := Resp)
                        (ToastError "Erro ao mover oportunidade") tt]
                     ++ fetchEvents stages answers
                     ++ revertEnd (refetched stages answers)
                          (promiseAll (settleOrder rs')
                             (refetched stages answers)))
                    ++ [Did (R := Resp) (SetIsDragging false) tt])
                   _ _ Hin); [quiet_tac | quiet_tac | exact Hargs]. }
        cbn in Hev. inversion Hev; subst. split; reflexivity.
Qed.

(** The shape every run of [handleOpportunityDrag] has: an abort on a failed
    lookup, or the loading toast and the building of the drag operation,
    followed by the parking of the operation or by a commit without
    updates. *)
Lemma run_handleOpportunityDrag (stages : list Stage)
  (draggableId src dst : string) (idx : Z) (w : World RS) :
  (exists args message,
      runHook (handleOpportunityDrag stages draggableId src dst idx) w
      = (tt, w, [Did (R := Resp) (ConsoleError args) tt;
                 Did (R := Resp) (ToastError message) tt]))
  \/ (exists o destinationStage op w' rest,
        runHook (handleOpportunityDrag stages draggableId src dst idx) w
        = (tt, w',
           Did (R := Resp)
             (ToastLoading "Movendo oportunidade..." "moving-opportunity") tt
           :: Did (R := Resp)
                (CreateDragOperation o src destinationStage idx) op
           :: rest)
        /\ ((exists flag,
                rest = [Did (R := Resp) (ToastDismiss "moving-opportunity") tt;
                        Did (R := Resp) (SetCurrentDragOperation op) tt;
                        Did (R := Resp) (SetShowRequiredFieldsDialog flag) tt])
            \/ (exists w1,
                  runHook (completeOpportunityMove stages o src dst idx None)
                    w1 = (tt, w', rest)))).
Proof.
  unfold runHook, handleOpportunityDrag. cbn zeta.
  destruct (findStage stages src) as [sourceStage |];
    [| left; eexists; eexists; reflexivity].
  destruct (findStage stages dst) as [destinationStage |];
    [| left; eexists; eexists; reflexivity].
  destruct (findOpportunity sourceStage draggableId) as [o |];
    [| left; eexists; eexists; reflexivity].
  right. cbn [bind call run perform answer].
  destruct (createDragOperation o src destinationStage idx (services w))
    as [op rs1]. cbn [fst snd].
  destruct (hasRequirements op).
  - destruct (requiresOnlyReasons op); cbn;
      exists o, destinationStage, op; eexists; eexists;
      (split; [reflexivity | left; eexists; reflexivity]).
  - destruct (run perform
                (completeOpportunityMove stages o src dst idx None)
                (withServices w rs1)) as [[[] w'] rest] eqn:Hrun.
    exists o, destinationStage, op, w', rest.
    split; [reflexivity |]. right. exists (withServices w rs1). exact Hrun.
Qed.

(** A run of [completeOpportunityMove] dismisses the loading toast and
    raises none. *)
Lemma complete_dismisses_loading (stages : list Stage) (o : Opportunity)
  (src dst : string) (idx : Z) (upd : option OpportunityPatch)
  (w w' : World RS) (t : list (Event Resp)) :
  runHook (completeOpportunityMove stages o src dst idx upd) w = (tt, w', t) ->
  In (Did (R := Resp) (ToastDismiss "moving-opportunity") tt) t
  /\ quiet loadingToastOf t.
Proof.
  intros Hrun.
  destruct (DragFacts.run_completeOpportunityMove stages o src dst idx upd w)
    as (rs' & [(p0 & dates & l & Hr & Hall)
              | (error & t0 & answers & Hf & Hlen & Hr)]);
    rewrite Hr in Hrun; inversion Hrun; subst w' t; clear Hrun.
  - split.
    + unfold committedTrace. find_in.
    + unfold committedTrace. quiet_tac; destruct upd; reflexivity.
  - split.
    + unfold revertTrace. find_in.
    + unfold revertTrace.
      destruct Hf as [-> | ->]; quiet_tac; destruct upd; reflexivity.
Qed.

(** X4.  Whenever a drag raises the loading toast, it dismisses that very
    toast later in the same run, whether the drag is parked for a dialog,
    committed, or reverted. *)
Theorem X4_loading_toast_dismissed (stages : list Stage)
  (draggableId src dst : string) (idx : Z) (w w' : World RS)
  (t pre post : list (Event Resp)) (message toastId : string) :
  runHook (handleOpportunityDrag stages draggableId src dst idx) w
  = (tt, w', t) ->
  t = pre ++ Did (R := Resp) (ToastLoading message toastId) tt :: post ->
  In (Did (R := Resp) (ToastDismiss toastId) tt) post.
Proof.
  intros Hrun.
  destruct (run_handleOpportunityDrag stages draggableId src dst idx w)
    as [(args & msg & Hr)
       | (o & destinationStage & op & w1 & rest & Hr & Hrest)];
    rewrite Hr in Hrun; inversion Hrun; subst; clear Hrun; intros Hsplit.
  - exfalso.
    assert (Hin : In (Did (R := Resp) (ToastLoading message toastId) tt)
                    [Did (R := Resp) (ConsoleError args) tt;
                     Did (R := Resp) (ToastError msg) tt]).
    { rewrite Hsplit. apply in_or_app. right. left. reflexivity. }
    apply (no_answer loadingToastOf _ _ toastId Hin); [quiet_tac | reflexivity].
  - assert (Hq : quiet loadingToastOf
                   (Did (R := Resp)
                      (CreateDragOperation o src destinationStage idx) op
                    :: rest)).
    { destruct Hrest as [(flag & ->) | (w1 & Hc)]; quiet_tac.
      apply (complete_dismisses_loading _ _ _ _ _ _ _ _ _ Hc). }
    destruct (DragProperties.split_sole loadingToastOf []
                (Did (R := Resp)
                   (CreateDragOperation o src destinationStage idx) op
                 :: rest)
                pre post
                (Did (R := Resp)
                   (ToastLoading "Movendo oportunidade..."
                      "moving-opportunity") tt)
                (Did (R := Resp) (ToastLoading message toastId) tt))
      as (_ & Hev & ->);
      [exact Hsplit | discriminate | quiet_tac | exact Hq |].
    apply (f_equal loadingToastOf) in Hev. cbn in Hev.
    injection Hev as ->. right.
    destruct Hrest as [(flag & ->) | (w1 & Hc)].
    + left. reflexivity.
    + apply (complete_dismisses_loading _ _ _ _ _ _ _ _ _ Hc).
Qed.

(** X5.  A drag never calls [opportunityAPI.update]: whatever it persists,
    it persists through [opportunityAPI.move]. *)
Theorem X5_drag_never_updates (stages : list Stage)
  (draggableId src dst : string) (idx : Z) (w : World RS) :
  quiet updatePayloadOf
    (snd (runHook (handleOpportunityDrag stages draggableId src dst idx) w)).
Proof.
  destruct (run_handleOpportunityDrag stages draggableId src dst idx w)
    as [(args & msg & Hr)
       | (o & destinationStage & op & w1 & rest & Hr & Hrest)];
    rewrite Hr; cbn [snd].
  - quiet_tac.
  - destruct Hrest as [(flag & ->) | (w0 & Hc)]; quiet_tac.
    destruct (DragFacts.run_completeOpportunityMove stages o src dst idx
                None w0)
      as (rs' & [(p0 & dates & l & Hr' & Hall)
                | (error & t0 & answers & Hf & Hlen & Hr')]);
      rewrite Hr' in Hc; inversion Hc; subst.
    + unfold committedTrace. quiet_tac.
    + unfold revertTrace. destruct Hf as [-> | ->]; quiet_tac.
Qed.

End Properties.

Import Scripted.

(** On the sample board, [o1] dragged to index 5 of [B] is appended to its
    one card. *)
Lemma X1_witness :
  exists st' d,
    nth_error (boardStages (snd (fst (commit "A" "B" 5 allGood)))) 1
    = Some st'
    /\ opportunities st' = [o3; stamped o1 "B" d].
Proof.
  destruct (X1_insertion_for_any_index board o1 "A" "B" 5 None
              (world allGood)
              (snd (fst (commit "A" "B" 5 allGood)))
              (snd (commit "A" "B" 5 allGood)) None 1 (stage "B" 1 [o3]))
    as (st' & d & k & Hat & _ & _ & _ & _ & _ & Happend & _).
  - reflexivity.
  - DragProperties.in_trace.
  - DragProperties.in_trace.
  - discriminate.
  - reflexivity.
  - reflexivity.
  - exists st', d. split; [exact Hat |]. apply Happend. cbn. lia.
Defined.

(** On the sample board, the move of [o1] from [A] to [B] leaves three
    cards on the board. *)
Lemma X2_witness :
  cardCount (boardStages (snd (fst (commit "A" "B" 0 allGood)))) = 3.
Proof.
  destruct (X2_commit_keeps_count board o1 "A" "B" 0 None (world allGood)
              (snd (fst (commit "A" "B" 0 allGood)))
              (snd (commit "A" "B" 0 allGood)) None) as (_ & Hsame).
  - reflexivity.
  - DragProperties.in_trace.
  - DragProperties.in_trace.
  - rewrite Hsame; reflexivity.
Defined.

(** On the sample board, updates that name stage [C] have the store asked
    to file [o1] under [C], while the drag goes to [B]. *)
Lemma X3_witness :
  exists data a rest,
    snd (commitWith wonElsewhere)
    = Did (R := Resp) (SetIsDragging true) tt
      :: Did (R := Resp) (ApiUpdate "o1" data) a :: rest
    /\ upd_stageId data = Some "C".
Proof.
  destruct (X3_update_payload_stage_id board o1 "A" "B" 0 wonElsewhere
              (world allGood)
              (snd (fst (commitWith wonElsewhere)))
              (snd (commitWith wonElsewhere)))
    as ((data & a & rest & Heq & Hid & _) & _).
  - reflexivity.
  - exists data, a, rest. split; [exact Heq | exact Hid].
Defined.

(** On the sample board, the loading toast of a direct drag is dismissed. *)
Lemma X4_witness :
  In (Did (R := Resp) (ToastDismiss "moving-opportunity") tt)
    (tl (snd (drag "A" "B" 0 allGood))).
Proof.
  apply (X4_loading_toast_dismissed board "o1" "A" "B" 0 (world allGood)
           (snd (fst (drag "A" "B" 0 allGood)))
           (snd (drag "A" "B" 0 allGood)) []
           (tl (snd (drag "A" "B" 0 allGood)))
           "Movendo oportunidade..." "moving-opportunity").
  - reflexivity.
  - reflexivity.
Defined.

End DragMore.

(** ** The role hook: roles, flags and failures *)

Module RoleProperties.
Import UseUserRole Traces.

Section Properties.
Context {RS : Type} `{RoleStore RS}.

(** X6.  The flags [isAdmin] and [isManager] always say what
    [hasPermission] says: they do at the first render, after every run of
    the effect on a change of user, and after every refetch that starts
    from a state where they do. *)
Theorem X6_flags_agree_with_hasPermission (authUser : option string)
  (w : World RS) :
  FlagsAgree (snd (fst (runRole (onUserChange authUser) w)))
  /\ (FlagsAgree w ->
      FlagsAgree (snd (fst (runRole (checkUserRole authUser) w))))
  /\ (userRole w = user -> isAdmin w = false -> isManager w = false ->
      FlagsAgree w).
Proof.
  unfold FlagsAgree, hasPermission, runRole.
  split; [| split].
  - destruct authUser as [userId |]; [| cbn; auto].
    cbn [onUserChange checkUserRole bind call run perform].
    destruct (selectRole userId (store w))
      as [[[role | code message] | error] rs'].
    + destruct role; cbn; auto.
    + cbn. destruct (code =? "PGRST116"); cbn; auto.
    + cbn; auto.
  - intros Hw. destruct authUser as [userId |]; [| exact Hw].
    cbn [checkUserRole bind call run perform].
    destruct (selectRole userId (store w))
      as [[[role | code message] | error] rs'].
    + destruct role; cbn; auto.
    + cbn. destruct (code =? "PGRST116"); cbn; auto.
    + cbn; auto.
  - intros -> -> ->. cbn. auto.
Qed.

(** X7.  The role check fails closed and always ends loading.  When the
    query gives a role, that role is taken.  When it gives none (an error
    answer, whatever its code, or a rejected promise) the role is [user]:
    neither flag is set and [hasPermission] grants [user] only. *)
Theorem X7_role_check_fails_closed (userId : string) (w : World RS)
  (answer : Result QueryAnswer) (rs' : RS) :
  selectRole userId (store w) = (answer, rs') ->
  let w' := snd (fst (runRole (checkUserRole (Some userId)) w)) in
  loading w' = false
  /\ store w' = rs'
  /\ match answer with
     | Resolved (RoleRow role) => userRole w' = role
     | _ =>
         userRole w' = user /\ isAdmin w' = false /\ isManager w' = false
         /\ forall requiredRole,
             hasPermission w' requiredRole = true <-> requiredRole = user
     end.
Proof.
  intros Hq. unfold runRole, hasPermission.
  cbn [checkUserRole bind call run perform]. rewrite Hq.
  destruct answer as [[role | code message] | error].
  - destruct role; cbn; auto.
  - cbn. destruct (code =? "PGRST116"); cbn; repeat split; auto;
      try (destruct requiredRole; cbn; intros; congruence).
  - cbn. repeat split; auto;
      try (destruct requiredRole; cbn; intros; congruence).
Qed.

(** X8.  [hasPermission] follows the hierarchy user, manager, admin.
    Everyone has the permission of a user; whoever has the permission of a
    role has that of every role below it; an admin has every permission;
    and a plain user has no other than that of a user. *)
Theorem X8_permissions_follow_hierarchy (w : World RS) :
  hasPermission w user = true
  /\ (forall r1 r2,
        hasPermission w r1 = true ->
        (roleHierarchy r2 <= roleHierarchy r1)%Z ->
        hasPermission w r2 = true)
  /\ (userRole w = admin -> forall r, hasPermission w r = true)
  /\ (userRole w = user ->
      forall r, hasPermission w r = true -> r = user)
  /\ (forall r, hasPermission w r = true
                \/ (roleHierarchy (userRole w) < roleHierarchy r)%Z).
Proof.
  unfold hasPermission. repeat split.
  - destruct (userRole w); reflexivity.
  - intros r1 r2 H1 H2. apply Z.geb_le. apply Z.geb_le in H1. lia.
  - intros -> r. destruct r; reflexivity.
  - intros -> r Hr. destruct r; cbn in Hr; congruence.
  - intros r. destruct (roleHierarchy (userRole w) >=? roleHierarchy r)%Z
      eqn:E; [left; reflexivity | right].
    rewrite Z.geb_leb in E. apply Z.leb_gt in E. exact E.
Qed.

(** X9.  The store is queried for the signed-in user only.  Signed out, a
    refetch does nothing at all, and the effect resets the role to [user]
    and ends loading without a query.  Signed in, both make one query, for
    the id of that user, before anything else. *)
Theorem X9_queries_only_for_signed_in_user (w : World RS) :
  runRole (checkUserRole None) w = (tt, w, [])
  /\ (let '(_, w', t) := runRole (onUserChange None) w in
      silent queriedBy t
      /\ w' = {| store := store w; userRole := user; isAdmin := false;
                 isManager := false; loading := false |})
  /\ (forall userId,
        runRole (onUserChange (Some userId)) w
        = runRole (checkUserRole (Some userId)) w
        /\ exists a rest,
            snd (runRole (checkUserRole (Some userId)) w)
            = Did (R := Resp) (SelectRole userId) a :: rest
            /\ silent queriedBy rest).
Proof.
  split; [reflexivity |]. split.
  - cbn. split; [| reflexivity].
    intros ev Hin. cbn in Hin.
    repeat (destruct Hin as [<- | Hin]; [reflexivity |]). contradiction.
  - intros userId. split; [reflexivity |].
    unfold runRole. cbn [checkUserRole bind call run perform].
    destruct (selectRole userId (store w))
      as [[[role | code message] | error] rs'].
    + cbn. eexists. eexists. split; [reflexivity |].
      intros ev Hin. cbn in Hin.
      repeat (destruct Hin as [<- | Hin]; [reflexivity |]). contradiction.
    + cbn. destruct (code =? "PGRST116"); cbn; eexists; eexists;
        (split; [reflexivity |]); intros ev Hin; cbn in Hin;
        repeat (destruct Hin as [<- | Hin]; [reflexivity |]); contradiction.
    + cbn. eexists. eexists. split; [reflexivity |].
      intros ev Hin. cbn in Hin.
      repeat (destruct Hin as [<- | Hin]; [reflexivity |]). contradiction.
Qed.

End Properties.

Import Scripted.

(** A manager signs in: the flags agree after the check. *)
Lemma X6_witness :
  FlagsAgree
    (snd (fst (runRole (checkUserRole (Some "u1"))
                 (initial (Resolved (RoleRow manager)))))).
Proof.
  apply (X6_flags_agree_with_hasPermission (Some "u1")
           (initial (Resolved (RoleRow manager)))).
  split; reflexivity.
Defined.

(** The query fails with a code other than [PGRST116]. *)
Lemma X7_witness :
  userRole
    (snd (fst (runRole (checkUserRole (Some "u1"))
                 (initial (Resolved (QueryError "42501" "denied"))))))
  = user.
Proof.
  destruct (X7_role_check_fails_closed "u1"
              (initial (Resolved (QueryError "42501" "denied")))
              (Resolved (QueryError "42501" "denied"))
              (Resolved (QueryError "42501" "denied")))
    as (_ & _ & Hrole & _); [reflexivity |].
  exact Hrole.
Defined.

(** A manager has the permission of a user. *)
Lemma X8_witness :
  hasPermission
    {| store := tt; userRole := manager; isAdmin := false;
       isManager := true; loading := false |} user = true.
Proof.
  destruct (X8_permissions_follow_hierarchy
              {| store := tt; userRole := manager; isAdmin := false;
                 isManager := true; loading := false |})
    as (_ & Hdown & _).
  apply (Hdown manager user); [reflexivity | cbn; lia].
Defined.

End RoleProperties.

(** ** The board: the order of the columns *)

Module BoardProperties.
Import KanbanStages.

Lemma insertBy_perm (x : Stage) (l : list Stage) :
  Permutation (x :: l) (insertBy compareOrder x l).
Proof.
  induction l as [| y l IH]; [apply Permutation_refl |].
  cbn [insertBy]. destruct (compareOrder x y <=? 0)%Z.
  - apply Permutation_refl.
  - eapply Permutation_trans; [apply perm_swap |].
    apply perm_skip. exact IH.
Qed.

Lemma insertBy_sorted (x : Stage) (l : list Stage) :
  StronglySorted (fun a b => (stage_order a <= stage_order b)%Z) l ->
  StronglySorted (fun a b => (stage_order a <= stage_order b)%Z)
    (insertBy compareOrder x l).
Proof.
  induction 1 as [| y l Hl IH Hy].
  - repeat constructor.
  - cbn [insertBy]. unfold compareOrder at 1.
    destruct (stage_order x - stage_order y <=? 0)%Z eqn:E.
    + apply Z.leb_le in E. constructor; [constructor; assumption |].
      constructor; [lia |].
      eapply Forall_impl; [| exact Hy]. cbn. intros; lia.
    + apply Z.leb_gt in E. constructor; [exact IH |].
      eapply Permutation_Forall; [apply insertBy_perm |].
      constructor; [lia | exact Hy].
Qed.

Lemma insertBy_atOrder (k : Z) (x : Stage) (l : list Stage) :
  atOrder k (insertBy compareOrder x l) = atOrder k (x :: l).
Proof.
  unfold atOrder. induction l as [| y l IH]; [reflexivity |].
  cbn [insertBy]. unfold compareOrder at 1.
  destruct (stage_order x - stage_order y <=? 0)%Z eqn:E; [reflexivity |].
  apply Z.leb_gt in E. cbn [filter] in *. rewrite IH.
  destruct (stage_order x =? k)%Z eqn:Ex, (stage_order y =? k)%Z eqn:Ey;
    try reflexivity.
  apply Z.eqb_eq in Ex, Ey. lia.
Qed.

Lemma insertBy_head (x : Stage) (l : list Stage) :
  Forall (fun y => (stage_order x <= stage_order y)%Z) l ->
  insertBy compareOrder x l = x :: l.
Proof.
  intros Hx. destruct l as [| y l]; [reflexivity |].
  cbn [insertBy]. unfold compareOrder.
  inversion Hx; subst.
  destruct (stage_order x - stage_order y <=? 0)%Z eqn:E; [reflexivity |].
  apply Z.leb_gt in E. lia.
Qed.

(** X10.  The columns are the stages, each exactly once, by non-decreasing
    [order]. *)
Theorem X10_columns_sorted_permutation (stages : list Stage) :
  Permutation stages (sortedStages stages)
  /\ StronglySorted (fun a b => (stage_order a <= stage_order b)%Z)
       (sortedStages stages)
  /\ length (sortedStages stages) = length stages.
Proof.
  assert (Hperm : Permutation stages (sortedStages stages)).
  { unfold sortedStages. induction stages as [| x l IH];
      [apply Permutation_refl |].
    cbn [sortBy]. eapply Permutation_trans; [| apply insertBy_perm].
    apply perm_skip. exact IH. }
  split; [exact Hperm |]. split.
  - clear Hperm. unfold sortedStages.
    induction stages as [| x l IH]; [constructor |].
    cbn [sortBy]. apply insertBy_sorted. exact IH.
  - symmetry. apply Permutation_length. exact Hperm.
Qed.

(** X11.  Stages with the same [order] stay in the order the list gives
    them: at every order, the columns at that order are the stages at that
    order, as listed. *)
Theorem X11_columns_keep_ties (stages : list Stage) (k : Z) :
  atOrder k (sortedStages stages) = atOrder k stages.
Proof.
  unfold sortedStages. induction stages as [| x l IH]; [reflexivity |].
  cbn [sortBy]. rewrite insertBy_atOrder.
  unfold atOrder in *. cbn [filter]. rewrite IH. reflexivity.
Qed.

(** X12.  A list that is already by non-decreasing [order] is rendered as
    it is. *)
Theorem X12_ordered_list_unchanged (stages : list Stage) :
  StronglySorted (fun a b => (stage_order a <= stage_order b)%Z) stages ->
  sortedStages stages = stages.
Proof.
  unfold sortedStages. induction 1 as [| x l Hl IH Hx]; [reflexivity |].
  cbn [sortBy]. rewrite IH. apply insertBy_head. exact Hx.
Qed.

(** The sample board is in order and rendered as it is. *)
Lemma X12_witness :
  sortedStages UseOpportunityDrag.Scripted.board
  = UseOpportunityDrag.Scripted.board.
Proof.
  apply X12_ordered_list_unchanged.
  repeat constructor; cbn; lia.
Defined.

End BoardProperties.

(** ** The stage form: loading, saving and what comes back *)

Module StageFormMore.
Import EditStageDialog.

Lemma length_list_ascii (s : string) :
  length (list_ascii_of_string s) = String.length s.
Proof. induction s as [| c s IH]; cbn; [| rewrite IH]; reflexivity. Qed.

Lemma isHexDigit_spec (c : ascii) :
  isHexDigit c = true <-> In c hexDigits.
Proof.
  split.
  - intros Hhex. destruct c as [[] [] [] [] [] [] [] []];
      try discriminate Hhex; clear Hhex;
      cbv; repeat (first [left; reflexivity | right]).
  - intros Hin. cbv in Hin.
    repeat (destruct Hin as [<- | Hin]; [reflexivity |]). contradiction.
Qed.

(** The pattern of the colour accepts [#] followed by three or six
    hexadecimal digits, and nothing else. *)
Lemma colorRegex_spec (s : string) :
  colorRegex s = true <-> HexColour s.
Proof.
  unfold HexColour. destruct s as [| c digits].
  - split; [discriminate | intros (d & Hd & _); discriminate].
  - destruct (Ascii.ascii_dec c "#") as [-> | Hne].
    + cbn [colorRegex]. rewrite andb_true_iff, orb_true_iff, forallb_forall.
      rewrite !Nat.eqb_eq, <- !length_list_ascii. split.
      * intros [Hall Hlen]. exists (list_ascii_of_string digits).
        rewrite string_of_list_ascii_of_string.
        split; [reflexivity |]. split; [exact Hlen |].
        apply Forall_forall. intros x Hx. apply isHexDigit_spec.
        apply Hall. exact Hx.
      * intros (d & Hd & Hlen & Hall). injection Hd as ->.
        rewrite list_ascii_of_string_of_list_ascii.
        split; [| exact Hlen].
        intros x Hx. apply isHexDigit_spec.
        rewrite Forall_forall in Hall. apply Hall. exact Hx.
    + split.
      * intros Hre. exfalso. apply Hne.
        destruct c as [[] [] [] [] [] [] [] []]; try discriminate Hre;
          reflexivity.
      * intros (d & Hd & _). injection Hd as Hc _. contradiction.
Qed.

Lemma unitsOfByte_continues (c : ascii) : Continues c -> unitsOfByte c = 0%nat.
Proof.
  unfold Continues, unitsOfByte. intros [Hlo Hhi].
  apply Nat.ltb_ge in Hlo. apply Nat.ltb_lt in Hhi.
  cbn zeta. rewrite Hlo, Hhi. reflexivity.
Qed.

Lemma unitsOfByte_first (c : ascii) :
  (192 <= nat_of_ascii c < 240)%nat -> unitsOfByte c = 1%nat.
Proof.
  unfold unitsOfByte. intros [Hlo Hhi]. cbn zeta.
  replace (nat_of_ascii c <? 128)%nat with false
    by (symmetry; apply Nat.ltb_ge; lia).
  replace (nat_of_ascii c <? 192)%nat with false
    by (symmetry; apply Nat.ltb_ge; lia).
  apply Nat.ltb_lt in Hhi. rewrite Hhi. reflexivity.
Qed.

(** [codeUnits] counts the UTF-16 code units of a UTF-8 encoded string. *)
Lemma codeUnits_spec (s : string) (n : nat) :
  Utf16Units s n -> codeUnits s = n.
Proof.
  induction 1 as [| c s n Hc _ IH | c1 c2 s n Hc1 Hc2 _ IH
                 | c1 c2 c3 s n Hc1 Hc2 Hc3 _ IH
                 | c1 c2 c3 c4 s n Hc1 Hc2 Hc3 Hc4 _ IH];
    cbn [codeUnits].
  - reflexivity.
  - unfold unitsOfByte. cbn zeta. apply Nat.ltb_lt in Hc. rewrite Hc, IH.
    reflexivity.
  - rewrite (unitsOfByte_first c1) by lia.
    rewrite (unitsOfByte_continues c2 Hc2), IH. reflexivity.
  - rewrite (unitsOfByte_first c1) by lia.
    rewrite (unitsOfByte_continues c2 Hc2), (unitsOfByte_continues c3 Hc3), IH.
    reflexivity.
  - rewrite (unitsOfByte_continues c2 Hc2), (unitsOfByte_continues c3 Hc3),
      (unitsOfByte_continues c4 Hc4), IH.
    unfold unitsOfByte. cbn zeta.
    replace (nat_of_ascii c1 <? 128)%nat with false
      by (symmetry; apply Nat.ltb_ge; lia).
    replace (nat_of_ascii c1 <? 192)%nat with false
      by (symmetry; apply Nat.ltb_ge; lia).
    replace (nat_of_ascii c1 <? 240)%nat with false
      by (symmetry; apply Nat.ltb_ge; lia).
    reflexivity.
Qed.

(** The values [formSchema] lets through. *)
Lemma formSchema_passes_iff (values : FormValues) (n : nat) :
  Utf16Units (v_name values) n ->
  (formSchema values = []
   <-> ((2 <= n)%nat
        /\ HexColour (v_color values)
        /\ ~ (v_isWinStage values = Some true
              /\ v_isLossStage values = Some true))).
Proof.
  intros Hn. rewrite <- colorRegex_spec, <- (codeUnits_spec _ _ Hn).
  unfold formSchema, notBothWinAndLoss. split.
  - intros Hpass.
    apply app_eq_nil in Hpass. destruct Hpass as [Hname Hpass].
    apply app_eq_nil in Hpass. destruct Hpass as [Hcolor Hflags].
    split; [| split].
    + destruct (Nat.leb 2 (codeUnits (v_name values))) eqn:E;
        [apply Nat.leb_le; exact E | discriminate].
    + destruct (colorRegex (v_color values)); [reflexivity | discriminate].
    + intros [Hw Hl]. rewrite Hw, Hl in Hflags. discriminate.
  - intros (Hname & Hcolor & Hflags).
    apply Nat.leb_le in Hname. rewrite Hname, Hcolor.
    destruct (v_isWinStage values) as [[|] |],
             (v_isLossStage values) as [[|] |]; try reflexivity.
    exfalso. apply Hflags. split; reflexivity.
Qed.

(** Builds the derivation of [Utf16Units] for a string that is given. *)
Ltac units_tac :=
  repeat first
    [ apply units_end
    | apply units_one; [cbn; lia |]
    | apply units_two; [cbn; lia | unfold Continues; cbn; lia |]
    | apply units_three;
      [cbn; lia | unfold Continues; cbn; lia | unfold Continues; cbn; lia |]
    | apply units_four;
      [cbn; lia | unfold Continues; cbn; lia | unfold Continues; cbn; lia
      | unfold Continues; cbn; lia |] ].

Section Properties.
Context {RS : Type} `{StageServices RS}.

(** X13.  A submission of the stage form reaches [stageAPI.update] exactly
    when the stage has been loaded, the name has two UTF-16 code units or
    more, the colour is [#] followed by three or six hexadecimal digits, and
    the flags are not both true. *)
Theorem X13_what_reaches_the_store (stageId : string) (stage : option Stage)
  (requiredFields : list RequiredField) (values : FormValues)
  (w : World RS) (n : nat) :
  Utf16Units (v_name values) n ->
  ((exists ev data,
       In ev (snd (runDialog
                     (handleSubmit stageId stage requiredFields values) w))
       /\ payloadOf ev = Some data)
   <-> (stage <> None
        /\ (2 <= n)%nat
        /\ HexColour (v_color values)
        /\ ~ (v_isWinStage values = Some true
              /\ v_isLossStage values = Some true))).
Proof.
  intros Hn. rewrite <- (formSchema_passes_iff values n Hn).
  unfold runDialog, handleSubmit, onSubmit.
  destruct (formSchema values) as [| issue issues] eqn:Hschema.
  - destruct stage as [loaded |].
    + split; [intros _; split; [discriminate | reflexivity] |].
      intros _. cbn [bind call run perform].
      match goal with
      | |- context [stageAPI_update ?a ?b ?c] =>
          destruct (stageAPI_update a b c) as [answer rs']
      end.
      destruct (run perform _ _) as [[u w2] t]. cbn.
      eexists. eexists.
      split; [right; right; left; reflexivity | reflexivity].
    + split; [| intros [Hs _]; contradiction].
      intros (ev & data & Hin & Hpay). exfalso. cbn in Hin.
      repeat (destruct Hin as [<- | Hin]; [discriminate |]). contradiction.
  - split; [| intros [_ Hn']; discriminate].
    intros (ev & data & Hin & Hpay). exfalso. cbn in Hin.
    repeat (destruct Hin as [<- | Hin]; [discriminate |]). contradiction.
Qed.

(** X14.  What a submission that reaches the store ends in.  When the
    store answers with the updated stage, the parent is handed that stage,
    the success toast is raised and the dialog is closed.  When it answers
    with nothing, or rejects, the error toast is raised and the dialog
    stays open; the rejection is logged.  In every case the form was
    marked as submitting before the call and is unmarked at the end. *)
Theorem X14_outcomes_of_a_submission (stageId : string) (loaded : Stage)
  (requiredFields : list RequiredField) (values : FormValues)
  (w : World RS) (answer : Result (option Stage)) (rs' : RS) :
  formSchema values = [] ->
  let payload :=
    {| data_name := v_name values;
       data_description := v_description values;
       data_funnelId := stage_funnelId loaded;
       data_color := v_color values;
       data_isWinStage := v_isWinStage values;
       data_isLossStage := v_isLossStage values;
       data_requiredFields := requiredFields |} in
  stageAPI_update stageId payload (services w) = (answer, rs') ->
  runDialog (handleSubmit stageId (Some loaded) requiredFields values) w
  = (tt,
     {| services := rs'; isSubmitting := false; formErrors := formErrors w |},
     [Did (R := Resp) PreventDefault tt;
      Did (R := Resp) (SetIsSubmitting true) tt;
      Did (R := Resp) (StageApiUpdate stageId payload) answer]
     ++ match answer with
        | Resolved (Some updatedStage) =>
            [Did (R := Resp) (OnStageUpdated updatedStage) tt;
             Did (R := Resp) (ToastSuccess "Etapa atualizada com sucesso!") tt;
             Did (R := Resp) (OnOpenChange false) tt]
        | Resolved None =>
            [Did (R := Resp) (ToastError "Erro ao atualizar etapa") tt]
        | Rejected error =>
            [Did (R := Resp) (ConsoleError ["Error updating stage:"; error])
               tt;
             Did (R := Resp) (ToastError "Erro ao atualizar etapa") tt]
        end
     ++ [Did (R := Resp) (SetIsSubmitting false) tt]).
Proof.
  intros Hschema payload Hanswer. subst payload.
  unfold runDialog, handleSubmit, onSubmit. rewrite Hschema.
  cbn [bind call run perform]. cbn [services] in *. rewrite Hanswer.
  destruct answer as [[updatedStage |] | error]; reflexivity.
Qed.

End Properties.

Import EditStageDialogLoad.

Section Loading.
Context {RS : Type} `{StageLoader RS}.
Context {RS2 : Type} `{StageServices RS2}.

(** X15.  Loading a stage and saving the form untouched writes the stage
    back as it was loaded.  After a load that found the stage, the dialog
    holds it and its required fields (none when it has none), is no longer
    loading, and the form holds its name, its description or the empty
    string, its colour or [#CCCCCC] when it has none or an empty one, and
    its flags with false for a flag that is not set.  Those values pass the
    schema exactly when the name has two UTF-16 code units or more, the
    colour is [#] and three or six hexadecimal digits, and the stage is not
    marked both win and loss; and then a submission hands [stageAPI.update]
    those same values, with the funnel id and the required fields of the
    loaded stage. *)
Theorem X15_load_then_save_round_trip (stageId : string) (stageData : Stage)
  (w : World RS) (rs1 : RS) (ws : EditStageDialog.World RS2) (n : nat) :
  stageId <> "" ->
  stageAPI_getById stageId (services w) = (Resolved (Some stageData), rs1) ->
  Utf16Units (stage_name stageData) n ->
  let w' := snd (fst (runLoad (loadStage true stageId) w)) in
  let description :=
    match stage_description stageData with Some d => d | None => "" end in
  let colour :=
    match stage_color stageData with
    | Some c => if c =? "" then "#CCCCCC" else c
    | None => "#CCCCCC"
    end in
  let won :=
    match isWinStage stageData with Some true => true | _ => false end in
  let lost :=
    match isLossStage stageData with Some true => true | _ => false end in
  let fields :=
    match requiredFields stageData with Some l => l | None => [] end in
  stage w' = Some stageData
  /\ requiredFieldsState w' = fields
  /\ formValues w'
     = {| v_name := stage_name stageData; v_description := Some description;
          v_color := colour; v_isWinStage := Some won;
          v_isLossStage := Some lost |}
  /\ loading w' = false
  /\ (formSchema (formValues w') = []
      <-> ((2 <= n)%nat /\ HexColour colour
           /\ ~ (won = true /\ lost = true)))
  /\ (formSchema (formValues w') = [] ->
      exists a rest,
        snd (runDialog
               (handleSubmit stageId (stage w') (requiredFieldsState w')
                  (formValues w')) ws)
        = Did (R := EditStageDialog.Resp) PreventDefault tt
          :: Did (R := EditStageDialog.Resp) (SetIsSubmitting true) tt
          :: Did (R := EditStageDialog.Resp)
               (StageApiUpdate stageId
                  {| data_name := stage_name stageData;
                     data_description := Some description;
                     data_funnelId := stage_funnelId stageData;
                     data_color := colour;
                     data_isWinStage := Some won;
                     data_isLossStage := Some lost;
                     data_requiredFields := fields |}) a
          :: rest).
Proof.
  intros Hid Hload Hn.
  assert (Hrun : runLoad (loadStage true stageId) w
                 = (tt,
                    {| services := rs1; stage := Some stageData;
                       requiredFieldsState := requiredFieldsOf stageData;
                       loading := false;
                       formValues := resetValues stageData |},
                    [Did (R := Resp) (SetLoading true) tt;
                     Did (R := Resp) (StageApiGetById stageId)
                       (Resolved (Some stageData));
                     Did (R := Resp) (SetStage stageData) tt;
                     Did (R := Resp)
                       (SetRequiredFields (requiredFieldsOf stageData)) tt;
                     Did (R := Resp) (FormReset (resetValues stageData)) tt;
                     Did (R := Resp) (SetLoading false) tt])).
  { unfold runLoad, loadStage. apply String.eqb_neq in Hid. rewrite Hid.
    cbn [andb negb bind call run perform]. cbn [services] in *.
    rewrite Hload. reflexivity. }
  assert (Hvalues :
            resetValues stageData
            = {| v_name := stage_name stageData;
                 v_description :=
                   Some match stage_description stageData with
                        | Some d => d
                        | None => ""
                        end;
                 v_color :=
                   match stage_color stageData with
                   | Some c => if c =? "" then "#CCCCCC" else c
                   | None => "#CCCCCC"
                   end;
                 v_isWinStage :=
                   Some match isWinStage stageData with
                        | Some true => true
                        | _ => false
                        end;
                 v_isLossStage :=
                   Some match isLossStage stageData with
                        | Some true => true
                        | _ => false
                        end |}).
  { unfold resetValues, orString, truthy.
    destruct (stage_description stageData) as [d |]; [| reflexivity].
    destruct (d =? "") eqn:Hd; [| reflexivity].
    apply String.eqb_eq in Hd. subst d. reflexivity. }
  cbn zeta. rewrite Hrun.
  cbn [fst snd stage requiredFieldsState formValues loading].
  rewrite Hvalues.
  split; [reflexivity |]. split; [reflexivity |]. split; [reflexivity |].
  split; [reflexivity |]. split.
  - match goal with
    | |- formSchema ?v = [] <-> _ =>
        rewrite (formSchema_passes_iff v n Hn)
    end.
    cbn [v_name v_color v_isWinStage v_isLossStage].
    split; intros (Hlen & Hc & Hf); (split; [exact Hlen |]; split; [exact Hc |]).
    + intros [Hw Hl]. apply Hf. rewrite Hw, Hl. split; reflexivity.
    + intros [Hw Hl]. apply Hf.
      injection Hw as Hw. injection Hl as Hl. split; assumption.
  - intros Hschema.
    unfold runDialog, handleSubmit, onSubmit. rewrite Hschema.
    cbn [bind call run EditStageDialog.perform].
    match goal with
    | |- context [stageAPI_update ?a ?b ?c] =>
        destruct (stageAPI_update a b c) as [answer rs']
    end.
    destruct (run EditStageDialog.perform _ _) as [[u w2] t]. cbn.
    eexists. eexists. reflexivity.
Qed.

(** X16.  A load that does not find the stage leaves the dialog as it
    was, but for the loading flag, which it lowers.  When the store answers
    with nothing, nothing is said: no log, no toast.  When it rejects, the
    error is logged and the error toast raised.  And when the dialog is
    closed or has no stage id, nothing at all is done: no call is made and
    the loading flag stays as it is. *)
Theorem X16_load_that_finds_nothing (open : bool) (stageId : string)
  (w : World RS) :
  (open = false \/ stageId = "" ->
   runLoad (loadStage open stageId) w = (tt, w, []))
  /\ (open = true -> stageId <> "" ->
      forall answer rs1,
        stageAPI_getById stageId (services w) = (answer, rs1) ->
        (forall stageData, answer <> Resolved (Some stageData)) ->
        runLoad (loadStage open stageId) w
        = (tt,
           {| services := rs1; stage := stage w;
              requiredFieldsState := requiredFieldsState w;
              loading := false; formValues := formValues w |},
           [Did (R := Resp) (SetLoading true) tt;
            Did (R := Resp) (StageApiGetById stageId) answer]
           ++ match answer with
              | Rejected error =>
                  [Did (R := Resp) (ConsoleError ["Error loading stage:"; error])
                     tt;
                   Did (R := Resp)
                     (ToastError "Erro ao carregar dados da etapa") tt]
              | _ => []
              end
           ++ [Did (R := Resp) (SetLoading false) tt])).
Proof.
  unfold runLoad, loadStage. split.
  - intros [-> | ->]; [reflexivity |].
    rewrite String.eqb_refl, andb_false_r. reflexivity.
  - intros -> Hid answer rs1 Hload Hnone.
    apply String.eqb_neq in Hid. rewrite Hid.
    cbn [andb negb bind call run perform]. cbn [services] in *.
    rewrite Hload.
    destruct answer as [[stageData |] | error]; [| reflexivity | reflexivity].
    exfalso. apply (Hnone stageData). reflexivity.
Qed.

End Loading.

Import EditStageDialog.Scripted.

(** Before a store that echoes what it is given: a well-formed form for a
    loaded stage reaches the store; a name of one character outside ASCII,
    which is three bytes and one code unit, does not, and neither does a
    colour of five digits. *)
Lemma X13_witness :
  (exists ev data,
      In ev (snd (runDialog
                    (handleSubmit "S" (Some EditStageDialog.Scripted.loaded) []
                       EditStageDialog.Scripted.won)
                    EditStageDialog.Scripted.idle))
      /\ payloadOf ev = Some data)
  /\ ~ (exists ev data,
          In ev (snd (runDialog
                        (handleSubmit "S"
                           (Some EditStageDialog.Scripted.loaded) []
                           EditStageDialog.Scripted.oneCharacter)
                        EditStageDialog.Scripted.idle))
          /\ payloadOf ev = Some data)
  /\ ~ (exists ev data,
          In ev (snd (runDialog
                        (handleSubmit "S"
                           (Some EditStageDialog.Scripted.loaded) []
                           EditStageDialog.Scripted.fiveDigits)
                        EditStageDialog.Scripted.idle))
          /\ payloadOf ev = Some data).
Proof.
  split; [| split].
  - apply (X13_what_reaches_the_store "S"
             (Some EditStageDialog.Scripted.loaded) []
             EditStageDialog.Scripted.won EditStageDialog.Scripted.idle 7).
    + cbn. units_tac.
    + split; [discriminate |]. split; [lia |]. split.
      * apply colorRegex_spec. reflexivity.
      * intros [_ Hl]. discriminate Hl.
  - intros Hreach.
    apply (X13_what_reaches_the_store "S"
             (Some EditStageDialog.Scripted.loaded) []
             EditStageDialog.Scripted.oneCharacter
             EditStageDialog.Scripted.idle 1) in Hreach.
    + destruct Hreach as (_ & Hlen & _). lia.
    + cbn. units_tac.
  - intros Hreach.
    apply (X13_what_reaches_the_store "S"
             (Some EditStageDialog.Scripted.loaded) []
             EditStageDialog.Scripted.fiveDigits
             EditStageDialog.Scripted.idle 7) in Hreach.
    + destruct Hreach as (_ & _ & Hcolour & _).
      apply colorRegex_spec in Hcolour. discriminate Hcolour.
    + cbn. units_tac.
Defined.

(** The echoing store answers with the updated stage: the dialog closes. *)
Lemma X14_witness :
  In (Did (R := EditStageDialog.Resp) (OnOpenChange false) tt)
    (snd (runDialog
            (handleSubmit "S" (Some EditStageDialog.Scripted.loaded) []
               EditStageDialog.Scripted.won)
            EditStageDialog.Scripted.idle)).
Proof.
  erewrite (X14_outcomes_of_a_submission "S"
              EditStageDialog.Scripted.loaded []
              EditStageDialog.Scripted.won EditStageDialog.Scripted.idle);
    [| reflexivity | reflexivity].
  cbn. do 5 right. left. reflexivity.
Defined.

(** A stage without description, colour or flags is written back with the
    empty description, the colour [#CCCCCC] and both flags false; a stage
    that has them, and a required field, is written back with them. *)
Lemma X15_witness :
  (exists a rest,
      snd (runDialog
             (handleSubmit "S" (Some bare) [] (resetValues bare))
             EditStageDialog.Scripted.idle)
      = Did (R := EditStageDialog.Resp) PreventDefault tt
        :: Did (R := EditStageDialog.Resp) (SetIsSubmitting true) tt
        :: Did (R := EditStageDialog.Resp)
             (StageApiUpdate "S"
                {| data_name := "Proposta"; data_description := Some "";
                   data_funnelId := "F"; data_color := "#CCCCCC";
                   data_isWinStage := Some false;
                   data_isLossStage := Some false;
                   data_requiredFields := [] |}) a
        :: rest)
  /\ (exists a rest,
        snd (runDialog
               (handleSubmit "S" (Some kept) [askedFor] (resetValues kept))
               EditStageDialog.Scripted.idle)
        = Did (R := EditStageDialog.Resp) PreventDefault tt
          :: Did (R := EditStageDialog.Resp) (SetIsSubmitting true) tt
          :: Did (R := EditStageDialog.Resp)
               (StageApiUpdate "S"
                  {| data_name := "Ganho";
                     data_description := Some "Propostas aceitas";
                     data_funnelId := "F"; data_color := "#00aa00";
                     data_isWinStage := Some true;
                     data_isLossStage := Some false;
                     data_requiredFields := [askedFor] |}) a
          :: rest).
Proof.
  split.
  - destruct (X15_load_then_save_round_trip "S" bare
                (initial (Resolved (Some bare))) (Resolved (Some bare))
                EditStageDialog.Scripted.idle 8)
      as (_ & _ & _ & _ & _ & Hsave).
    + discriminate.
    + reflexivity.
    + cbn. units_tac.
    + apply Hsave. reflexivity.
  - destruct (X15_load_then_save_round_trip "S" kept
                (initial (Resolved (Some kept))) (Resolved (Some kept))
                EditStageDialog.Scripted.idle 5)
      as (_ & _ & _ & _ & _ & Hsave).
    + discriminate.
    + reflexivity.
    + cbn. units_tac.
    + apply Hsave. reflexivity.
Defined.

(** The store does not know the stage. *)
Lemma X16_witness :
  runLoad (loadStage true "S") (initial (Resolved None))
  = (tt,
     {| services := Resolved None; stage := None; requiredFieldsState := [];
        loading := false; formValues := defaultValues |},
     [Did (R := Resp) (SetLoading true) tt;
      Did (R := Resp) (StageApiGetById "S") (Resolved None);
      Did (R := Resp) (SetLoading false) tt]).
Proof.
  destruct (X16_load_that_finds_nothing true "S" (initial (Resolved None)))
    as (_ & Hnone).
  rewrite (Hnone eq_refl ltac:(discriminate) (Resolved None) (Resolved None)
             eq_refl ltac:(discriminate)).
  reflexivity.
Defined.

End StageFormMore.

(** ** The form that creates a user *)

Module UserFormProperties.
Import CreateUserDialog.

Lemma prefix_iff (a s : string) :
  String.prefix a s = true <-> exists post, s = (a ++ post)%string.
Proof.
  revert s. induction a as [| c a IH]; intros s; cbn.
  - split; [intros _; exists s; reflexivity |].
    intros _. destruct s; reflexivity.
  - destruct s as [| d s].
    + split; [discriminate | intros [post Hpost]; discriminate].
    + cbn. destruct (Ascii.ascii_dec c d) as [-> | Hne].
      * rewrite IH. split; intros [post Hpost]; exists post.
        -- rewrite Hpost. reflexivity.
        -- injection Hpost as ->. reflexivity.
      * split; [discriminate |].
        intros [post Hpost]. injection Hpost as <- _. contradiction.
Qed.

Lemma includes_iff (needle s : string) :
  includes needle s = true
  <-> exists pre post, s = (pre ++ needle ++ post)%string.
Proof.
  induction s as [| d s IH]; cbn [includes].
  - rewrite orb_false_r, prefix_iff. split.
    + intros [post Hpost]. exists "", post. exact Hpost.
    + intros (pre & post & Hs). destruct pre; [| discriminate].
      exists post. exact Hs.
  - rewrite orb_true_iff, prefix_iff, IH. split.
    + intros [[post Hpost] | (pre & post & Hs)].
      * exists "", post. exact Hpost.
      * exists (String d pre), post. rewrite Hs. reflexivity.
    + intros (pre & post & Hs). destruct pre as [| c pre].
      * left. exists post. exact Hs.
      * right. injection Hs as _ Hs. exists pre, post. exact Hs.
Qed.

Lemma string_app_assoc (a b c : string) :
  ((a ++ b) ++ c)%string = (a ++ b ++ c)%string.
Proof. induction a as [| x a IH]; cbn; [| rewrite IH]; reflexivity. Qed.

(** A string that holds a needle holds every tail of the needle. *)
Lemma includes_tail (a b s : string) :
  includes (a ++ b)%string s = true -> includes b s = true.
Proof.
  rewrite !includes_iff. intros (pre & post & ->).
  exists (pre ++ a)%string, post.
  rewrite !string_app_assoc. reflexivity.
Qed.

Lemma fieldOf_not_lastName (toLowerCase : string -> string)
  (error : string) :
  fieldOf toLowerCase error <> "lastName".
Proof.
  unfold fieldOf.
  destruct (includes "email" _); [discriminate |].
  destruct (includes "nome" _) eqn:Hnome; [discriminate |].
  destruct (includes "sobrenome" _) eqn:Hsobre.
  - apply (includes_tail "sobre" "nome") in Hsobre. congruence.
  - destruct (includes "senha" _); [discriminate |].
    destruct (includes "role" _); discriminate.
Qed.

Lemma lookup_assign (key k v : string) (o : Errors) :
  lookup key (assign k v o)
  = if k =? key then Some v else lookup key o.
Proof.
  induction o as [| [k' v'] o IH]; cbn.
  - reflexivity.
  - destruct (k' =? k) eqn:Hk; cbn.
    + apply String.eqb_eq in Hk. subst k'.
      destruct (k =? key); reflexivity.
    + destruct (k' =? key) eqn:Hk'; [| exact IH].
      apply String.eqb_eq in Hk'. subst k'.
      rewrite String.eqb_sym, Hk. reflexivity.
Qed.

Lemma newErrors_no_lastName (toLowerCase : string -> string)
  (messages : list string) (acc : Errors) :
  lookup "lastName" acc = None ->
  lookup "lastName"
    (fold_left
       (fun newErrors error =>
          assign (fieldOf toLowerCase error) error newErrors)
       messages acc) = None.
Proof.
  revert acc. induction messages as [| error messages IH]; intros acc Hacc.
  - exact Hacc.
  - cbn [fold_left]. apply IH. rewrite lookup_assign.
    destruct (fieldOf toLowerCase error =? "lastName") eqn:Hf;
      [| exact Hacc].
    apply String.eqb_eq in Hf.
    destruct (fieldOf_not_lastName toLowerCase error Hf).
Qed.

(** X17.  A validation message that mentions "sobrenome" is never filed
    under the last name: whatever [toLowerCase] does, it is filed under the
    email when it also mentions "email", and under the first name
    otherwise, since every string that holds "sobrenome" holds "nome". *)
Theorem X17_last_name_message_filed_elsewhere
  (toLowerCase : string -> string) (error : string) :
  includes "sobrenome" (toLowerCase error) = true ->
  fieldOf toLowerCase error
  = if includes "email" (toLowerCase error) then "email" else "firstName".
Proof.
  intros Hsobre. unfold fieldOf.
  apply (includes_tail "sobre" "nome") in Hsobre. rewrite Hsobre.
  reflexivity.
Qed.

Section Properties.
Context {RS : Type} `{UserServices RS}.
Variable toLowerCase : string -> string.

(** X18.  A submission that fails validation calls nothing and raises no
    loading flag: it only replaces the error messages.  None of the new
    messages sits under the last name, so the last-name field shows no
    message, and typing in it afterwards changes the form data only. *)
Theorem X18_failed_validation_marks_no_last_name
  (data : CreateUserFormData) (errorsNow : Errors) (w : World RS)
  (value : string) :
  success (validateData data) = false ->
  let newErrors := newErrorsOf toLowerCase (errors (validateData data)) in
  let w' :=
    {| services := services w; formData := formData w;
       isLoading := isLoading w; errorsState := newErrors |} in
  runUserDialog (handleSubmit toLowerCase data) w
  = (tt, w',
     [Did (R := Resp) PreventDefault tt;
      Did (R := Resp) (ValidateData data) (validateData data);
      Did (R := Resp) (SetErrors newErrors) tt])
  /\ lookup "lastName" newErrors = None
  /\ runUserDialog (updateField newErrors LastName value) w'
     = (tt,
        {| services := services w;
           formData := setField LastName value (formData w);
           isLoading := isLoading w; errorsState := newErrors |},
        [Did (R := Resp) (SetFieldAt LastName value) tt]).
Proof.
  intros Hfail newErrors w'.
  assert (Hnone : lookup "lastName" newErrors = None).
  { subst newErrors. unfold newErrorsOf.
    destruct (errors (validateData data)) as [messages |]; [| reflexivity].
    apply newErrors_no_lastName. reflexivity. }
  split; [| split; [exact Hnone |]].
  - unfold runUserDialog, handleSubmit.
    cbn [bind call run perform]. rewrite Hfail. reflexivity.
  - unfold runUserDialog, updateField, shows. cbn [keyOf].
    rewrite Hnone. reflexivity.
Qed.


(** X20.  Typing in a field sets that field of the form data to what was
    typed and leaves the four others as they were, and clears the message
    shown under that field and no other: afterwards a key shows a message
    exactly when it did before and is not the key of the field, and the
    messages under the other keys are what they were. *)
Theorem X20_typing_clears_only_that_message (field : FieldName)
  (value : string) (w : World RS) (key : string) :
  let w' :=
    snd (fst (runUserDialog (updateField (errorsState w) field value) w)) in
  form_email (formData w')
  = match field with Email => value | _ => form_email (formData w) end
  /\ form_role (formData w')
     = match field with Role => value | _ => form_role (formData w) end
  /\ form_firstName (formData w')
     = match field with
       | FirstName => value
       | _ => form_firstName (formData w)
       end
  /\ form_lastName (formData w')
     = match field with
       | LastName => value
       | _ => form_lastName (formData w)
       end
  /\ form_password (formData w')
     = match field with
       | Password => value
       | _ => form_password (formData w)
       end
  /\ shows key (errorsState w')
     = shows key (errorsState w) && negb (keyOf field =? key)
  /\ lookup key (errorsState w')
     = (if (keyOf field =? key) && shows key (errorsState w)
        then Some "" else lookup key (errorsState w))
  /\ isLoading w' = isLoading w.
Proof.
  unfold runUserDialog, updateField.
  destruct (shows (keyOf field) (errorsState w)) eqn:Hshows;
    cbn [bind call run perform fst snd formData errorsState isLoading].
  - split; [destruct field; reflexivity |].
    split; [destruct field; reflexivity |].
    split; [destruct field; reflexivity |].
    split; [destruct field; reflexivity |].
    split; [destruct field; reflexivity |].
    split; [| split; [| reflexivity]].
    + unfold shows at 1. rewrite lookup_assign.
      destruct (keyOf field =? key) eqn:Hkey;
        [rewrite andb_false_r | rewrite andb_true_r]; reflexivity.
    + rewrite lookup_assign.
      destruct (keyOf field =? key) eqn:Hkey; [| reflexivity].
      apply String.eqb_eq in Hkey. rewrite <- Hkey, Hshows. reflexivity.
  - split; [destruct field; reflexivity |].
    split; [destruct field; reflexivity |].
    split; [destruct field; reflexivity |].
    split; [destruct field; reflexivity |].
    split; [destruct field; reflexivity |].
    split; [| split; [| reflexivity]].
    + destruct (keyOf field =? key) eqn:Hkey;
        [| rewrite andb_true_r; reflexivity].
      apply String.eqb_eq in Hkey. rewrite <- Hkey, Hshows. reflexivity.
    + destruct (keyOf field =? key) eqn:Hkey; [| reflexivity].
      apply String.eqb_eq in Hkey. rewrite <- Hkey, Hshows. reflexivity.
Qed.

End Properties.

Import CreateUserDialog.Scripted.

(** The schema's own message for a missing last name lands under the
    first name. *)
Lemma X17_witness :
  fieldOf lower "Sobrenome é obrigatório" = "firstName".
Proof.
  rewrite (X17_last_name_message_filed_elsewhere lower
             "Sobrenome é obrigatório"); reflexivity.
Defined.

(** A form without last name: the message is kept under [firstName]. *)
Lemma X18_witness :
  lookup "lastName"
    (errorsState
       (snd (fst (runUserDialog (handleSubmit lower noLastName)
                    (fresh (Resolved None) noLastName))))) = None
  /\ lookup "firstName"
       (errorsState
          (snd (fst (runUserDialog (handleSubmit lower noLastName)
                       (fresh (Resolved None) noLastName)))))
     = Some "Sobrenome é obrigatório".
Proof.
  destruct (X18_failed_validation_marks_no_last_name lower noLastName []
              (fresh (Resolved None) noLastName) "Lima")
    as (Hrun & Hnone & _); [reflexivity |].
  rewrite Hrun. split; [exact Hnone | reflexivity].
Defined.


(** Typing a first name clears the message under it, keeps the one under
    the password, and changes no other field. *)
Lemma X20_witness :
  let w' :=
    snd (fst (runUserDialog (updateField (errorsState marked) FirstName "Bia")
                marked)) in
  formData w'
  = {| form_email := "ana@example.com"; form_role := "manager";
       form_firstName := "Bia"; form_lastName := "";
       form_password := "segredo1" |}
  /\ shows "firstName" (errorsState w') = false
  /\ shows "password" (errorsState w') = true.
Proof.
  cbn zeta.
  destruct (X20_typing_clears_only_that_message FirstName "Bia" marked
              "firstName")
    as (Hemail & Hrole & Hfirst & Hlast & Hpassword & Hshows & _).
  destruct (X20_typing_clears_only_that_message FirstName "Bia" marked
              "password") as (_ & _ & _ & _ & _ & Hkept & _).
  split; [| split; [rewrite Hshows; reflexivity
                   | rewrite Hkept; reflexivity]].
  destruct (formData _) as [e r f l p].
  cbn [form_email form_role form_firstName form_lastName form_password] in *.
  subst. reflexivity.
Defined.

End UserFormProperties.

(** ** The details of an opportunity: scheduled actions *)

Module DetailsProperties.
Import OpportunityDetailsTabs.

Lemma PendingOf_pendingActions (actions : list ScheduledAction) :
  PendingOf actions (pendingActions actions).
Proof.
  unfold pendingActions. induction actions as [| action actions IH];
    cbn [filter]; [constructor |].
  destruct (status action =? "pending") eqn:Hs.
  - apply pending_keep; [apply String.eqb_eq; exact Hs | exact IH].
  - apply pending_skip; [apply String.eqb_neq; exact Hs | exact IH].
Qed.

Lemma PendingOf_none (actions : list ScheduledAction) :
  PendingOf actions [] ->
  Forall (fun action => status action <> "pending") actions.
Proof.
  intros Hp. remember [] as pending eqn:Hnil.
  induction Hp as [| action actions pending Hs Hp IH
                  | action actions pending Hs Hp IH];
    [constructor | discriminate |].
  constructor; [exact Hs | exact (IH Hnil)].
Qed.

Lemma PendingOf_some (actions pending : list ScheduledAction) :
  PendingOf actions pending -> pending <> [] ->
  Exists (fun action => status action = "pending") actions.
Proof.
  induction 1 as [| action actions pending Hs Hp IH
                 | action actions pending Hs Hp IH]; intros Hne.
  - contradiction.
  - apply Exists_cons_hd. exact Hs.
  - apply Exists_cons_tl. exact (IH Hne).
Qed.

(** X21.  The card of pending tasks accounts for every pending action.
    With [pending] the actions whose status is [pending], in the order of
    the list: the card is absent exactly when there is none, and then the
    Detalhes tab has no badge.  Otherwise the rows of the card are the
    first of them, three at most; the [+N] line is there exactly when more
    than three are pending and never reads [+0]; and the number of rows
    plus [N] is the number on the badge, which is the number of pending
    actions. *)
Theorem X21_pending_card_accounts_for_all (actions : list ScheduledAction) :
  exists pending,
    PendingOf actions pending
    /\ match pendingCard actions with
       | None =>
           pending = []
           /\ detailsBadge actions = None
           /\ Forall (fun action => status action <> "pending") actions
       | Some card =>
           pending <> []
           /\ Exists (fun action => status action = "pending") actions
           /\ (List.length (rows card) <= 3)%nat
           /\ (exists rest,
                  pending = rows card ++ rest
                  /\ more card
                     = (if (0 <? List.length rest)%nat
                        then Some (List.length rest) else None)
                  /\ (rest = [] \/ List.length (rows card) = 3%nat))
           /\ detailsBadge actions = Some (List.length pending)
       end.
Proof.
  exists (pendingActions actions).
  pose proof (PendingOf_pendingActions actions) as Hp.
  split; [exact Hp |].
  unfold pendingCard, detailsBadge, badge.
  destruct (0 <? List.length (pendingActions actions))%nat eqn:Hsome.
  - apply Nat.ltb_lt in Hsome. cbn [rows more].
    assert (Hne : pendingActions actions <> []).
    { intros Hnil. rewrite Hnil in Hsome. cbn in Hsome. lia. }
    split; [exact Hne |].
    split; [exact (PendingOf_some _ _ Hp Hne) |].
    split; [rewrite length_firstn; lia |].
    split; [| reflexivity].
    exists (skipn 3 (pendingActions actions)).
    rewrite firstn_skipn, length_firstn, length_skipn.
    split; [reflexivity |]. split.
    + destruct (3 <? List.length (pendingActions actions))%nat eqn:Hmore.
      * apply Nat.ltb_lt in Hmore.
        replace (0 <? List.length (pendingActions actions) - 3)%nat
          with true by (symmetry; apply Nat.ltb_lt; lia).
        reflexivity.
      * apply Nat.ltb_ge in Hmore.
        replace (0 <? List.length (pendingActions actions) - 3)%nat
          with false by (symmetry; apply Nat.ltb_ge; lia).
        reflexivity.
    + destruct (Nat.le_gt_cases (List.length (pendingActions actions)) 3)
        as [Hle | Hgt].
      * left. apply skipn_all2. exact Hle.
      * right. lia.
  - apply Nat.ltb_ge in Hsome.
    assert (Hnil : pendingActions actions = []).
    { destruct (pendingActions actions); [reflexivity | cbn in Hsome; lia]. }
    split; [exact Hnil |]. split; [reflexivity |].
    apply PendingOf_none. rewrite <- Hnil. exact Hp.
Qed.

Lemma PendingOf_unique (actions p1 p2 : list ScheduledAction) :
  PendingOf actions p1 -> PendingOf actions p2 -> p1 = p2.
Proof.
  intros H1. revert p2.
  induction H1 as [| action actions pending Hs Hp IH
                  | action actions pending Hs Hp IH];
    intros p2 H2; inversion H2; subst;
    try reflexivity; try contradiction.
  - f_equal. apply IH. assumption.
  - apply IH. assumption.
Qed.

Section Loading.
Context {RS : Type} `{ActionStore RS}.

(** X22.  A load of the scheduled actions that fails keeps the actions
    already shown: the failure is logged, and the tabs render the same
    badges and the same card as before.  A load that succeeds replaces
    them with the answer.  Either way the loading flag is raised before
    the call and lowered at the end. *)
Theorem X22_failed_load_keeps_actions (o : Opportunity) (w : World RS)
  (answer : Result (list ScheduledAction)) (rs1 : RS) :
  id o <> "" ->
  scheduledActionAPI_getByOpportunityId (id o) (services w)
  = (answer, rs1) ->
  let w' := snd (fst (runTabs (loadScheduledActions (Some o)) w)) in
  runTabs (loadScheduledActions (Some o)) w
  = (tt,
     {| services := rs1;
        scheduledActions :=
          match answer with
          | Resolved actions => actions
          | Rejected _ => scheduledActions w
          end;
        loadingActions := false |},
     [Did (R := Resp) (SetLoadingActions true) tt;
      Did (R := Resp) (GetByOpportunityId (id o)) answer;
      match answer with
      | Resolved actions => Did (R := Resp) (SetScheduledActions actions) tt
      | Rejected error =>
          Did (R := Resp)
            (ConsoleError ["Error loading scheduled actions:"; error]) tt
      end;
      Did (R := Resp) (SetLoadingActions false) tt])
  /\ ((forall actions, answer <> Resolved actions) ->
      pendingCard (scheduledActions w') = pendingCard (scheduledActions w)
      /\ detailsBadge (scheduledActions w')
         = detailsBadge (scheduledActions w)
      /\ actionsBadge (scheduledActions w')
         = actionsBadge (scheduledActions w)).
Proof.
  intros Hid Hanswer w'.
  assert (Hrun : runTabs (loadScheduledActions (Some o)) w
                 = (tt,
                    {| services := rs1;
                       scheduledActions :=
                         match answer with
                         | Resolved actions => actions
                         | Rejected _ => scheduledActions w
                         end;
                       loadingActions := false |},
                    [Did (R := Resp) (SetLoadingActions true) tt;
                     Did (R := Resp) (GetByOpportunityId (id o)) answer;
                     match answer with
                     | Resolved actions =>
                         Did (R := Resp) (SetScheduledActions actions) tt
                     | Rejected error =>
                         Did (R := Resp)
                           (ConsoleError
                              ["Error loading scheduled actions:"; error]) tt
                     end;
                     Did (R := Resp) (SetLoadingActions false) tt])).
  { unfold runTabs, loadScheduledActions.
    apply String.eqb_neq in Hid. rewrite Hid.
    cbn [bind call run perform]. cbn [services] in *. rewrite Hanswer.
    destruct answer as [actions | error]; reflexivity. }
  split; [exact Hrun |].
  intros Hfailed. subst w'. rewrite Hrun. cbn [fst snd scheduledActions].
  destruct answer as [actions | error].
  - destruct (Hfailed actions eq_refl).
  - repeat split.
Qed.

End Loading.

Import OpportunityDetailsTabs.Scripted.

(** The store rejects: the one pending action stays on the card. *)
Lemma X22_witness :
  pendingCard
    (scheduledActions
       (snd (fst (runTabs
                    (loadScheduledActions
                       (Some (UseOpportunityDrag.Scripted.o1)))
                    (before (Rejected "offline"))))))
  = Some {| rows := [action "a1" "pending"]; more := None |}.
Proof.
  destruct (X22_failed_load_keeps_actions UseOpportunityDrag.Scripted.o1
              (before (Rejected "offline")) (Rejected "offline")
              (Rejected "offline"))
    as (_ & Hkept); [discriminate | reflexivity |].
  destruct Hkept as (Hcard & _); [discriminate |].
  rewrite Hcard. reflexivity.
Defined.

(** Four pending actions among five: three rows, the line [+1] and the
    badge 4. *)
Lemma X21_witness :
  exists card,
    pendingCard five = Some card
    /\ map action_id (rows card) = ["a1"; "a2"; "a4"]
    /\ more card = Some 1%nat
    /\ detailsBadge five = Some 4%nat.
Proof.
  destruct (X21_pending_card_accounts_for_all five) as (pending & Hp & Hcard).
  assert (Hpending : pending
                     = [action "a1" "pending"; action "a2" "pending";
                        action "a4" "pending"; action "a5" "pending"]).
  { apply (PendingOf_unique five); [exact Hp |]. unfold five.
    repeat first [ apply pending_end
                 | apply pending_keep; [reflexivity |]
                 | apply pending_skip; [discriminate |] ]. }
  subst pending.
  destruct (pendingCard five) as [card |] eqn:E;
    [| destruct Hcard as (Hnil & _); discriminate].
  destruct Hcard as (_ & _ & Hlen & (rest & Hsplit & Hmore & Hor) & Hbadge).
  exists card. split; [reflexivity |].
  destruct Hor as [-> | Hthree].
  - rewrite app_nil_r in Hsplit. rewrite <- Hsplit in Hlen.
    cbn in Hlen. lia.
  - destruct (rows card) as [| r1 [| r2 [| r3 [| r4 more']]]];
      try discriminate.
    injection Hsplit as <- <- <- <-.
    split; [reflexivity |]. split; [exact Hmore | exact Hbadge].
Defined.

End DetailsProperties.
